(** * Tiger programmer: relay sequencer and levels sheet

    A shallow embedding of the relay sequencer ([relay_control.py], the
    PyQt front-end, and [Gui.py], the Tkinter front-end) and of the channel
    table ([levels_sheet_page.py]), followed by the properties proved about
    them.

    Conventions of the embedding.
    - Python integers are [Z]; [&], [|], [~] and [<<] are [Z.land], [Z.lor],
      [Z.lnot] and [Z.shiftl], which agree with Python on negative numbers
      (two's complement with infinitely many sign bits).
    - Python [str] is [string]; a character is a code point below 256.
    - A method that runs on a worker thread is a computation in the monad
      [M]: it reads and updates the [World], may raise, may block on the
      debug checkpoint, and emits the ordered list of [Event]s it performs
      (lock operations, hardware writes, sleeps, log lines, widget calls).
    - [time.sleep(x)] takes a float; durations are kept as exact rationals
      ([0.3%Q] is the literal [0.3]). A negative length makes it raise
      [ValueError]: [time_sleep] is the call on a length nothing bounds,
      [sleep] the call on a literal or on a value a widget keeps in range. *)

From Stdlib Require Import ZArith NArith List String Ascii Bool Lia QArith.
From Stdlib Require Import Decimal DecimalString DecimalNat DecimalPos.
Import ListNotations.

Local Open Scope string_scope.
Local Open Scope list_scope.
Local Open Scope Z_scope.

Local Infix "+s+" := String.append (at level 60, right associativity).

(** ** Python built-ins used by the program *)

Module Py.

(** [range(n)] *)
Definition range (n : nat) : list Z := map Z.of_nat (seq 0 n).

(** [str(i)] for an [int] *)
Definition str (i : Z) : string := NilZero.string_of_int (Z.to_int i).

(** [str(i)] for an index known to be a natural number
    ([enumerate(..., start=1)]). *)
Definition str_nat (n : nat) : string := NilZero.string_of_uint (Nat.to_uint n).

Fixpoint zeros (n : nat) : string :=
  match n with
  | O => ""
  | S k => String "0" (zeros k)
  end.

(** [s.zfill(width)]: pad on the left with ["0"] up to [width]
    characters; a leading sign stays in front of the padding. *)
Definition zfill (width : nat) (s : string) : string :=
  let pad := zeros (width - String.length s) in
  match s with
  | String c rest =>
      if (Ascii.eqb c "+" || Ascii.eqb c "-")%bool
      then String c (pad +s+ rest)
      else pad +s+ s
  | EmptyString => pad
  end.

(** [f"{n:02d}"]: sign-aware zero padding to two characters. *)
Definition format_02d (n : Z) : string := zfill 2 (str n).

(** [c.isspace()] on code points below 256. *)
Definition isspace (c : ascii) : bool :=
  let n := nat_of_ascii c in
  ((Nat.leb 9 n && Nat.leb n 13) || (Nat.leb 28 n && Nat.leb n 32)
   || Nat.eqb n 133 || Nat.eqb n 160)%bool.

(** A line boundary of [str.splitlines] on code points below 256. *)
Definition is_linebreak (c : ascii) : bool :=
  let n := nat_of_ascii c in
  ((Nat.leb 10 n && Nat.leb n 13) || (Nat.leb 28 n && Nat.leb n 30)
   || Nat.eqb n 133)%bool.

Definition LF : ascii := ascii_of_nat 10.
Definition CR : ascii := ascii_of_nat 13.

Fixpoint lstrip (s : string) : string :=
  match s with
  | EmptyString => EmptyString
  | String c rest => if isspace c then lstrip rest else s
  end.

Fixpoint rstrip (s : string) : string :=
  match s with
  | EmptyString => EmptyString
  | String c rest =>
      match rstrip rest with
      | EmptyString => if isspace c then EmptyString else String c EmptyString
      | kept => String c kept
      end
  end.

(** [s.strip()] *)
Definition strip (s : string) : string := rstrip (lstrip s).

(** [s.split(sep)] for a separator of one character. *)
Fixpoint split (sep : ascii) (s : string) : list string :=
  match s with
  | EmptyString => [EmptyString]
  | String c rest =>
      if Ascii.eqb c sep then EmptyString :: split sep rest
      else match split sep rest with
           | [] => [String c EmptyString]
           | field :: fields => String c field :: fields
           end
  end.

(** [s.splitlines()]: [after_cr] records that the previous character was
    a carriage return, whose following line feed belongs to the same
    boundary. *)
Fixpoint splitlines_from (after_cr : bool) (s : string) : list string :=
  match s with
  | EmptyString => []
  | String c rest =>
      if (after_cr && Ascii.eqb c LF)%bool then splitlines_from false rest
      else if is_linebreak c
      then EmptyString :: splitlines_from (Ascii.eqb c CR) rest
      else match splitlines_from false rest with
           | [] => [String c EmptyString]
           | line :: lines => String c line :: lines
           end
  end.

Definition splitlines (s : string) : list string := splitlines_from false s.

(** [sep.join(parts)] *)
Definition join (sep : string) (parts : list string) : string :=
  String.concat sep parts.

(** [s.startswith(p)] *)
Definition startswith (s p : string) : bool := String.prefix p s.

Definition digit_value (c : ascii) : option Z :=
  let n := nat_of_ascii c in
  if (Nat.leb 48 n && Nat.leb n 57)%bool then Some (Z.of_nat (n - 48)) else None.

Fixpoint int_digits (acc : Z) (s : string) : option Z :=
  match s with
  | EmptyString => Some acc
  | String c rest =>
      match digit_value c with
      | Some d => int_digits (10 * acc + d) rest
      | None => None
      end
  end.

(** [int(s)] on the strings the program passes to it: a non-empty run of
    ASCII digits gives its value, and [None] stands for [ValueError].
    Signs, surrounding blanks and underscores, which [int] also accepts,
    are outside the modelled domain; the callers below only pass scene
    digits ["0"].. ["9"]. *)
Definition int (s : string) : option Z :=
  match s with
  | EmptyString => None
  | _ => int_digits 0 s
  end.

(** [d[key]] on a dict kept as an association list in insertion order. *)
Fixpoint dict_get {V : Type} (d : list (string * V)) (key : string) : option V :=
  match d with
  | [] => None
  | (k, v) :: rest => if String.eqb k key then Some v else dict_get rest key
  end.

(** [xs[i]] on a list: a negative index counts from the end, and [None]
    stands for [IndexError]. *)
Definition list_at {A : Type} (xs : list A) (i : Z) : option A :=
  let n := Z.of_nat (List.length xs) in
  if (0 <=? i) && (i <? n) then nth_error xs (Z.to_nat i)
  else if (- n <=? i) && (i <? 0) then nth_error xs (Z.to_nat (n + i))
  else None.

(** [xs[a:b]] for [0 <= a <= b]. *)
Definition slice {A : Type} (a b : nat) (xs : list A) : list A :=
  firstn (b - a) (skipn a xs).

(** [sub in s] on two strings: [sub] occurs somewhere in [s]. *)
Fixpoint contains (s sub : string) : bool :=
  (String.prefix sub s
   || match s with
      | EmptyString => false
      | String _ rest => contains rest sub
      end)%bool.

(** [sorted(xs)] on strings: ascending by code points, equal elements in
    their original order. *)
Fixpoint insert_sorted (x : string) (xs : list string) : list string :=
  match xs with
  | [] => [x]
  | y :: rest => if String.leb x y then x :: xs else y :: insert_sorted x rest
  end.

Definition sorted (xs : list string) : list string := fold_right insert_sorted [] xs.

(** [range(a, b)] *)
Definition range_from (a b : Z) : list Z :=
  map (fun k => a + Z.of_nat k) (seq 0 (Z.to_nat (b - a))).

End Py.

(** ** Events, hardware and the world *)

(** Widgets whose enabled state the sequences touch. *)
Inductive Control : Type :=
| program_button
| allocate_button
| next_step_button
| p_button (channel : nat) (scene_digit : string).

Definition Control_eqb (a b : Control) : bool :=
  match a, b with
  | program_button, program_button => true
  | allocate_button, allocate_button => true
  | next_step_button, next_step_button => true
  | p_button c1 d1, p_button c2 d2 => (Nat.eqb c1 c2 && String.eqb d1 d2)%bool
  | _, _ => false
  end.

Inductive Event : Type :=
| EAcquire                                  (* entering [with self.state_lock] *)
| ERelease                                  (* leaving it *)
| EWrite (word : Z)                         (* [gpio.write(word)] reached the device *)
| ESleep (seconds : Q)                      (* [time.sleep(seconds)] *)
| ELog (line : string)                      (* [global_log(line)] *)
| EClear                                    (* [step_ready.clear()] *)
| EWait                                     (* [step_ready.wait()] entered *)
| ESetEnabled (c : Control) (on : bool)     (* [c.setEnabled(on)] *)
| ESetText (text : string)                  (* [debug_button.setText(text)] *)
| EErrorDialog (title message : string).    (* [_show_error_slot(title, message)] *)

Inductive Exn : Type :=
| KeyError (key : string)
| ValueError (message : string)
| IndexError
| HardwareError.

(** The GPIO controller behind [self.gpio].
    - [Simulated cur] is the dummy [GpioMpsseController] class of
      [relay_control.py], chosen when [SIMULATION_MODE] holds; [cur] is its
      [_current_state].
    - [Ftdi budget] is pyftdi's controller, which lives outside the
      repository. All the program relies on is that a write either reaches
      the device or raises; [budget] is the number of writes the device
      still accepts before it starts raising ([None]: it never fails). *)
Inductive Gpio : Type :=
| Simulated (_current_state : Z)
| Ftdi (budget : option nat).

(** What the operator does while a sequence is suspended at the debug
    checkpoint. *)
Inductive UiAction : Type :=
| ClickNextStep
| ClickDebugMode.

(** One row of the table, as its widgets hold it. *)
Record Row : Type := mkRow {
  zone : string;            (* zone combobox, current text *)
  dim_ref : string;         (* line edit *)
  name : string;            (* line edit *)
  type : string;            (* type combobox, current text *)
  scenes : list nat         (* the ten spin boxes, range 0..99 *)
}.

Record World : Type := mkWorld {
  (* RelayControlApp *)
  current_state : Z;
  hardware_ready : bool;
  duration_spinner : Q;
  gpio : Gpio;
  (* LevelsSheetPage *)
  rows : list Row;
  site_name_entry : string;
  date_entry : string;
  debug_mode : bool;
  step_ready : bool;
  enabled : Control -> bool;
  debug_button_text : string;
  (* the operator's clicks still to come while a thread waits *)
  operator : list UiAction
}.

Definition set_current_state (v : Z) (w : World) : World :=
  mkWorld v (hardware_ready w) (duration_spinner w) (gpio w) (rows w)
          (site_name_entry w) (date_entry w) (debug_mode w) (step_ready w)
          (enabled w) (debug_button_text w) (operator w).

Definition set_gpio (g : Gpio) (w : World) : World :=
  mkWorld (current_state w) (hardware_ready w) (duration_spinner w) g (rows w)
          (site_name_entry w) (date_entry w) (debug_mode w) (step_ready w)
          (enabled w) (debug_button_text w) (operator w).

Definition set_debug_mode (b : bool) (w : World) : World :=
  mkWorld (current_state w) (hardware_ready w) (duration_spinner w) (gpio w) (rows w)
          (site_name_entry w) (date_entry w) b (step_ready w)
          (enabled w) (debug_button_text w) (operator w).

Definition set_step_ready (b : bool) (w : World) : World :=
  mkWorld (current_state w) (hardware_ready w) (duration_spinner w) (gpio w) (rows w)
          (site_name_entry w) (date_entry w) (debug_mode w) b
          (enabled w) (debug_button_text w) (operator w).

Definition set_enabled (c : Control) (on : bool) (w : World) : World :=
  mkWorld (current_state w) (hardware_ready w) (duration_spinner w) (gpio w) (rows w)
          (site_name_entry w) (date_entry w) (debug_mode w) (step_ready w)
          (fun c' => if Control_eqb c' c then on else enabled w c')
          (debug_button_text w) (operator w).

Definition set_debug_button_text (t : string) (w : World) : World :=
  mkWorld (current_state w) (hardware_ready w) (duration_spinner w) (gpio w) (rows w)
          (site_name_entry w) (date_entry w) (debug_mode w) (step_ready w)
          (enabled w) t (operator w).

Definition set_operator (ops : list UiAction) (w : World) : World :=
  mkWorld (current_state w) (hardware_ready w) (duration_spinner w) (gpio w) (rows w)
          (site_name_entry w) (date_entry w) (debug_mode w) (step_ready w)
          (enabled w) (debug_button_text w) ops.

Definition set_rows (table : list Row) (w : World) : World :=
  mkWorld (current_state w) (hardware_ready w) (duration_spinner w) (gpio w) table
          (site_name_entry w) (date_entry w) (debug_mode w) (step_ready w)
          (enabled w) (debug_button_text w) (operator w).

(** ** The monad of worker-thread code *)

Inductive Outcome (A : Type) : Type :=
| Ok (a : A)          (* returned *)
| Raise (e : Exn)     (* an exception left the function *)
| Blocked.            (* suspended for ever in [step_ready.wait()] *)

Arguments Ok {A} a.
Arguments Raise {A} e.
Arguments Blocked {A}.

Record Run (A : Type) : Type := mkRun {
  outcome : Outcome A;
  final : World;
  events : list Event
}.

Arguments mkRun {A} _ _ _.
Arguments outcome {A} _.
Arguments final {A} _.
Arguments events {A} _.

Definition M (A : Type) : Type := World -> Run A.

Definition ret {A : Type} (a : A) : M A := fun w => mkRun (Ok a) w [].

Definition bind {A B : Type} (m : M A) (k : A -> M B) : M B := fun w =>
  let r := m w in
  match outcome r with
  | Ok a => let r' := k a (final r) in
            mkRun (outcome r') (final r') (events r ++ events r')
  | Raise e => mkRun (Raise e) (final r) (events r)
  | Blocked => mkRun Blocked (final r) (events r)
  end.

Notation "x <- m ;; k" := (bind m (fun x => k))
  (at level 61, m at next level, right associativity).
Notation "m ;; k" := (bind m (fun _ => k))
  (at level 61, right associativity).

Definition raise {A : Type} (e : Exn) : M A := fun w => mkRun (Raise e) w [].
Definition emit (e : Event) : M unit := fun w => mkRun (Ok tt) w [e].
Definition gets {A : Type} (f : World -> A) : M A := fun w => mkRun (Ok (f w)) w [].
Definition modify (f : World -> World) : M unit := fun w => mkRun (Ok tt) (f w) [].

(** [for x in xs: body(x)] *)
Fixpoint for_each {A : Type} (xs : list A) (body : A -> M unit) : M unit :=
  match xs with
  | [] => ret tt
  | x :: rest => body x ;; for_each rest body
  end.

(** The characters of a string, as [for digit in s] visits them. *)
Fixpoint chars (s : string) : list string :=
  match s with
  | EmptyString => []
  | String c rest => String c EmptyString :: chars rest
  end.

(** [enumerate(xs, start=1)] *)
Fixpoint enumerate_from {A : Type} (start : nat) (xs : list A) : list (nat * A) :=
  match xs with
  | [] => []
  | x :: rest => (start, x) :: enumerate_from (S start) rest
  end.

(** [time.sleep(seconds)] for a length that cannot be negative: a literal,
    or the value of [QDoubleSpinBox] whose range is 0.1..10. *)
Definition sleep (seconds : Q) : M unit := emit (ESleep seconds).

(** [time.sleep(seconds)] for a length nothing bounds: a negative one
    raises [ValueError] before any time passes. *)
Definition time_sleep (seconds : Q) : M unit :=
  if Qle_bool 0 seconds then sleep seconds
  else raise (ValueError "sleep length must be non-negative").
Definition global_log (line : string) : M unit := emit (ELog line).

Definition setEnabled (c : Control) (on : bool) : M unit :=
  modify (set_enabled c on) ;; emit (ESetEnabled c on).

(** [with self.state_lock: body]; the lock is released when [body] raises. *)
Definition with_state_lock {A : Type} (body : M A) : M A := fun w =>
  let r := body w in
  match outcome r with
  | Blocked => mkRun Blocked (final r) (EAcquire :: events r)
  | _ => mkRun (outcome r) (final r) (EAcquire :: events r ++ [ERelease])
  end.

(** Observations on a run. *)
Definition writes (t : list Event) : list Z :=
  flat_map (fun e => match e with EWrite word => [word] | _ => [] end) t.

Definition log_lines (t : list Event) : list string :=
  flat_map (fun e => match e with ELog line => [line] | _ => [] end) t.

(** The hardware view of a run: lock operations, writes and sleeps, in
    order, without the log lines. *)
Definition is_log (e : Event) : bool :=
  match e with ELog _ => true | _ => false end.

Definition timeline (t : list Event) : list Event :=
  filter (fun e => negb (is_log e)) t.

(** [threading.Thread(target=body, daemon=True).start()]: the thread is run
    to its end before the caller goes on (the sequential view of one
    operation); an exception that ends the thread, or a thread left
    suspended, does not reach the caller. *)
Definition spawn (body : M unit) : M unit := fun w =>
  let r := body w in mkRun (Ok tt) (final r) (events r).

(** ** relay_control.py *)

Module relay_control.

(** [SIMULATION_MODE] is fixed when the module is imported, and the dummy
    controller class is defined exactly when it holds. *)
Definition SIMULATION_MODE (w : World) : bool :=
  match gpio w with
  | Simulated _ => true
  | Ftdi _ => false
  end.

(** [RELAY_PINS = {str(i): i for i in range(10)}] *)
Definition RELAY_PINS : list (string * Z) :=
  map (fun i => (Py.str i, i)) (Py.range 10).

(** [RELAY_PINS[key]] *)
Definition RELAY_PINS_at (key : string) : M Z :=
  match Py.dict_get RELAY_PINS key with
  | Some pin => ret pin
  | None => raise (KeyError key)
  end.

(** The log lines of the dummy controller's [write]: one line per relay
    0..9 whose bit differs between the stored word and the new one. *)
Definition simulated_write_lines (cur state : Z) : list string :=
  let changed_bits := Z.lxor cur state in
  flat_map (fun i =>
    if negb (Z.land changed_bits (Z.shiftl 1 i) =? 0)
    then let relay_state :=
           if negb (Z.land state (Z.shiftl 1 i) =? 0) then "OFF" else "ON" in
         ["[SIMULATION] Relay R" +s+ Py.str i +s+ " -> " +s+ relay_state]
    else []) (Py.range 10).

(** [self.gpio.write(state)] *)
Definition gpio_write (state : Z) : M unit := fun w =>
  match gpio w with
  | Simulated cur =>
      mkRun (Ok tt) (set_gpio (Simulated state) w)
            (map ELog (simulated_write_lines cur state) ++ [EWrite state])
  | Ftdi None => mkRun (Ok tt) w [EWrite state]
  | Ftdi (Some (S n)) => mkRun (Ok tt) (set_gpio (Ftdi (Some n)) w) [EWrite state]
  | Ftdi (Some O) => mkRun (Raise HardwareError) w []
  end.

(** The two branches [global_log("[SIMULATION] " + m)] and
    [global_log(m)] that every message goes through. *)
Definition sim_log (message : string) : M unit :=
  sim <- gets SIMULATION_MODE ;;
  if sim then global_log ("[SIMULATION] " +s+ message) else global_log message.

(** [self.current_state &= ~mask] *)
Definition state_and_not (mask : Z) : M unit :=
  modify (fun w => set_current_state (Z.land (current_state w) (Z.lnot mask)) w).

(** [self.current_state |= mask] *)
Definition state_or (mask : Z) : M unit :=
  modify (fun w => set_current_state (Z.lor (current_state w) mask) w).

(** [self.gpio.write(self.current_state)] *)
Definition write_state : M unit :=
  s <- gets current_state ;; gpio_write s.

(** [(1 << RELAY_PINS["0"]) | (1 << RELAY_PINS["9"])] *)
Definition guard_mask : M Z :=
  p0 <- RELAY_PINS_at "0" ;;
  p9 <- RELAY_PINS_at "9" ;;
  ret (Z.lor (Z.shiftl 1 p0) (Z.shiftl 1 p9)).

(** The guard bracket: R0 and R9 pulled low under the lock ... *)
Definition guard_on : M unit :=
  with_state_lock (m <- guard_mask ;; state_and_not m ;; write_state).

(** ... and released under the lock. *)
Definition guard_off : M unit :=
  with_state_lock (m <- guard_mask ;; state_or m ;; write_state).

Definition _show_error_slot (title message : string) : M unit :=
  emit (EErrorDialog title message).

(** [_toggle_relay_thread(relay_number)], lines 259-283. *)
Definition _toggle_relay_thread (relay_number : string) : M unit :=
  duration <- gets duration_spinner ;;
  pin <- RELAY_PINS_at relay_number ;;
  let pin_mask := Z.shiftl 1 pin in
  sim_log ("R" +s+ relay_number +s+ " ON") ;;
  with_state_lock (state_and_not pin_mask ;; write_state) ;;
  sleep duration ;;
  with_state_lock (state_or pin_mask ;; write_state) ;;
  sim_log ("R" +s+ relay_number +s+ " OFF").

Definition toggle_relay (relay_number : string) : M unit :=
  ready <- gets hardware_ready ;;
  if negb ready then _show_error_slot "Not Ready" "Hardware not ready."
  else spawn (_toggle_relay_thread relay_number).

(** The block every sequence repeats for one relay:
    look the pin up, log ON, clear the bit and write under the lock,
    sleep, set the bit and write under the lock, log OFF. [hold] is the
    expression given to [time.sleep]. *)
Definition press (mode_name relay : string) (hold : M Q) : M unit :=
  pin <- RELAY_PINS_at relay ;;
  let pin_mask := Z.shiftl 1 pin in
  sim_log (mode_name +s+ ": R" +s+ relay +s+ " ON") ;;
  with_state_lock (state_and_not pin_mask ;; write_state) ;;
  d <- hold ;;
  sleep d ;;
  with_state_lock (state_or pin_mask ;; write_state) ;;
  sim_log (mode_name +s+ ": R" +s+ relay +s+ " OFF").

(** [self.duration_spinner.value()] *)
Definition configured : M Q := gets duration_spinner.

(** [_programming_mode_thread()], lines 304-352. *)
Definition _programming_mode_thread : M unit :=
  sim_log "Prog Mode: Start" ;;
  guard_on ;;
  sim_log "Prog Mode: R0 & R9 ON" ;;
  sleep 0.3 ;;
  for_each ["2"; "1"; "2"; "1"] (fun relay =>
    press "Prog Mode" relay configured ;;
    sleep 0.1) ;;
  guard_off ;;
  sim_log "Prog Mode: R0 & R9 OFF" ;;
  sim_log "Prog Mode: End".

Definition programming_mode : M unit :=
  ready <- gets hardware_ready ;;
  if negb ready then _show_error_slot "Not Ready" "Hardware not ready."
  else spawn _programming_mode_thread.

(** [_sequence_mode_thread(mode_name, sequence)], lines 367-415. *)
Definition _sequence_mode_thread (mode_name : string) (sequence : list string) : M unit :=
  sim_log (mode_name +s+ ": Start") ;;
  guard_on ;;
  sim_log (mode_name +s+ ": R0 & R9 ON") ;;
  sleep 0.3 ;;
  for_each sequence (fun relay =>
    press mode_name relay configured ;;
    sleep 0.1) ;;
  guard_off ;;
  sim_log (mode_name +s+ ": R0 & R9 OFF") ;;
  sim_log (mode_name +s+ ": End").

(** [reset_mode()]; [confirmed] is the answer to the question box. *)
Definition reset_mode (confirmed : bool) : M unit :=
  ready <- gets hardware_ready ;;
  if negb ready then _show_error_slot "Not Ready" "Hardware not ready."
  else if confirmed
       then spawn (_sequence_mode_thread "Reset" ["4"; "5"; "6"; "6"])
       else sim_log "Reset canceled.".

(** [_single_press_mode_thread(mode_name, relay_key)], lines 417-473.
    The guard relays are used only when the mode name starts with
    ["Exit Prog Mode"]. *)
Definition _single_press_mode_thread (mode_name relay_key : string) : M unit :=
  sim_log (mode_name +s+ ": Start") ;;
  (if Py.startswith mode_name "Exit Prog Mode"
   then guard_on ;;
        sim_log (mode_name +s+ ": R0 & R9 ON") ;;
        sleep 0.3
   else ret tt) ;;
  press mode_name relay_key configured ;;
  sleep 0.1 ;;
  (if Py.startswith mode_name "Exit Prog Mode"
   then guard_off ;;
        sim_log (mode_name +s+ ": R0 & R9 OFF")
   else ret tt) ;;
  sim_log (mode_name +s+ ": End").

Definition single_press_sequence (mode_name relay_key : string) : M unit :=
  spawn (_single_press_mode_thread mode_name relay_key).

(** [_double_press_mode_thread(mode_name, relay_key1, relay_key2)],
    lines 479-504. *)
Definition _double_press_mode_thread (mode_name relay_key1 relay_key2 : string) : M unit :=
  sim_log (mode_name +s+ ": Start") ;;
  with_state_lock (
    p1 <- RELAY_PINS_at relay_key1 ;;
    p2 <- RELAY_PINS_at relay_key2 ;;
    state_and_not (Z.lor (Z.shiftl 1 p1) (Z.shiftl 1 p2)) ;;
    write_state) ;;
  sim_log (mode_name +s+ ": R" +s+ relay_key1 +s+ " & R" +s+ relay_key2 +s+ " ON") ;;
  d <- configured ;;
  sleep d ;;
  with_state_lock (
    p1 <- RELAY_PINS_at relay_key1 ;;
    p2 <- RELAY_PINS_at relay_key2 ;;
    state_or (Z.lor (Z.shiftl 1 p1) (Z.shiftl 1 p2)) ;;
    write_state) ;;
  sim_log (mode_name +s+ ": R" +s+ relay_key1 +s+ " & R" +s+ relay_key2 +s+ " OFF") ;;
  sim_log (mode_name +s+ ": End").

(** The mode buttons: each checks [hardware_ready] and starts a thread. *)
Definition when_ready (body : M unit) : M unit :=
  ready <- gets hardware_ready ;;
  if negb ready then _show_error_slot "Not Ready" "Hardware not ready."
  else spawn body.

Definition scene_mode (scene_digit : string) : M unit :=
  when_ready (_single_press_mode_thread ("Scene Mode (" +s+ scene_digit +s+ ")") scene_digit).
Definition channel_mode : M unit :=
  when_ready (_single_press_mode_thread "Channel Mode" "2").
Definition level_mode : M unit :=
  when_ready (_single_press_mode_thread "Level Mode" "3").
Definition fade_short_mode : M unit :=
  when_ready (_single_press_mode_thread "Fade Short" "4").
Definition fade_long_mode : M unit :=
  when_ready (_single_press_mode_thread "Fade Long" "5").
Definition circuit_activation : M unit :=
  when_ready (_single_press_mode_thread "Circuit Act." "6").
Definition copy_mode : M unit :=
  when_ready (_single_press_mode_thread "Copy" "7").
Definition exit_programming_mode : M unit :=
  when_ready (_single_press_mode_thread "Exit Prog Mode" "8").
Definition zone_left : M unit :=
  when_ready (_sequence_mode_thread "Zone Left" ["8"; "7"; "1"; "1"]).
Definition zone_right : M unit :=
  when_ready (_sequence_mode_thread "Zone Right" ["8"; "7"; "2"; "2"]).
Definition quick_scene : M unit :=
  when_ready (_double_press_mode_thread "Quick Scene" "1" "5").
Definition quick_circuit : M unit :=
  when_ready (_double_press_mode_thread "Quick Circuit" "2" "6").
Definition quick_level : M unit :=
  when_ready (_double_press_mode_thread "Quick Level" "3" "7").
Definition quick_fade : M unit :=
  when_ready (_double_press_mode_thread "Quick Fade" "4" "8").

(** [program_zone(zone, debug_callback)], lines 606-944: the zone-left
    gesture, the zone digit, the zone-right gesture, the zone digit again. *)
Definition program_zone (zone : string) (debug_callback : option (M unit)) : M unit :=
  ready <- gets hardware_ready ;;
  if negb ready then _show_error_slot "Not Ready" "Hardware not ready."
  else
    let wait_for_debug :=
      match debug_callback with
      | Some callback => callback
      | None => ret tt
      end in
    sim_log "=== STEP 2: Set Zone Left ===" ;;
    wait_for_debug ;;
    (* Zone Left Sequence *)
    sim_log "Zone Left: Start" ;;
    guard_on ;;
    sim_log "Zone Left: R0 & R9 ON" ;;
    sleep 0.5 ;;
    for_each ["8"; "7"] (fun relay =>
      press "Zone Left" relay (ret 0.5%Q) ;;
      sleep 0.3) ;;
    (* First R1 *)
    press "Zone Left" "1" (ret 0.5%Q) ;;
    sim_log "wait 0.3 secs" ;;
    sleep 0.3 ;;
    (* Second R1 *)
    press "Zone Left" "1" (ret 0.5%Q) ;;
    sleep 0.3 ;;
    guard_off ;;
    sim_log "Zone Left: R0 & R9 OFF" ;;
    sim_log "Zone Left: End" ;;
    (* Send zone digit *)
    sim_log "Zone Left Digit: Start" ;;
    press "Zone Left Digit" zone configured ;;
    sim_log "Zone Left Digit: End" ;;
    sim_log "wait 1 sec" ;;
    sleep 1.0 ;;
    wait_for_debug ;;
    sim_log "=== STEP 3: Set Zone Right ===" ;;
    wait_for_debug ;;
    (* Zone Right Sequence *)
    sim_log "Zone Right: Start" ;;
    guard_on ;;
    sim_log "Zone Right: R0 & R9 ON" ;;
    sleep 0.5 ;;
    for_each ["8"; "7"] (fun relay =>
      press "Zone Right" relay (ret 0.5%Q) ;;
      sleep 0.3) ;;
    (* First R2 *)
    press "Zone Right" "2" (ret 0.5%Q) ;;
    (* Second R2 *)
    press "Zone Right" "2" (ret 0.5%Q) ;;
    sleep 0.3 ;;
    guard_off ;;
    sim_log "Zone Right: R0 & R9 OFF" ;;
    sim_log "Zone Right: End" ;;
    sim_log "wait 0.3 secs" ;;
    sleep 0.3 ;;
    (* Send zone digit *)
    sim_log "Zone Right Digit: Start" ;;
    press "Zone Right Digit" zone configured ;;
    sim_log "Zone Right Digit: End" ;;
    sim_log "wait 2 sec" ;;
    sleep 2.0 ;;
    wait_for_debug ;;
    sim_log ("Zone programming complete for zone " +s+ zone) ;;
    sim_log "wait 2 sec" ;;
    sleep 2.0 ;;
    wait_for_debug.

(** The nested [execute_sequence] of [_play_scene_level_sequence],
    lines 972-1074. *)
Definition _play_scene_level_sequence_execute_sequence
    (channel : nat) (scene_digit level_value : string)
    (callback : option (M unit)) : M unit :=
  sim_log "=== STEP 1: Exit Programming Mode ===" ;;
  _single_press_mode_thread "Exit Prog Mode" "8" ;;
  sleep 1.0 ;;
  sim_log "=== STEP 2: Enter Programming Mode ===" ;;
  _programming_mode_thread ;;
  sleep 1.0 ;;
  sim_log "=== STEP 3: Quick Scene Mode ===" ;;
  _double_press_mode_thread "Quick Scene" "1" "5" ;;
  sleep 1.0 ;;
  sim_log ("=== STEP 4: Quick Scene Digit (" +s+ scene_digit +s+ ") ===") ;;
  _single_press_mode_thread "Quick Scene Digit" scene_digit ;;
  sleep 1.0 ;;
  sim_log "=== STEP 5: Quick Circuit Mode ===" ;;
  _double_press_mode_thread "Quick Circuit" "2" "6" ;;
  sleep 1.0 ;;
  sim_log ("=== STEP 6: Circuit Digit (" +s+ Py.str_nat channel +s+ ") ===") ;;
  let ch_str := Py.zfill 2 (Py.str_nat channel) in
  for_each (chars ch_str) (fun digit =>
    _single_press_mode_thread "Circuit Digit" digit ;;
    sleep 1.0) ;;
  sim_log "=== STEP 7: Quick Level Mode ===" ;;
  _double_press_mode_thread "Quick Level" "3" "7" ;;
  sleep 1.0 ;;
  sim_log ("=== STEP 8: Level Digit (" +s+ level_value +s+ ") ===") ;;
  let level_digits := Py.zfill 2 level_value in
  for_each (chars level_digits) (fun digit =>
    _single_press_mode_thread "Level Digit" digit ;;
    sleep 1.0) ;;
  sim_log "=== STEP 9: Exit Programming Mode ===" ;;
  _single_press_mode_thread "Exit Prog Mode" "8" ;;
  sleep 1.0 ;;
  sim_log ("=== COMPLETE: Play done for channel " +s+ Py.str_nat channel
           +s+ ", scene " +s+ scene_digit +s+ " with level " +s+ level_value
           +s+ " ===") ;;
  match callback with
  | Some cb => cb
  | None => ret tt
  end.

(** [_play_scene_level_sequence], lines 959-1077: starts
    [execute_sequence] on a thread of its own. *)
Definition _play_scene_level_sequence
    (channel : nat) (scene_digit level_value : string)
    (callback : option (M unit)) : M unit :=
  spawn (_play_scene_level_sequence_execute_sequence channel scene_digit level_value callback).

(** [play_scene_level], lines 948-957. *)
Definition play_scene_level
    (channel : nat) (scene_digit level_value : string)
    (callback : option (M unit)) : M unit :=
  sim_log ("Playing channel " +s+ Py.str_nat channel +s+ ", scene " +s+ scene_digit
           +s+ " with level " +s+ level_value) ;;
  spawn (_play_scene_level_sequence channel scene_digit level_value callback).


(** [_test_all_relays_thread()], lines 292-295. *)
Definition _test_all_relays_thread : M unit :=
  for_each (Py.sorted (map fst RELAY_PINS)) (fun relay =>
    _toggle_relay_thread relay ;;
    sleep 0.2).

(** [test_all_relays()], lines 285-290. *)
Definition test_all_relays : M unit :=
  ready <- gets hardware_ready ;;
  if negb ready then _show_error_slot "Not Ready" "Hardware not ready."
  else spawn _test_all_relays_thread.

End relay_control.


(** ** levels_sheet_page.py *)

Module levels_sheet_page.

Import relay_control.

(** [self.scene_labels] *)
Definition scene_labels : list string :=
  map (fun i => "Scene " +s+ Py.str i) (map (fun k => 1 + k) (Py.range 9)) ++ ["Scene 0"].

(** An entry of [read_table_data] (its channel is an [int]) or of
    [parse_csv] (its channel is the text of the first cell). *)
Record Entry (C : Type) : Type := mkEntry {
  channel : C;
  entry_zone : string;
  dimRef : string;
  entry_name : string;
  entry_type : string;
  entry_scenes : list string
}.

Arguments mkEntry {C} _ _ _ _ _ _.
Arguments channel {C} _.
Arguments entry_zone {C} _.
Arguments dimRef {C} _.
Arguments entry_name {C} _.
Arguments entry_type {C} _.
Arguments entry_scenes {C} _.

(** [read_table_data()], lines 327-339. *)
Definition read_table_data (w : World) : list (Entry nat) :=
  map (fun '(idx, row) =>
         mkEntry idx (zone row) (dim_ref row) (name row) (type row)
                 (map (fun spin => Py.format_02d (Z.of_nat spin)) (scenes row)))
      (enumerate_from 1 (rows w)).

(** [generate_csv_data()], lines 300-325. *)
Definition generate_csv_data (w : World) : string :=
  let site_name := Py.strip (site_name_entry w) in
  let site_date := Py.strip (date_entry w) in
  let line1 := ["Site Name:"; site_name] ++ repeat "" 13 in
  let line2 := ["Date:"; site_date] ++ repeat "" 13 in
  let headers := ["Channel"; "Zone"; "Dim Ref"; "Name"; "Type"] ++ scene_labels in
  let table_data := read_table_data w in
  let lines :=
    [Py.join "," line1; Py.join "," line2; Py.join "," headers]
    ++ map (fun entry =>
              Py.join "," ([Py.str_nat (channel entry); entry_zone entry; dimRef entry;
                            entry_name entry; entry_type entry] ++ entry_scenes entry))
           table_data in
  Py.join (String Py.LF "") lines.

Record Parsed : Type := mkParsed {
  siteName : string;
  siteDate : string;
  parsed_rows : list (Entry string)
}.

(** The loop over [lines[3:]] of [parse_csv]: a line with fewer than 15
    cells is skipped. *)
Definition parse_csv_rows (lines : list string) : list (Entry string) :=
  flat_map (fun line =>
    let cells := map Py.strip (Py.split "," line) in
    if (List.length cells <? 15)%nat then []
    else match cells with
         | c0 :: c1 :: c2 :: c3 :: c4 :: _ =>
             [mkEntry c0 c1 c2 c3 c4 (Py.slice 5 15 cells)]
         | _ => []
         end) lines.

(** [parse_csv(csv_text)], lines 341-366. *)
Definition parse_csv (csv_text : string) : Exn + Parsed :=
  let lines := filter (fun line => negb (String.eqb (Py.strip line) ""))
                      (Py.splitlines csv_text) in
  if (List.length lines <? 4)%nat
  then inl (ValueError "CSV does not have enough lines.")
  else
    match nth_error (Py.split "," (nth 0 lines "")) 1,
          nth_error (Py.split "," (nth 1 lines "")) 1 with
    | Some name_cell, Some date_cell =>
        let site_name := Py.strip name_cell in
        let raw_date := Py.strip date_cell in
        let site_date := raw_date in
        inr (mkParsed site_name site_date (parse_csv_rows (skipn 3 lines)))
    | _, _ => inl IndexError
    end.

(** [self.step_ready.set()] *)
Definition step_ready_set : M unit := modify (set_step_ready true).

(** [self.step_ready.clear()] *)
Definition step_ready_clear : M unit :=
  modify (set_step_ready false) ;; emit EClear.

(** [toggle_debug_mode()], lines 402-413. *)
Definition toggle_debug_mode : M unit :=
  modify (fun w => set_debug_mode (negb (debug_mode w)) w) ;;
  on <- gets debug_mode ;;
  (if on
   then modify (set_debug_button_text "Debug Mode: ON") ;;
        emit (ESetText "Debug Mode: ON") ;;
        setEnabled next_step_button true
   else modify (set_debug_button_text "Debug Mode: OFF") ;;
        emit (ESetText "Debug Mode: OFF") ;;
        setEnabled next_step_button false ;;
        (* Signal any waiting threads to continue *)
        step_ready_set) ;;
  on' <- gets debug_mode ;;
  global_log ("Debug mode " +s+ (if on' then "enabled" else "disabled")).

(** [on_next_step()], lines 415-418. *)
Definition on_next_step : M unit :=
  global_log "Proceeding to next step..." ;;
  step_ready_set.

(** What one operator action does on the UI thread; a click on a disabled
    button does not reach its handler. *)
Definition ui_handler (a : UiAction) : M unit :=
  match a with
  | ClickNextStep =>
      on <- gets (fun w => enabled w next_step_button) ;;
      if on then on_next_step else ret tt
  | ClickDebugMode => toggle_debug_mode
  end.

(** [self.step_ready.wait()]: returns at once when the event is set;
    otherwise the thread stays suspended while the operator acts, until
    an action sets the event, and for ever when none does. *)
Fixpoint step_ready_wait_from (pending : list UiAction) : M unit := fun w =>
  if step_ready w then mkRun (Ok tt) (set_operator pending w) []
  else match pending with
       | [] => mkRun Blocked (set_operator [] w) []
       | a :: rest => (ui_handler a ;; step_ready_wait_from rest) w
       end.

Definition step_ready_wait : M unit :=
  emit EWait ;;
  pending <- gets operator ;;
  step_ready_wait_from pending.

(** [wait_for_next_step()], lines 420-425. *)
Definition wait_for_next_step : M unit := fun w =>
  if debug_mode w
  then (global_log "Waiting for Next Step button..." ;;
        step_ready_clear ;;
        step_ready_wait) w
  else ret tt w.

(** [int(scene_digit)], [ValueError] when it is not a number. *)
Definition int_of (s : string) : M Z :=
  match Py.int s with
  | Some n => ret n
  | None => raise (ValueError s)
  end.

(** [row['scenes'][scene_index].value()] *)
Definition scene_value (row : Row) (scene_index : Z) : M nat :=
  match Py.list_at (scenes row) scene_index with
  | Some v => ret v
  | None => raise IndexError
  end.

(** The loop of lines 453-458 that fills [channels_to_program]. *)
Fixpoint collect_channels (scene_digit target : string)
    (indexed : list (nat * Row)) (channels_to_program : list (nat * string))
    : M (list (nat * string)) :=
  match indexed with
  | [] => ret channels_to_program
  | (idx, row) :: rest =>
      if String.eqb (zone row) target
      then scene_index <- (if String.eqb scene_digit "0" then ret 9
                           else n <- int_of scene_digit ;; ret (n - 1)) ;;
           v <- scene_value row scene_index ;;
           let level_value := Py.format_02d (Z.of_nat v) in
           collect_channels scene_digit target rest
                            (channels_to_program ++ [(idx, level_value)])
      else collect_channels scene_digit target rest channels_to_program
  end.

(** The body of the loop of lines 483-532, for one collected channel. *)
Definition program_channel (scene_digit target : string) (entry : nat * string) : M unit :=
  let '(idx, level_value) := entry in
  global_log ("=== Programming channel " +s+ Py.str_nat idx +s+ " with level "
              +s+ level_value +s+ " for scene " +s+ scene_digit
              +s+ " (zone " +s+ target +s+ ") ===") ;;
  global_log ("=== STEP 7: Quick Circuit Operation (Channel " +s+ Py.str_nat idx +s+ ") ===") ;;
  _double_press_mode_thread "Quick Circuit" "2" "6" ;;
  sleep 0.5 ;;
  global_log "wait 0.2secs" ;;
  sleep 0.2 ;;
  wait_for_next_step ;;
  global_log ("=== STEP 8: Circuit Digits " +s+ Py.str_nat idx
              +s+ " (Channel " +s+ Py.str_nat idx +s+ ") ===") ;;
  let ch_str := Py.zfill 2 (Py.str_nat idx) in
  for_each (chars ch_str) (fun digit =>
    _single_press_mode_thread "Circuit Digit" digit ;;
    sleep 0.5 ;;
    wait_for_next_step) ;;
  global_log "wait 0.2secs" ;;
  sleep 0.2 ;;
  global_log ("=== STEP 9: Quick Level Operation (Channel " +s+ Py.str_nat idx +s+ ") ===") ;;
  _double_press_mode_thread "Quick Level" "3" "7" ;;
  sleep 0.5 ;;
  global_log "wait 0.2secs" ;;
  sleep 0.2 ;;
  wait_for_next_step ;;
  global_log ("=== STEP 10: Level Digits " +s+ level_value
              +s+ " (Channel " +s+ Py.str_nat idx +s+ ") ===") ;;
  let level_digits := Py.zfill 2 level_value in
  for_each (chars level_digits) (fun digit =>
    _single_press_mode_thread "Level Digit" digit ;;
    sleep 0.5 ;;
    wait_for_next_step) ;;
  global_log "wait 0.2secs" ;;
  sleep 0.2 ;;
  global_log ("=== Channel " +s+ Py.str_nat idx +s+ " programmed ===").

(** [program_scene_levels_sequence(scene_digit, zone)], lines 427-543. *)
Definition program_scene_levels_sequence (scene_digit target : string) : M unit :=
  global_log "=== Starting programming sequence ===" ;;
  global_log "=== STEP 1: Exit Programming Mode ===" ;;
  _single_press_mode_thread "Exit Prog Mode" "8" ;;
  sleep 0.2 ;;
  wait_for_next_step ;;
  debugging <- gets debug_mode ;;
  program_zone target (if debugging then Some wait_for_next_step else None) ;;
  sleep 0.5 ;;
  global_log "=== STEP 4: Enter Programming Mode ===" ;;
  _programming_mode_thread ;;
  sleep 0.5 ;;
  global_log "wait 0.2secs" ;;
  sleep 0.2 ;;
  wait_for_next_step ;;
  table <- gets rows ;;
  channels_to_program <- collect_channels scene_digit target (enumerate_from 1 table) [] ;;
  global_log "=== STEP 5: Quick Scene Operation ===" ;;
  _double_press_mode_thread "Quick Scene" "1" "5" ;;
  sleep 0.5 ;;
  global_log "wait 0.2secs" ;;
  sleep 0.2 ;;
  wait_for_next_step ;;
  global_log ("=== STEP 6: Scene Digit " +s+ scene_digit +s+ " ===") ;;
  _single_press_mode_thread "Scene digit" scene_digit ;;
  sleep 0.5 ;;
  global_log "wait 0.2secs" ;;
  sleep 0.2 ;;
  wait_for_next_step ;;
  for_each channels_to_program (program_channel scene_digit target) ;;
  global_log "=== STEP 11: Exit Programming Mode ===" ;;
  _single_press_mode_thread "Exit Prog Mode" "8" ;;
  sleep 0.5 ;;
  wait_for_next_step ;;
  global_log "=== Programming sequence complete ===" ;;
  setEnabled program_button true.

(** [on_program_scene_levels()], lines 368-400; the three arguments are
    what the two item dialogs and the confirmation box return. *)
Definition on_program_scene_levels
    (scene_choice zone_choice : option string) (confirm : bool) : M unit :=
  match scene_choice with
  | None => ret tt
  | Some scene_digit =>
      match zone_choice with
      | None => ret tt
      | Some target =>
          if negb confirm then ret tt
          else setEnabled program_button false ;;
               spawn (program_scene_levels_sequence scene_digit target)
      end
  end.

(** The body of the loop of lines 605-620, for one row. *)
Definition allocate_row (target : string) (entry : nat * Row) : M unit :=
  let '(idx, row) := entry in
  let alloc_digit := if String.eqb (zone row) target then "1" else "0" in
  global_log ("=== Allocating channel " +s+ Py.str_nat idx +s+ " with digit "
              +s+ alloc_digit +s+ " ===") ;;
  let ch_str := Py.zfill 2 (Py.str_nat idx) in
  for_each (chars ch_str) (fun digit =>
    _single_press_mode_thread "Circuit Digit" digit ;;
    sleep 0.5 ;;
    wait_for_next_step) ;;
  _single_press_mode_thread "Circuit Act Digit" alloc_digit ;;
  sleep 0.5 ;;
  wait_for_next_step.

(** The nested [execute_sequence] of [allocate_to_zones_sequence],
    lines 583-631. *)
Definition allocate_to_zones_sequence_execute_sequence (target : string) : M unit :=
  global_log "=== Starting allocation sequence ===" ;;
  global_log "=== STEP 1: Exit Programming Mode ===" ;;
  _single_press_mode_thread "Exit Prog Mode" "8" ;;
  sleep 0.5 ;;
  wait_for_next_step ;;
  debugging <- gets debug_mode ;;
  program_zone target (if debugging then Some wait_for_next_step else None) ;;
  sleep 0.5 ;;
  global_log "=== STEP 4: Enter Programming Mode ===" ;;
  _programming_mode_thread ;;
  sleep 0.5 ;;
  wait_for_next_step ;;
  global_log "=== STEP 5: Allocate Channels ===" ;;
  table <- gets rows ;;
  for_each (enumerate_from 1 table) (allocate_row target) ;;
  global_log "=== STEP 6: Exit Programming Mode ===" ;;
  _single_press_mode_thread "Exit Prog Mode" "8" ;;
  sleep 0.5 ;;
  wait_for_next_step ;;
  global_log "=== Allocation sequence complete ===" ;;
  setEnabled allocate_button true.

(** [allocate_to_zones_sequence(zone)], lines 581-634. *)
Definition allocate_to_zones_sequence (target : string) : M unit :=
  spawn (allocate_to_zones_sequence_execute_sequence target).

(** [on_allocate_to_zones()], lines 555-579. *)
Definition on_allocate_to_zones (zone_choice : option string) (confirm : bool) : M unit :=
  match zone_choice with
  | None => ret tt
  | Some target =>
      if negb confirm then ret tt
      else setEnabled allocate_button false ;;
           spawn (allocate_to_zones_sequence target)
  end.

(** [play_level_with_lock(button, channel, scene_digit, level_value)],
    lines 203-208; the button is the "P" button of that cell. *)
Definition play_level_with_lock
    (button : Control) (ch : nat) (scene_digit level_value : string) : M unit :=
  setEnabled button false ;;
  play_scene_level ch scene_digit level_value (Some (setEnabled button true)).

(** [self.scene_defaults] *)
Definition scene_defaults : list string :=
  ["90"; "70"; "50"; "30"; "99"; "99"; "99"; "99"; "99"; "00"].

(** The items [create_row] gives to the zone and type comboboxes. *)
Definition zone_items : list string :=
  ["1"; "2"; "3"; "4"; "5"; "6"; "7"; "8"; "9"; "0"].
Definition type_items : list string := ["Dimmed"; "Switched"; "Switched1to10"].

(** [combo.setCurrentText(text)] on a combobox that is not editable (Qt):
    the item with that text becomes the current one when there is such an
    item, and nothing changes otherwise. *)
Definition setCurrentText (items : list string) (text current : string) : string :=
  if existsb (String.eqb text) items then text else current.

(** [spin.setValue(v)] on a spin box of range 0..99 (Qt): the value is
    brought into the range. *)
Definition setValue (v : Z) : nat := Z.to_nat (Z.max 0 (Z.min 99 v)).

(** [xs[i]], raising [IndexError] out of range. *)
Definition item {A : Type} (xs : list A) (i : Z) : M A :=
  match Py.list_at xs i with
  | Some x => ret x
  | None => raise IndexError
  end.

Fixpoint update_nth {A : Type} (n : nat) (f : A -> A) (xs : list A) : list A :=
  match xs, n with
  | [], _ => []
  | x :: rest, O => f x :: rest
  | x :: rest, S k => x :: update_nth k f rest
  end.

(** A widget call on the row [self.rows[i]]: the row changes in place. *)
Definition update_row (i : Z) (f : Row -> Row) : M unit :=
  modify (fun w => set_rows (update_nth (Z.to_nat i) f (rows w)) w).

Definition with_zone (v : string) (row : Row) : Row :=
  mkRow v (dim_ref row) (name row) (type row) (scenes row).
Definition with_dim_ref (v : string) (row : Row) : Row :=
  mkRow (zone row) v (name row) (type row) (scenes row).
Definition with_name (v : string) (row : Row) : Row :=
  mkRow (zone row) (dim_ref row) v (type row) (scenes row).
Definition with_type (v : string) (row : Row) : Row :=
  mkRow (zone row) (dim_ref row) (name row) v (scenes row).
Definition with_scene (j : Z) (v : nat) (row : Row) : Row :=
  mkRow (zone row) (dim_ref row) (name row) (type row)
        (update_nth (Z.to_nat j) (fun _ => v) (scenes row)).

(** The scene loop of [create_row], lines 171-199: one spin box per scene
    column, set to the column's default, and one "P" button beside it,
    which is a new widget and so is enabled. *)
Fixpoint create_scenes (row_num : Z) (indices : list Z) (spins : list nat)
    : M (list nat) :=
  match indices with
  | [] => ret spins
  | i :: rest =>
      default_val <- (if i =? 9 then ret "00" else item scene_defaults i) ;;
      v <- int_of default_val ;;
      let scene_digit := if i <? 9 then Py.str (i + 1) else "0" in
      modify (set_enabled (p_button (Z.to_nat row_num) scene_digit) true) ;;
      create_scenes row_num rest (spins ++ [setValue v])
  end.

(** [create_row(row_num)], lines 141-201. The row is known by the state
    of its widgets; where the widgets sit in the layout is not part of
    the [World]. *)
Definition create_row (row_num : Z) : M Row :=
  let zone := setCurrentText zone_items "1" "1" in
  let type := setCurrentText type_items "Dimmed" "Dimmed" in
  spins <- create_scenes row_num (Py.range 10) [] ;;
  ret (mkRow zone "" "" type spins).

(** The body of the restoring loop of [rebuild_table], lines 231-243, for
    the row of index [i]. *)
Definition restore_row (old_data : list (Entry nat)) (i : Z) : M unit :=
  data <- item old_data i ;;
  table <- gets rows ;;
  row <- item table i ;;
  update_row i (fun r => with_zone (setCurrentText zone_items (entry_zone data) (zone r)) r) ;;
  update_row i (with_dim_ref (dimRef data)) ;;
  update_row i (with_name (entry_name data)) ;;
  update_row i (fun r => with_type (setCurrentText type_items (entry_type data) (type r)) r) ;;
  for_each (Py.range (List.length (scenes row))) (fun j =>
    if j <? Z.of_nat (List.length (entry_scenes data))
    then text <- item (entry_scenes data) j ;;
         v <- int_of text ;;
         update_row i (with_scene j (setValue v))
    else ret tt).

(** [rebuild_table(num_channels)], lines 210-243: the old widgets are
    deleted, the rows are created anew and the saved data is put back. *)
Definition rebuild_table (num_channels : Z) : M unit :=
  table <- gets rows ;;
  old_data <- (match table with
               | [] => ret []
               | _ => gets read_table_data
               end) ;;
  modify (set_rows []) ;;
  for_each (Py.range_from 1 (num_channels + 1)) (fun i =>
    row <- create_row i ;;
    modify (fun w => set_rows (rows w ++ [row]) w)) ;;
  for_each (Py.range_from 0 (Z.min num_channels (Z.of_nat (List.length old_data))))
           (restore_row old_data).

End levels_sheet_page.

(** ** Gui.py, the Tkinter front-end *)

Module Gui.

(** [RELAY_PINS = {str(i): i for i in range(10)}] *)
Definition RELAY_PINS : list (string * Z) :=
  map (fun i => (Py.str i, i)) (Py.range 10).

Definition RELAY_PINS_at (key : string) : M Z :=
  match Py.dict_get RELAY_PINS key with
  | Some pin => ret pin
  | None => raise (KeyError key)
  end.

(** [self.log(message)] *)
Definition log (message : string) : M unit := global_log message.

(** [self.gpio.write(self.current_state)]; the controller is pyftdi's. *)
Definition write_state : M unit :=
  s <- gets current_state ;; relay_control.gpio_write s.

Definition state_and_not (mask : Z) : M unit :=
  modify (fun w => set_current_state (Z.land (current_state w) (Z.lnot mask)) w).

Definition state_or (mask : Z) : M unit :=
  modify (fun w => set_current_state (Z.lor (current_state w) mask) w).

Definition guard_mask : M Z :=
  p0 <- RELAY_PINS_at "0" ;;
  p9 <- RELAY_PINS_at "9" ;;
  ret (Z.lor (Z.shiftl 1 p0) (Z.shiftl 1 p9)).

Definition guard_on : M unit :=
  with_state_lock (m <- guard_mask ;; state_and_not m ;; write_state).

Definition guard_off : M unit :=
  with_state_lock (m <- guard_mask ;; state_or m ;; write_state).

(** [self.duration_var.get()]: the number held by the [tk.DoubleVar]
    behind the duration spin box. The [ttk.Spinbox] validates nothing, so
    the operator can type any number there, a negative one included; the
    [from_] and [to] of the widget only bound its arrows. (A text that is
    not a number makes [get()] raise [TclError]; the world holds a number.) *)
Definition configured : M Q := gets duration_spinner.

(** The block repeated for one relay in every sequence of [Gui.py]; the
    length given to [time.sleep] is read when the relay is already ON. *)
Definition press (mode_name relay : string) : M unit :=
  pin <- RELAY_PINS_at relay ;;
  let pin_mask := Z.shiftl 1 pin in
  log (mode_name +s+ ": R" +s+ relay +s+ " ON") ;;
  with_state_lock (state_and_not pin_mask ;; write_state) ;;
  d <- configured ;;
  time_sleep d ;;
  with_state_lock (state_or pin_mask ;; write_state) ;;
  log (mode_name +s+ ": R" +s+ relay +s+ " OFF").

(** [_programming_mode_thread()], lines 213-236. *)
Definition _programming_mode_thread : M unit :=
  log "Prog Mode: Start" ;;
  guard_on ;;
  log "Prog Mode: R0 & R9 held" ;;
  sleep 0.3 ;;
  for_each ["2"; "1"; "2"; "1"] (fun relay =>
    press "Prog Mode" relay ;;
    sleep 0.1) ;;
  guard_off ;;
  log "Prog Mode: End".

(** [_single_press_mode_thread(mode_name, relay_key)], lines 253-275. *)
Definition _single_press_mode_thread (mode_name relay_key : string) : M unit :=
  log (mode_name +s+ ": Start") ;;
  guard_on ;;
  log (mode_name +s+ ": R0 & R9 held") ;;
  sleep 0.3 ;;
  press mode_name relay_key ;;
  sleep 0.1 ;;
  guard_off ;;
  log (mode_name +s+ ": End").

(** [_sequence_mode_thread(mode_name, sequence)], lines 277-300. *)
Definition _sequence_mode_thread (mode_name : string) (sequence : list string) : M unit :=
  log (mode_name +s+ ": Start") ;;
  guard_on ;;
  log (mode_name +s+ ": R0 & R9 held") ;;
  sleep 0.3 ;;
  for_each sequence (fun relay =>
    press mode_name relay ;;
    sleep 0.1) ;;
  guard_off ;;
  log (mode_name +s+ ": End").

Definition when_ready (body : M unit) : M unit :=
  ready <- gets hardware_ready ;;
  if negb ready then emit (EErrorDialog "Not Ready" "Hardware not ready.")
  else spawn body.

Definition programming_mode : M unit := when_ready _programming_mode_thread.

Definition exit_programming_mode : M unit :=
  when_ready (_single_press_mode_thread "Exit Prog Mode" "8").

(** [reset_mode()]; [confirmed] is the answer of [askyesno]. *)
Definition reset_mode (confirmed : bool) : M unit :=
  ready <- gets hardware_ready ;;
  if negb ready then emit (EErrorDialog "Not Ready" "Hardware not ready.")
  else if confirmed
       then spawn (_sequence_mode_thread "Reset" ["4"; "5"; "6"; "6"])
       else log "Reset canceled.".

Definition scene_mode (scene_digit : string) : M unit :=
  when_ready (_single_press_mode_thread ("Scene Mode (" +s+ scene_digit +s+ ")") scene_digit).
Definition channel_mode : M unit :=
  when_ready (_single_press_mode_thread "Channel Mode" "2").
Definition level_mode : M unit :=
  when_ready (_single_press_mode_thread "Level Mode" "3").
Definition fade_short_mode : M unit :=
  when_ready (_single_press_mode_thread "Fade Short" "4").
Definition fade_long_mode : M unit :=
  when_ready (_single_press_mode_thread "Fade Long" "5").
Definition circuit_activation : M unit :=
  when_ready (_single_press_mode_thread "Circuit Act." "6").
Definition copy_mode : M unit :=
  when_ready (_single_press_mode_thread "Copy" "7").
Definition zone_left : M unit :=
  when_ready (_sequence_mode_thread "Zone Left" ["8"; "7"; "1"; "1"]).
Definition zone_right : M unit :=
  when_ready (_sequence_mode_thread "Zone Right" ["8"; "7"; "1"; "2"]).

(** [_toggle_relay_thread(relay_number)], lines 182-194. *)
Definition _toggle_relay_thread (relay_number : string) : M unit :=
  duration <- configured ;;
  pin <- RELAY_PINS_at relay_number ;;
  let pin_mask := Z.shiftl 1 pin in
  log ("R" +s+ relay_number +s+ " ON") ;;
  with_state_lock (state_and_not pin_mask ;; write_state) ;;
  time_sleep duration ;;
  with_state_lock (state_or pin_mask ;; write_state) ;;
  log ("R" +s+ relay_number +s+ " OFF").

(** [toggle_relay(relay_number)], lines 176-180. *)
Definition toggle_relay (relay_number : string) : M unit :=
  ready <- gets hardware_ready ;;
  if negb ready then emit (EErrorDialog "Not Ready" "Hardware not ready.")
  else spawn (_toggle_relay_thread relay_number).

(** [key_handler(event)], lines 148-152; [char] is [event.char], which Tk
    leaves empty for a key that produces no character. *)
Definition key_handler (char : string) : M unit :=
  if Py.contains "0123456789" char
  then log ("Key pressed: " +s+ char) ;;
       toggle_relay char
  else ret tt.

(** [_double_press_mode_thread(mode_name, relay_key1, relay_key2)],
    lines 302-312. *)
Definition _double_press_mode_thread (mode_name relay_key1 relay_key2 : string) : M unit :=
  log (mode_name +s+ ": Start") ;;
  with_state_lock (
    p1 <- RELAY_PINS_at relay_key1 ;;
    p2 <- RELAY_PINS_at relay_key2 ;;
    state_and_not (Z.lor (Z.shiftl 1 p1) (Z.shiftl 1 p2)) ;;
    write_state) ;;
  log (mode_name +s+ ": R" +s+ relay_key1 +s+ " & R" +s+ relay_key2 +s+ " ON") ;;
  d <- configured ;;
  time_sleep d ;;
  with_state_lock (
    p1 <- RELAY_PINS_at relay_key1 ;;
    p2 <- RELAY_PINS_at relay_key2 ;;
    state_or (Z.lor (Z.shiftl 1 p1) (Z.shiftl 1 p2)) ;;
    write_state) ;;
  log (mode_name +s+ ": R" +s+ relay_key1 +s+ " & R" +s+ relay_key2 +s+ " OFF").

(** The block [program_zone] repeats for one relay of a zone gesture: the
    relay is held for 0.5 s whatever the configured duration is. *)
Definition zone_press (mode_name relay : string) : M unit :=
  pin <- RELAY_PINS_at relay ;;
  let pin_mask := Z.shiftl 1 pin in
  log (mode_name +s+ ": " +s+ relay +s+ " ON") ;;
  with_state_lock (state_and_not pin_mask ;; write_state) ;;
  sleep 0.5 ;;
  with_state_lock (state_or pin_mask ;; write_state) ;;
  log (mode_name +s+ ": " +s+ relay +s+ " OFF").

(** [program_zone(zone)], lines 371-425. *)
Definition program_zone (zone : string) : M unit :=
  (* Zone Left Sequence *)
  log "Zone Left: Start" ;;
  guard_on ;;
  log "Zone Left: R0 & R9 held" ;;
  sleep 0.5 ;;
  for_each ["8"; "7"; "1"; "1"] (fun relay =>
    zone_press "Zone Left" relay ;;
    sleep 0.3) ;;
  log "Zone Left: R0 & R9 released" ;;
  log "Zone Left Digit: Start" ;;
  _single_press_mode_thread "Zone Left Digit" zone ;;
  log "Zone Left Digit: End" ;;
  log "Zone Left: End" ;;
  (* Zone Right Sequence *)
  log "Zone Right: Start" ;;
  guard_on ;;
  log "Zone Right: R0 & R9 held" ;;
  sleep 0.5 ;;
  for_each ["8"; "7"; "1"; "2"] (fun relay =>
    zone_press "Zone Right" relay ;;
    sleep 0.3) ;;
  log "Zone Right: R0 & R9 released" ;;
  log "Zone Right Digit: Start" ;;
  _single_press_mode_thread "Zone Right Digit" zone ;;
  log "Zone Right Digit: End" ;;
  guard_off ;;
  log "Zone Right: End".

End Gui.

(** ** Vocabulary of the statements *)

(** A device that accepts every write. *)
Definition reliable (g : Gpio) : Prop :=
  match g with
  | Ftdi (Some _) => False
  | _ => True
  end.

(** The controller after a successful write of [word]. *)
Definition gpio_after (g : Gpio) (word : Z) : Gpio :=
  match g with
  | Simulated _ => Simulated word
  | Ftdi (Some (S n)) => Ftdi (Some n)
  | other => other
  end.

(** The world after [self.current_state = word; self.gpio.write(word)]. *)
Definition written (word : Z) (w : World) : World :=
  set_gpio (gpio_after (gpio w) word) (set_current_state word w).

(** [m] run from [w] ends with outcome [o] in world [w'], and its hardware
    view is [t]. *)
Definition runs {A : Type} (m : M A) (w : World) (o : Outcome A) (w' : World)
    (t : list Event) : Prop :=
  outcome (m w) = o /\ final (m w) = w' /\ timeline (events (m w)) = t.

(** The bit of relay [pin]. *)
Definition bit (pin : Z) : Z := Z.shiftl 1 pin.

(** The mask of the two guard relays, R0 and R9. *)
Definition GUARD : Z := Z.lor (bit 0) (bit 9).

(** All ten relays are OFF in [word] (active low: their bits are set). *)
Definition relays_off (word : Z) : Prop :=
  forall i, 0 <= i <= 9 -> Z.testbit word i = true.

(** The pin a relay key stands for (0 for a key that is not in the dict). *)
Definition pin_of (key : string) : Z :=
  match Py.dict_get relay_control.RELAY_PINS key with
  | Some pin => pin
  | None => 0
  end.

(** A world as the program leaves it after start-up: every relay OFF
    ([0xFFFF]), the default duration of 0.5 s, debug mode off, every
    button enabled, over the controller [g] and the table [table]. *)
Definition power_on (g : Gpio) (table : list Row) : World :=
  mkWorld 65535 true 0.5%Q g table "" "" false false (fun _ => true)
          "Debug Mode: OFF" [].

(** The word written when relay [pin] is switched ON from the word [s],
    and the word written when it is switched OFF again. *)
Definition pulse_on (s pin : Z) : Z := Z.land s (Z.lnot (bit pin)).
Definition pulse_off (s pin : Z) : Z := Z.lor (pulse_on s pin) (bit pin).

(** The words of consecutive pulses, and the word they leave. *)
Fixpoint pulses_words (s : Z) (pins : list Z) : list Z :=
  match pins with
  | [] => []
  | p :: rest => pulse_on s p :: pulse_off s p :: pulses_words (pulse_off s p) rest
  end.

Fixpoint pulses_final (s : Z) (pins : list Z) : Z :=
  match pins with
  | [] => s
  | p :: rest => pulses_final (pulse_off s p) rest
  end.

(** guardedMulti in the words of the specification: guardOn, then one
    pulse (on, off) per digit in order, then guardOff. *)
Definition guardedMulti_writes (s : Z) (pins : list Z) : list Z :=
  let g := Z.land s (Z.lnot GUARD) in
  [g] ++ pulses_words g pins ++ [Z.lor (pulses_final g pins) GUARD].

(** Both guard bits are low in a word. *)
Definition guard_low (word : Z) : Prop :=
  Z.testbit word 0 = false /\ Z.testbit word 9 = false.

(** The guard bits stay low in every written word before the last one. *)
Definition guard_held (ws : list Z) : Prop := Forall guard_low (removelast ws).

(** The relays that are ON (bit clear) in a written word. *)
Definition relays_on (word : Z) : list Z :=
  filter (fun i => negb (Z.testbit word i)) (Py.range 10).

(** The hardware view of consecutive pulses held for [d] seconds and
    followed by a pause of [gap] seconds each. *)
Fixpoint pulses_timeline (d gap : Q) (s : Z) (pins : list Z) : list Event :=
  match pins with
  | [] => []
  | p :: rest =>
      [EAcquire; EWrite (pulse_on s p); ERelease; ESleep d;
       EAcquire; EWrite (pulse_off s p); ERelease; ESleep gap]
      ++ pulses_timeline d gap (pulse_off s p) rest
  end.

(** The hardware view of guardedMulti in the words of the specification:
    guardOn; wait 0.3 s; for each digit: pulse for the configured duration,
    wait 0.1 s; guardOff. guardedSingle is the case of one digit. *)
Definition guardedMulti_timeline (d : Q) (s : Z) (pins : list Z) : list Event :=
  let g := Z.land s (Z.lnot GUARD) in
  [EAcquire; EWrite g; ERelease; ESleep 0.3]
  ++ pulses_timeline d 0.1 g pins
  ++ [EAcquire; EWrite (Z.lor (pulses_final g pins) GUARD); ERelease].

Definition guardedSingle_timeline (d : Q) (s : Z) (pin : Z) : list Event :=
  guardedMulti_timeline d s [pin].

(** The eight named single-mode operations and the relay digit of each. *)
Inductive SingleMode : Type :=
| ExitProgrammingMode
| SceneMode (scene_digit : Z)
| ChannelMode
| LevelMode
| FadeShort
| FadeLong
| CircuitActivation
| Copy.

Definition mode_digit (m : SingleMode) : Z :=
  match m with
  | ExitProgrammingMode => 8
  | SceneMode scene_digit => scene_digit
  | ChannelMode => 2
  | LevelMode => 3
  | FadeShort => 4
  | FadeLong => 5
  | CircuitActivation => 6
  | Copy => 7
  end.

(** The operation of the PyQt front-end behind each mode. *)
Definition relay_control_trigger (m : SingleMode) : M unit :=
  match m with
  | ExitProgrammingMode => relay_control.exit_programming_mode
  | SceneMode scene_digit => relay_control.scene_mode (Py.str scene_digit)
  | ChannelMode => relay_control.channel_mode
  | LevelMode => relay_control.level_mode
  | FadeShort => relay_control.fade_short_mode
  | FadeLong => relay_control.fade_long_mode
  | CircuitActivation => relay_control.circuit_activation
  | Copy => relay_control.copy_mode
  end.

(** The operation of the Tkinter front-end behind each mode. *)
Definition Gui_trigger (m : SingleMode) : M unit :=
  match m with
  | ExitProgrammingMode => Gui.exit_programming_mode
  | SceneMode scene_digit => Gui.scene_mode (Py.str scene_digit)
  | ChannelMode => Gui.channel_mode
  | LevelMode => Gui.level_mode
  | FadeShort => Gui.fade_short_mode
  | FadeLong => Gui.fade_long_mode
  | CircuitActivation => Gui.circuit_activation
  | Copy => Gui.copy_mode
  end.

(** Every character of [s] satisfies [P]. *)
Fixpoint string_forall (P : ascii -> bool) (s : string) : bool :=
  match s with
  | EmptyString => true
  | String c rest => (P c && string_forall P rest)%bool
  end.

Definition is_digit (c : ascii) : bool :=
  (Nat.leb 48 (nat_of_ascii c) && Nat.leb (nat_of_ascii c) 57)%bool.

(** A text without comma, ... *)
Definition comma_free (s : string) : Prop :=
  string_forall (fun c => negb (Ascii.eqb c ",")) s = true.

(** ... without line boundary (as every printable text is), ... *)
Definition single_line (s : string) : Prop :=
  string_forall (fun c => negb (Py.is_linebreak c)) s = true.

(** ... and without blank at either end. *)
Definition clean_field (s : string) : Prop :=
  comma_free s /\ single_line s /\ Py.strip s = s.

(** A row whose texts are such fields, with its ten spin boxes. *)
Definition clean_row (row : Row) : Prop :=
  clean_field (zone row) /\ clean_field (dim_ref row) /\ clean_field (name row)
  /\ clean_field (type row) /\ List.length (scenes row) = 10%nat.

(** The table contents as a CSV import is expected to give them back:
    site name, date, and per row the channel number in decimal, zone,
    dim ref, name, type and the ten two-digit scene values. *)
Definition table_contents (w : World) : levels_sheet_page.Parsed :=
  levels_sheet_page.mkParsed
    (site_name_entry w) (date_entry w)
    (map (fun e =>
            levels_sheet_page.mkEntry
              (Py.str_nat (levels_sheet_page.channel e))
              (levels_sheet_page.entry_zone e) (levels_sheet_page.dimRef e)
              (levels_sheet_page.entry_name e) (levels_sheet_page.entry_type e)
              (levels_sheet_page.entry_scenes e))
         (levels_sheet_page.read_table_data w)).

(** What the composite sequences rely on while they run: the relay word
    is [s], the device accepts every write, the hardware is ready and the
    table is [table]. *)
Record Inv (s : Z) (table : list Row) (w : World) : Prop := mkInv {
  inv_state : current_state w = s;
  inv_gpio : reliable (gpio w);
  inv_ready : hardware_ready w = true;
  inv_rows : rows w = table
}.

(** [emits table s s' m ws post]: started in a world where [Inv s table]
    holds, [m] never raises; it returns whenever debug mode is off (no
    checkpoint can then suspend it); and whenever it returns, [Inv s' table]
    holds, its hardware writes are exactly [ws], its result satisfies
    [post], and debug mode is still off if it was. *)
Definition emits {A : Type} (table : list Row) (s s' : Z) (m : M A)
    (ws : list Z) (post : A -> Prop) : Prop :=
  forall w, Inv s table w ->
    (forall e, outcome (m w) <> Raise e)
    /\ (debug_mode w = false -> exists a, outcome (m w) = Ok a)
    /\ (forall a, outcome (m w) = Ok a ->
          Inv s' table (final (m w))
          /\ writes (events (m w)) = ws
          /\ post a
          /\ (debug_mode w = false -> debug_mode (final (m w)) = false)).

(** The words of the two simultaneous relays of a double press. *)
Definition double_words (s a b : Z) : list Z :=
  let both := Z.lor (bit a) (bit b) in
  [Z.land s (Z.lnot both); Z.lor (Z.land s (Z.lnot both)) both].

(** The words of a digit entry in the PyQt front-end: one unguarded pulse
    per character of the text, in order. *)
Definition digit_entry_words (s : Z) (text : string) : list Z :=
  flat_map (fun key => pulses_words s [pin_of key]) (chars text).

(** The words of the zone gesture of [program_zone] for the zone digit
    [z]: the guarded pulses 8,7,1,1, the zone digit, the guarded pulses
    8,7,2,2, the zone digit again. *)
Definition zone_words (s z : Z) : list Z :=
  guardedMulti_writes s [8; 7; 1; 1] ++ pulses_words s [z]
  ++ guardedMulti_writes s [8; 7; 2; 2] ++ pulses_words s [z].

(** Exit-Programming-Mode and Programming-Mode entry. *)
Definition exit_words (s : Z) : list Z := guardedMulti_writes s [8].
Definition prog_words (s : Z) : list Z := guardedMulti_writes s [2; 1; 2; 1].

(** The writes of the allocation loop in the shape the code produces
    them, over the characters of [str(idx).zfill(2)] and the pairs of
    [enumerate]: the form the symbolic execution arrives at, which
    [allocateToZone_rows] below restates without the code's functions. *)
Definition allocation_digit (target : string) (row : Row) : Z :=
  if String.eqb (zone row) target then 1 else 0.

Definition allocate_row_words (s : Z) (target : string) (entry : nat * Row) : list Z :=
  digit_entry_words s (Py.zfill 2 (Py.str_nat (fst entry)))
  ++ pulses_words s [allocation_digit target (snd entry)].

Definition allocate_words (s : Z) (z : Z) (table : list Row) : list Z :=
  exit_words s ++ zone_words s z ++ prog_words s
  ++ flat_map (allocate_row_words s (Py.str z)) (enumerate_from 1 table)
  ++ exit_words s.

(** Scene digit 1..9 selects the scene column of index digit-1, scene
    digit 0 the column of index 9. The definitions that follow give the
    writes of the programming loop in the shape the code produces them;
    [programSceneForZone_rows] below restates them without the code's
    functions. *)
Definition scene_index_of (d : Z) : nat :=
  if d =? 0 then 9%nat else Z.to_nat (d - 1).

Definition level_for (d : Z) (row : Row) : string :=
  Py.format_02d (Z.of_nat (nth (scene_index_of d) (scenes row) 0%nat)).

(** The rows of the target zone, with their channel numbers. *)
Definition zone_rows (target : string) (table : list Row) : list (nat * Row) :=
  filter (fun entry => String.eqb (zone (snd entry)) target) (enumerate_from 1 table).

Definition channel_words (s d : Z) (entry : nat * Row) : list Z :=
  double_words s 2 6
  ++ digit_entry_words s (Py.zfill 2 (Py.str_nat (fst entry)))
  ++ double_words s 3 7
  ++ digit_entry_words s (Py.zfill 2 (level_for d (snd entry))).

Definition program_scene_words (s d z : Z) (table : list Row) : list Z :=
  exit_words s ++ zone_words s z ++ prog_words s
  ++ double_words s 1 5 ++ pulses_words s [d]
  ++ flat_map (channel_words s d) (zone_rows (Py.str z) table)
  ++ exit_words s.

(** The decimal digits of [n], least significant first; [fuel] bounds
    their number. *)
Fixpoint decimal_digits_from (fuel n : nat) : list Z :=
  match fuel with
  | O => []
  | S fuel' =>
      Z.of_nat (n mod 10)
      :: (if (n <? 10)%nat then [] else decimal_digits_from fuel' (n / 10))
  end.

(** digitEntry(value, 2) in the words of the specification: the value
    zero-padded to two digits, that is its decimal digits, most
    significant first, behind a 0 when there is only one. A value of 100
    or more has three digits or more. *)
Definition digitEntry_digits (value : nat) : list Z :=
  if (value <? 10)%nat then [0; Z.of_nat value]
  else List.rev (decimal_digits_from (S value) value).

(** One unguarded pulse (ON, OFF) per digit, each from the word [s]. *)
Definition digit_pulses (s : Z) (digits : list Z) : list Z :=
  flat_map (fun p => [pulse_on s p; pulse_off s p]) digits.

(** allocateToZone in the words of the specification, for the rows of the
    table from channel number [channel] on: for every row in table order,
    digitEntry(channel, 2), then the pulse of the allocation digit, 1 when
    the row's zone is the target zone and 0 otherwise. *)
Fixpoint allocateToZone_rows (s : Z) (target : string) (channel : nat)
    (table : list Row) : list Z :=
  match table with
  | [] => []
  | row :: rest =>
      digit_pulses s (digitEntry_digits channel)
      ++ digit_pulses s [if String.eqb (zone row) target then 1 else 0]
      ++ allocateToZone_rows s target (S channel) rest
  end.

(** programSceneForZone in the words of the specification, for the rows of
    the table from channel number [channel] on: for each row whose zone
    is the target zone, the Quick-Circuit double press, digitEntry(channel,
    2), the Quick-Level double press and digitEntry(level, 2), where the
    level is the value of the row's scene column [scene_index]; a row of
    another zone gives nothing. *)
Fixpoint programSceneForZone_rows (s : Z) (scene_index : nat) (target : string)
    (channel : nat) (table : list Row) : list Z :=
  match table with
  | [] => []
  | row :: rest =>
      (if String.eqb (zone row) target
       then double_words s 2 6
            ++ digit_pulses s (digitEntry_digits channel)
            ++ double_words s 3 7
            ++ digit_pulses s (digitEntry_digits (nth scene_index (scenes row) 0%nat))
       else [])
      ++ programSceneForZone_rows s scene_index target (S channel) rest
  end.

(** The digits of a decimal numeral of the Standard Library, first digit
    first. *)
Fixpoint uint_digits (u : Decimal.uint) : list Z :=
  match u with
  | Nil => []
  | D0 d => 0 :: uint_digits d
  | D1 d => 1 :: uint_digits d
  | D2 d => 2 :: uint_digits d
  | D3 d => 3 :: uint_digits d
  | D4 d => 4 :: uint_digits d
  | D5 d => 5 :: uint_digits d
  | D6 d => 6 :: uint_digits d
  | D7 d => 7 :: uint_digits d
  | D8 d => 8 :: uint_digits d
  | D9 d => 9 :: uint_digits d
  end.

(** [m] never changes whether the control [c] is enabled. *)
Definition keeps (c : Control) {A : Type} (m : M A) : Prop :=
  forall w, enabled (final (m w)) c = enabled w c.

(** [m] ends well on [c]: when it returns, its last two events are a log
    line satisfying [terminal] and the re-enabling of [c], which is then
    enabled; when it does not return (an exception ended it, or it is
    suspended for ever), [c] is enabled or disabled as it was before. *)
Definition finishes (c : Control) (terminal : string -> Prop) {A : Type} (m : M A) : Prop :=
  forall w,
    (forall a, outcome (m w) = Ok a ->
       enabled (final (m w)) c = true
       /\ exists pre line,
            events (m w) = pre ++ [ELog line; ESetEnabled c true] /\ terminal line)
    /\ ((forall a, outcome (m w) <> Ok a) ->
        enabled (final (m w)) c = enabled w c).

(** A log line with or without the simulation prefix. *)
Definition sim_line (message line : string) : Prop :=
  line = message \/ line = "[SIMULATION] " +s+ message.

(** playChannelScene in the words of the specification. *)
Definition play_words (s d : Z) (channel : nat) (level_value : string) : list Z :=
  exit_words s ++ prog_words s
  ++ double_words s 1 5 ++ pulses_words s [d]
  ++ double_words s 2 6 ++ digit_entry_words s (Py.zfill 2 (Py.str_nat channel))
  ++ double_words s 3 7 ++ digit_entry_words s (Py.zfill 2 level_value)
  ++ exit_words s.

(** The operations behind the buttons of the PyQt relay page that look at
    [hardware_ready] before they start anything. *)
Definition relay_control_buttons (relay_number scene_digit zone : string)
    (confirmed : bool) (debug_callback : option (M unit)) : list (M unit) :=
  [ relay_control.toggle_relay relay_number;
    relay_control.test_all_relays;
    relay_control.programming_mode;
    relay_control.reset_mode confirmed;
    relay_control.scene_mode scene_digit;
    relay_control.channel_mode;
    relay_control.level_mode;
    relay_control.fade_short_mode;
    relay_control.fade_long_mode;
    relay_control.circuit_activation;
    relay_control.copy_mode;
    relay_control.exit_programming_mode;
    relay_control.zone_left;
    relay_control.zone_right;
    relay_control.quick_scene;
    relay_control.quick_circuit;
    relay_control.quick_level;
    relay_control.quick_fade;
    relay_control.program_zone zone debug_callback ].

(** The line the dummy controller logs for relay [i]. *)
Definition simulated_line (i : Z) (relay_state : string) : string :=
  "[SIMULATION] Relay R" +s+ Py.str i +s+ " -> " +s+ relay_state.

(** [m] run from [w] has outcome [o], final world [w'] and exactly the
    events [t], log lines included. *)
Definition yields {A : Type} (m : M A) (w : World) (o : Outcome A) (w' : World)
    (t : list Event) : Prop :=
  m w = mkRun o w' t.

(** The hardware view of a double press held for [d] seconds. *)
Definition double_timeline (d : Q) (s a b : Z) : list Event :=
  let both := Z.lor (bit a) (bit b) in
  let on := Z.land s (Z.lnot both) in
  [EAcquire; EWrite on; ERelease; ESleep d;
   EAcquire; EWrite (Z.lor on both); ERelease].

(** The hardware view of a digit entry in the PyQt front-end: one
    unguarded pulse per character, each followed by its own 0.1 s and by a
    pause of [gap] seconds. *)
Definition digit_entry_timeline (d gap : Q) (s : Z) (text : string) : list Event :=
  flat_map (fun key => pulses_timeline d 0.1 s [pin_of key] ++ [ESleep gap])
           (chars text).

(** The hardware view of the play sequence for scene digit [scene],
    channel [channel] and the level text [level_value], each relay held for
    [d] seconds. *)
Definition play_timeline (d : Q) (s scene : Z) (channel : nat) (level_value : string)
    : list Event :=
  guardedSingle_timeline d s 8 ++ [ESleep 1.0]
  ++ guardedMulti_timeline d s [2; 1; 2; 1] ++ [ESleep 1.0]
  ++ double_timeline d s 1 5 ++ [ESleep 1.0]
  ++ pulses_timeline d 0.1 s [scene] ++ [ESleep 1.0]
  ++ double_timeline d s 2 6 ++ [ESleep 1.0]
  ++ digit_entry_timeline d 1.0 s (Py.zfill 2 (Py.str_nat channel))
  ++ double_timeline d s 3 7 ++ [ESleep 1.0]
  ++ digit_entry_timeline d 1.0 s (Py.zfill 2 level_value)
  ++ guardedSingle_timeline d s 8 ++ [ESleep 1.0].

(** A written word leaves the six GPIO bits above the ten relays as they
    are in the word [s]. *)
Definition upper_kept (s word : Z) : Prop :=
  forall j, 10 <= j -> Z.testbit word j = Z.testbit s j.

(** [m] only drives the relay bits: started with a relay word that has
    the bits above the relays as [s0] has them, every word it writes has
    them so, and so has the relay word it leaves, however it ends
    (returned, ended by an exception, or suspended for ever). *)
Definition relay_bits_only (s0 : Z) {A : Type} (m : M A) : Prop :=
  forall w, upper_kept s0 (current_state w) ->
    Forall (upper_kept s0) (writes (events (m w)))
    /\ upper_kept s0 (current_state (final (m w))).

(** A text without blank at either end. *)
Definition stripped (s : string) : Prop := Py.strip s = s.

(** An entry as [parse_csv] is meant to return it: five stripped texts
    and exactly ten stripped scene cells. *)
Definition well_formed_entry (e : levels_sheet_page.Entry string) : Prop :=
  stripped (levels_sheet_page.channel e)
  /\ stripped (levels_sheet_page.entry_zone e)
  /\ stripped (levels_sheet_page.dimRef e)
  /\ stripped (levels_sheet_page.entry_name e)
  /\ stripped (levels_sheet_page.entry_type e)
  /\ List.length (levels_sheet_page.entry_scenes e) = 10%nat
  /\ Forall stripped (levels_sheet_page.entry_scenes e).

(** A row as [create_row] makes it. *)
Definition default_row : Row :=
  mkRow "1" "" "" "Dimmed" [90; 70; 50; 30; 99; 99; 99; 99; 99; 0]%nat.

(** A row as its widgets can hold it: the zone and the type are items of
    their comboboxes, and the ten spin boxes hold values 0..99. *)
Definition widget_row (row : Row) : Prop :=
  In (zone row) levels_sheet_page.zone_items
  /\ In (type row) levels_sheet_page.type_items
  /\ List.length (scenes row) = 10%nat
  /\ Forall (fun v => (v <= 99)%nat) (scenes row).

(** The lock discipline of a run, read off its events from a state where
    the lock is held or not: the lock is never taken while held nor
    released while free, every write is made while it is held, every sleep
    while it is free, and it is free at the end. *)
Fixpoint disciplined (held : bool) (t : list Event) : bool :=
  match t with
  | [] => negb held
  | EAcquire :: rest => negb held && disciplined true rest
  | ERelease :: rest => held && disciplined false rest
  | EWrite _ :: rest => held && disciplined held rest
  | ESleep _ :: rest => negb held && disciplined held rest
  | _ :: rest => disciplined held rest
  end.

(** The world after [create_row(row_num)] has made the ten "P" buttons of
    a row, and after the rows 1..[num_channels] have been made. *)
Definition new_buttons (w : World) (row_num : Z) : World :=
  fold_left (fun w i =>
               set_enabled (p_button (Z.to_nat row_num)
                                     (if i <? 9 then Py.str (i + 1) else "0")) true w)
            (Py.range 10) w.

Definition new_table_buttons (num_channels : Z) (w : World) : World :=
  fold_left new_buttons (Py.range_from 1 (num_channels + 1)) w.

(** * Properties *)

(** ** Basic facts on the hardware view *)

Lemma timeline_app (t1 t2 : list Event) :
  timeline (t1 ++ t2) = timeline t1 ++ timeline t2.
Proof. unfold timeline. apply filter_app. Qed.

Lemma timeline_logs (lines : list string) : timeline (map ELog lines) = [].
Proof. induction lines as [|l ls IH]; simpl; auto. Qed.

Lemma writes_app (t1 t2 : list Event) : writes (t1 ++ t2) = writes t1 ++ writes t2.
Proof. unfold writes. apply flat_map_app. Qed.

Lemma writes_timeline (t : list Event) : writes (timeline t) = writes t.
Proof.
  induction t as [|e t IH]; simpl; auto.
  destruct e; simpl; rewrite ?IH; reflexivity.
Qed.

(** ** Running the primitives *)

Lemma runs_ret {A : Type} (a : A) (w : World) : runs (ret a) w (Ok a) w [].
Proof. repeat split. Qed.

Lemma runs_bind {A B : Type} (m : M A) (k : A -> M B) (w w1 w2 : World)
    (a : A) (o : Outcome B) (t1 t2 : list Event) :
  runs m w (Ok a) w1 t1 -> runs (k a) w1 o w2 t2 ->
  runs (bind m k) w o w2 (t1 ++ t2).
Proof.
  intros (Ho & Hf & Ht) (Ho' & Hf' & Ht'). unfold runs, bind.
  rewrite Ho, Hf. cbn [outcome final events].
  rewrite timeline_app, Ht, Ht'. auto.
Qed.

Lemma runs_gets {A : Type} (f : World -> A) (w : World) :
  runs (gets f) w (Ok (f w)) w [].
Proof. repeat split. Qed.

Lemma runs_modify (f : World -> World) (w : World) :
  runs (modify f) w (Ok tt) (f w) [].
Proof. repeat split. Qed.

Lemma runs_sleep (d : Q) (w : World) : runs (sleep d) w (Ok tt) w [ESleep d].
Proof. repeat split. Qed.

Lemma runs_time_sleep (d : Q) (w : World) :
  (0 <= d)%Q -> runs (time_sleep d) w (Ok tt) w [ESleep d].
Proof.
  intros Hd. unfold time_sleep.
  destruct (Qle_bool 0 d) eqn:E; [apply runs_sleep|].
  apply Qle_bool_iff in Hd. congruence.
Qed.

Lemma runs_global_log (line : string) (w : World) :
  runs (global_log line) w (Ok tt) w [].
Proof. repeat split. Qed.

Lemma runs_sim_log (message : string) (w : World) :
  runs (relay_control.sim_log message) w (Ok tt) w [].
Proof.
  unfold relay_control.sim_log, runs, bind, gets. cbn.
  destruct (relay_control.SIMULATION_MODE w); cbn; auto.
Qed.

Lemma runs_lock {A : Type} (body : M A) (w w' : World) (a : A) (t : list Event) :
  runs body w (Ok a) w' t ->
  runs (with_state_lock body) w (Ok a) w' (EAcquire :: t ++ [ERelease]).
Proof.
  intros (Ho & Hf & Ht). unfold runs, with_state_lock. rewrite Ho, Hf.
  cbn [outcome final events timeline filter is_log negb].
  fold (timeline (events (body w) ++ [ERelease])).
  rewrite timeline_app, Ht. auto.
Qed.

Lemma runs_gpio_write (word : Z) (w : World) :
  reliable (gpio w) ->
  runs (relay_control.gpio_write word) w (Ok tt)
       (set_gpio (gpio_after (gpio w) word) w) [EWrite word].
Proof.
  intros Hr. unfold runs, relay_control.gpio_write.
  destruct w as [s hr d g rw sn de dm sr en tx op]; cbn in *.
  destruct g as [cur|[n|]]; cbn in *; try contradiction.
  - rewrite timeline_app, timeline_logs. auto.
  - auto.
Qed.

Lemma runs_eq {A : Type} (m : M A) (w w1 w2 : World) (o o' : Outcome A)
    (t1 t2 : list Event) :
  runs m w o w1 t1 -> o = o' -> w1 = w2 -> t1 = t2 -> runs m w o' w2 t2.
Proof. intros H -> -> ->. exact H. Qed.

Lemma reliable_after (g : Gpio) (word : Z) : reliable g -> reliable (gpio_after g word).
Proof. destruct g as [cur|[n|]]; cbn; intros H; auto; contradiction. Qed.

Lemma reliable_written (word : Z) (w : World) :
  reliable (gpio w) -> reliable (gpio (written word w)).
Proof. intros H. cbn. apply reliable_after, H. Qed.

Lemma written_written (a b : Z) (w : World) :
  reliable (gpio w) -> written a (written b w) = written a w.
Proof.
  intros H. destruct w as [s hr d g rw sn de dm sr en tx op]; cbn in *.
  destruct g as [cur|[n|]]; cbn in *; try contradiction; reflexivity.
Qed.

Lemma written_same (w : World) :
  gpio w = Ftdi None -> written (current_state w) w = w.
Proof.
  intros H. destruct w as [s hr d g rw sn de dm sr en tx op]; cbn in *.
  subst g. reflexivity.
Qed.

Lemma written_set_current_state (a b : Z) (w : World) :
  written a (set_current_state b w) = written a w.
Proof. reflexivity. Qed.

(** Collapse the worlds left by consecutive writes. *)
Ltac norm_world Hr :=
  cbn [current_state written set_gpio set_current_state gpio];
  repeat first [ rewrite written_set_current_state
               | rewrite written_written
                   by (repeat apply reliable_written; exact Hr) ].

Create HintDb runs.

#[local] Hint Resolve runs_ret runs_gets runs_modify runs_sleep runs_global_log
  runs_sim_log : runs.
#[local] Hint Resolve reliable_after reliable_written : runs.
#[local] Hint Extern 1 (runs (time_sleep _) _ _ _ _) =>
  eapply runs_time_sleep;
  cbn [duration_spinner written set_gpio set_current_state]; assumption : runs.

(** One step of symbolic execution: split a [bind], or close a primitive. *)
Ltac run_step :=
  lazymatch goal with
  | |- runs (bind _ _) _ _ _ _ =>
      eapply runs_bind; [run_step | cbv beta iota zeta; run_step]
  | |- runs (with_state_lock (bind (relay_control.state_and_not _) _)) _ _ _ _ =>
      solve [eauto with runs]
  | |- runs (with_state_lock (bind (relay_control.state_or _) _)) _ _ _ _ =>
      solve [eauto with runs]
  | |- runs (with_state_lock _) _ _ _ _ => eapply runs_lock; run_step
  | |- runs (relay_control.gpio_write _) _ _ _ _ =>
      eapply runs_gpio_write;
      cbn [gpio set_gpio set_current_state written]; auto with runs
  | |- _ => solve [eauto with runs]
  end.

Ltac run := eapply runs_eq; [run_step | try reflexivity ..].

(** The same, closing the equation between final worlds with [Hr], the
    reliability of the device. *)
Ltac run_with Hr :=
  eapply runs_eq; [run_step | try reflexivity ..];
  try (norm_world Hr; reflexivity).

Lemma runs_state_and_not (mask : Z) (w : World) :
  runs (relay_control.state_and_not mask) w (Ok tt)
       (set_current_state (Z.land (current_state w) (Z.lnot mask)) w) [].
Proof. repeat split. Qed.

Lemma runs_state_or (mask : Z) (w : World) :
  runs (relay_control.state_or mask) w (Ok tt)
       (set_current_state (Z.lor (current_state w) mask) w) [].
Proof. repeat split. Qed.

Lemma runs_write_state (w : World) :
  reliable (gpio w) ->
  runs relay_control.write_state w (Ok tt) (written (current_state w) w)
       [EWrite (current_state w)].
Proof.
  intros Hr. unfold relay_control.write_state.
  eapply runs_eq; [run_step | try reflexivity ..].
Qed.

#[local] Hint Resolve runs_state_and_not runs_state_or : runs.
#[local] Hint Extern 1 (runs relay_control.write_state _ _ _ _) =>
  eapply runs_write_state; cbn [gpio set_gpio set_current_state written];
  auto with runs : runs.

Lemma runs_state_and_not_write (mask : Z) (w : World) :
  reliable (gpio w) ->
  runs (with_state_lock (relay_control.state_and_not mask ;; relay_control.write_state))
       w (Ok tt) (written (Z.land (current_state w) (Z.lnot mask)) w)
       [EAcquire; EWrite (Z.land (current_state w) (Z.lnot mask)); ERelease].
Proof.
  intros Hr. eapply runs_eq; [eapply runs_lock; run_step | try reflexivity ..].
Qed.

Lemma runs_state_or_write (mask : Z) (w : World) :
  reliable (gpio w) ->
  runs (with_state_lock (relay_control.state_or mask ;; relay_control.write_state))
       w (Ok tt) (written (Z.lor (current_state w) mask) w)
       [EAcquire; EWrite (Z.lor (current_state w) mask); ERelease].
Proof.
  intros Hr. eapply runs_eq; [eapply runs_lock; run_step | try reflexivity ..].
Qed.

(** ** Bits of the relay word *)

Lemma bit_testbit (p j : Z) : 0 <= p -> Z.testbit (bit p) j = (p =? j).
Proof. intros Hp. unfold bit. rewrite Z.shiftl_1_l. apply Z.pow2_bits_eqb, Hp. Qed.

Lemma clear_bit_testbit (s p j : Z) :
  0 <= p -> 0 <= j ->
  Z.testbit (Z.land s (Z.lnot (bit p))) j = (Z.testbit s j && negb (p =? j))%bool.
Proof.
  intros Hp Hj. rewrite Z.land_spec, Z.lnot_spec, bit_testbit by assumption.
  reflexivity.
Qed.

Lemma set_bit_testbit (s p j : Z) :
  0 <= p -> Z.testbit (Z.lor s (bit p)) j = (Z.testbit s j || (p =? j))%bool.
Proof. intros Hp. rewrite Z.lor_spec, bit_testbit by assumption. reflexivity. Qed.

Lemma set_after_clear (s p : Z) :
  0 <= p -> Z.testbit s p = true ->
  Z.lor (Z.land s (Z.lnot (bit p))) (bit p) = s.
Proof.
  intros Hp Hs. apply Z.bits_inj'. intros j Hj.
  rewrite set_bit_testbit, clear_bit_testbit by assumption.
  destruct (Z.eqb_spec p j) as [->|Hne].
  - rewrite Hs. reflexivity.
  - rewrite andb_true_r, orb_false_r. reflexivity.
Qed.

(** ** The relay dictionary *)

Lemma RELAY_PINS_str (i : Z) :
  0 <= i <= 9 -> Py.dict_get relay_control.RELAY_PINS (Py.str i) = Some i.
Proof.
  intros Hi.
  assert (i = 0 \/ i = 1 \/ i = 2 \/ i = 3 \/ i = 4 \/ i = 5 \/ i = 6 \/ i = 7
          \/ i = 8 \/ i = 9) as H by lia.
  repeat (destruct H as [->|H]; [reflexivity|]). subst i. reflexivity.
Qed.

Lemma RELAY_PINS_range (key : string) (pin : Z) :
  Py.dict_get relay_control.RELAY_PINS key = Some pin ->
  0 <= pin <= 9 /\ key = Py.str pin.
Proof.
  set (pins := relay_control.RELAY_PINS). vm_compute in pins. subst pins.
  cbn [Py.dict_get].
  repeat match goal with
         | |- context [String.eqb ?a key] =>
             destruct (String.eqb_spec a key) as [<-|_];
             [intros [= <-]; split; [lia|reflexivity]|]
         end.
  discriminate.
Qed.

Lemma runs_RELAY_PINS_at (key : string) (pin : Z) (w : World) :
  Py.dict_get relay_control.RELAY_PINS key = Some pin ->
  runs (relay_control.RELAY_PINS_at key) w (Ok pin) w [].
Proof. intros H. unfold relay_control.RELAY_PINS_at. rewrite H. apply runs_ret. Qed.

#[local] Hint Resolve runs_RELAY_PINS_at runs_state_and_not_write runs_state_or_write : runs.

(** ** C1: the pulse of one relay *)

(** C1. For every relay index [i] in 0..9, [_toggle_relay_thread] on a
    device that accepts its writes, started with bit [i] set (OFF), returns
    and performs exactly: lock, write of the word with bit [i] cleared,
    unlock; sleep for the configured duration, outside the lock; lock,
    write of the word with bit [i] set again, unlock. The first written
    word has bit [i] clear and every other bit as before; the second
    written word and the final relay word are the initial word, so bit [i]
    is set afterwards, no other bit ever changes, and the relay is ON only
    between the two writes. *)
Theorem C1_toggle_relay_pulse (i : Z) (w : World) :
  0 <= i <= 9 ->
  reliable (gpio w) ->
  Z.testbit (current_state w) i = true ->
  let s := current_state w in
  let on := Z.land s (Z.lnot (bit i)) in
  runs (relay_control._toggle_relay_thread (Py.str i)) w (Ok tt) (written s w)
       [EAcquire; EWrite on; ERelease;
        ESleep (duration_spinner w);
        EAcquire; EWrite s; ERelease]
  /\ Z.testbit on i = false
  /\ (forall j, 0 <= j -> j <> i -> Z.testbit on j = Z.testbit s j)
  /\ Z.testbit (current_state (written s w)) i = true.
Proof.
  intros Hi Hr Hs s on.
  assert (Hon : Z.lor on (bit i) = s) by (apply set_after_clear; [lia|exact Hs]).
  split; [|split; [|split]].
  - pose proof (RELAY_PINS_str i Hi) as Hpin.
    unfold relay_control._toggle_relay_thread. run.
    + cbn [current_state written set_gpio set_current_state gpio].
      fold (bit i). fold s. fold on. rewrite Hon.
      apply written_written. exact Hr.
    + cbn [current_state written set_gpio set_current_state gpio List.app].
      fold (bit i). fold s. fold on. rewrite Hon. reflexivity.
  - unfold on. rewrite clear_bit_testbit by lia. rewrite Z.eqb_refl.
    apply andb_false_r.
  - intros j Hj Hne. unfold on. rewrite clear_bit_testbit by lia.
    destruct (Z.eqb_spec i j); [congruence|]. apply andb_true_r.
  - exact Hs.
Qed.

Lemma C1_toggle_relay_pulse_witness :
  let w := power_on (Simulated 65535) [] in
  0 <= 3 <= 9 /\ reliable (gpio w) /\ Z.testbit (current_state w) 3 = true /\
  runs (relay_control._toggle_relay_thread "3") w (Ok tt) w
       [EAcquire; EWrite 65527; ERelease; ESleep 0.5; EAcquire; EWrite 65535; ERelease].
Proof.
  intros w. split; [lia|]. split; [exact I|]. split; [reflexivity|].
  exact (proj1 (C1_toggle_relay_pulse 3 w ltac:(lia) I eq_refl)).
Defined.

(** ** The building blocks of the sequences *)

Lemma runs_writes {A : Type} (m : M A) (w w' : World) (o : Outcome A) (t : list Event) :
  runs m w o w' t -> writes (events (m w)) = writes t.
Proof. intros (_ & _ & <-). symmetry. apply writes_timeline. Qed.

Lemma runs_configured (w : World) :
  runs relay_control.configured w (Ok (duration_spinner w)) w [].
Proof. apply runs_gets. Qed.

#[local] Hint Resolve runs_configured : runs.

Lemma runs_press (mode_name relay : string) (pin : Z) (hold : M Q) (h : World -> Q)
    (w : World) :
  Py.dict_get relay_control.RELAY_PINS relay = Some pin ->
  (forall w', runs hold w' (Ok (h w')) w' []) ->
  reliable (gpio w) ->
  let s := current_state w in
  runs (relay_control.press mode_name relay hold) w (Ok tt)
       (written (pulse_off s pin) w)
       [EAcquire; EWrite (pulse_on s pin); ERelease;
        ESleep (h (written (pulse_on s pin) w));
        EAcquire; EWrite (pulse_off s pin); ERelease].
Proof.
  intros Hpin Hhold Hr s. unfold relay_control.press.
  eapply runs_eq; [run_step | try reflexivity ..].
  cbn [current_state written set_gpio set_current_state gpio].
  apply written_written, Hr.
Qed.

#[local] Hint Extern 2 (runs (relay_control.press _ _ _) _ _ _ _) =>
  eapply runs_press;
  [ solve [eauto] | intros; solve [eauto with runs]
  | cbn [gpio set_gpio set_current_state written]; solve [auto with runs] ] : runs.

Lemma runs_guard_mask (w : World) : runs relay_control.guard_mask w (Ok GUARD) w [].
Proof. repeat split. Qed.

#[local] Hint Resolve runs_guard_mask : runs.

Lemma runs_guard_on (w : World) :
  reliable (gpio w) ->
  runs relay_control.guard_on w (Ok tt)
       (written (Z.land (current_state w) (Z.lnot GUARD)) w)
       [EAcquire; EWrite (Z.land (current_state w) (Z.lnot GUARD)); ERelease].
Proof. intros Hr. unfold relay_control.guard_on. run. Qed.

Lemma runs_guard_off (w : World) :
  reliable (gpio w) ->
  runs relay_control.guard_off w (Ok tt)
       (written (Z.lor (current_state w) GUARD) w)
       [EAcquire; EWrite (Z.lor (current_state w) GUARD); ERelease].
Proof. intros Hr. unfold relay_control.guard_off. run. Qed.

#[local] Hint Resolve runs_guard_on runs_guard_off : runs.

Lemma writes_pulses_timeline (d gap : Q) (s : Z) (pins : list Z) :
  writes (pulses_timeline d gap s pins) = pulses_words s pins.
Proof.
  revert s. induction pins as [|p rest IH]; intros s; cbn; auto.
  f_equal. f_equal. apply IH.
Qed.

Lemma writes_guardedMulti_timeline (d : Q) (s : Z) (pins : list Z) :
  writes (guardedMulti_timeline d s pins) = guardedMulti_writes s pins.
Proof.
  unfold guardedMulti_timeline, guardedMulti_writes.
  rewrite !writes_app, writes_pulses_timeline. reflexivity.
Qed.

Lemma keys_of_pins (pins : list Z) :
  Forall (fun p => 0 <= p <= 9) pins ->
  Forall2 (fun k p => Py.dict_get relay_control.RELAY_PINS k = Some p)
          (map Py.str pins) pins.
Proof.
  induction 1 as [|p rest Hp _ IH]; cbn; constructor; auto.
  apply RELAY_PINS_str, Hp.
Qed.

(** The loop [for relay in sequence: pulse; sleep(gap)] shared by the
    sequences, started right after a write of [s]. *)
Lemma runs_pulse_loop (mode_name : string) (hold : M Q) (h : World -> Q) (gap : Q)
    (sequence : list string) (pins : list Z) (w0 : World) :
  Forall2 (fun k p => Py.dict_get relay_control.RELAY_PINS k = Some p) sequence pins ->
  (forall w', runs hold w' (Ok (h w')) w' []) ->
  (forall word, h (written word w0) = h w0) ->
  reliable (gpio w0) ->
  forall s,
  runs (for_each sequence (fun relay =>
          relay_control.press mode_name relay hold ;; sleep gap))
       (written s w0) (Ok tt) (written (pulses_final s pins) w0)
       (pulses_timeline (h w0) gap s pins).
Proof.
  intros Hkeys Hhold Hh Hr.
  induction Hkeys as [|k p ks ps Hk _ IH]; intros s.
  - apply runs_ret.
  - cbn [for_each pulses_final pulses_timeline].
    eapply runs_eq.
    + eapply runs_bind.
      * eapply runs_bind.
        -- eapply (runs_press mode_name k p hold h); eauto with runs.
        -- cbv beta. apply runs_sleep.
      * cbv beta. cbn [current_state written set_gpio set_current_state gpio].
        rewrite written_written by exact Hr.
        apply IH.
    + reflexivity.
    + reflexivity.
    + cbn [current_state written set_gpio set_current_state gpio].
      rewrite !written_written by exact Hr. rewrite Hh.
      rewrite <- !app_assoc. reflexivity.
Qed.

#[local] Hint Extern 2 (runs (for_each _ _) (written _ _) _ _ _) =>
  eapply runs_pulse_loop;
  [ eassumption | solve [eauto with runs] | intros; reflexivity | assumption ] : runs.

Lemma runs_sequence_mode (mode_name : string) (sequence : list string) (pins : list Z)
    (w : World) :
  Forall2 (fun k p => Py.dict_get relay_control.RELAY_PINS k = Some p) sequence pins ->
  reliable (gpio w) ->
  let g := Z.land (current_state w) (Z.lnot GUARD) in
  runs (relay_control._sequence_mode_thread mode_name sequence) w (Ok tt)
       (written (Z.lor (pulses_final g pins) GUARD) w)
       (guardedMulti_timeline (duration_spinner w) (current_state w) pins).
Proof.
  intros Hkeys Hr g. unfold relay_control._sequence_mode_thread.
  eapply runs_eq; [run_step | try reflexivity ..].
  cbn [current_state written set_gpio set_current_state gpio].
  apply written_written, Hr.
Qed.

Lemma runs_programming_mode_thread (w : World) :
  reliable (gpio w) ->
  let g := Z.land (current_state w) (Z.lnot GUARD) in
  runs relay_control._programming_mode_thread w (Ok tt)
       (written (Z.lor (pulses_final g [2; 1; 2; 1]) GUARD) w)
       (guardedMulti_timeline (duration_spinner w) (current_state w) [2; 1; 2; 1]).
Proof.
  intros Hr g. unfold relay_control._programming_mode_thread.
  assert (Hkeys : Forall2 (fun k p => Py.dict_get relay_control.RELAY_PINS k = Some p)
                          ["2"; "1"; "2"; "1"] [2; 1; 2; 1])
    by (repeat (constructor; [reflexivity|]); constructor).
  eapply runs_eq; [run_step | try reflexivity ..].
  cbn [current_state written set_gpio set_current_state gpio].
  apply written_written, Hr.
Qed.

Lemma runs_spawn (body : M unit) (w w' : World) (o : Outcome unit) (t : list Event) :
  runs body w o w' t -> runs (spawn body) w (Ok tt) w' t.
Proof. intros (_ & Hf & Ht). repeat split; assumption. Qed.

Lemma runs_when_ready (body : M unit) (w w' : World) (o : Outcome unit)
    (t : list Event) :
  hardware_ready w = true ->
  runs body w o w' t -> runs (relay_control.when_ready body) w (Ok tt) w' t.
Proof.
  intros Hready H. unfold relay_control.when_ready.
  eapply runs_eq; [eapply runs_bind; [apply runs_gets|] | reflexivity ..].
  cbv beta. rewrite Hready. cbn [negb]. eapply runs_spawn, H.
Qed.

(** ** Bits of the guard mask *)

Lemma GUARD_testbit (j : Z) :
  0 <= j -> Z.testbit GUARD j = ((0 =? j) || (9 =? j))%bool.
Proof.
  intros Hj. unfold GUARD. rewrite Z.lor_spec, !bit_testbit by lia. reflexivity.
Qed.

Lemma guard_low_guard_on (s : Z) : guard_low (Z.land s (Z.lnot GUARD)).
Proof.
  unfold guard_low.
  rewrite !Z.land_spec, !Z.lnot_spec, !GUARD_testbit by lia.
  cbn. rewrite !andb_false_r. auto.
Qed.

Lemma guard_low_pulse_on (s p : Z) : 0 <= p -> guard_low s -> guard_low (pulse_on s p).
Proof.
  intros Hp [H0 H9]. unfold guard_low, pulse_on.
  rewrite !clear_bit_testbit, H0, H9 by lia. auto.
Qed.

Lemma guard_low_pulse_off (s p : Z) :
  1 <= p <= 8 -> guard_low s -> guard_low (pulse_off s p).
Proof.
  intros Hp [H0 H9]. unfold guard_low, pulse_off, pulse_on.
  rewrite !set_bit_testbit, !clear_bit_testbit, H0, H9 by lia.
  destruct (Z.eqb_spec p 0); [lia|]. destruct (Z.eqb_spec p 9); [lia|]. auto.
Qed.

Lemma guard_low_pulses (pins : list Z) :
  Forall (fun p => 1 <= p <= 8) pins ->
  forall s, guard_low s ->
  Forall guard_low (pulses_words s pins) /\ guard_low (pulses_final s pins).
Proof.
  induction 1 as [|p rest Hp _ IH]; intros s Hs; cbn.
  - split; [constructor | exact Hs].
  - destruct (IH (pulse_off s p) (guard_low_pulse_off s p Hp Hs)) as [Hw Hf].
    split; [|exact Hf].
    constructor; [apply guard_low_pulse_on; [lia|exact Hs]|].
    constructor; [apply guard_low_pulse_off; assumption | exact Hw].
Qed.

Lemma pulse_off_restores (s p : Z) :
  0 <= p -> Z.testbit s p = true -> pulse_off s p = s.
Proof. intros Hp Hs. apply set_after_clear; assumption. Qed.

Lemma guard_off_restores (s : Z) :
  Z.testbit s 0 = true -> Z.testbit s 9 = true ->
  Z.lor (Z.land s (Z.lnot GUARD)) GUARD = s.
Proof.
  intros H0 H9. apply Z.bits_inj'. intros j Hj.
  rewrite Z.lor_spec, Z.land_spec, Z.lnot_spec, GUARD_testbit by lia.
  destruct (Z.eqb_spec 0 j) as [<-|]; [rewrite H0; reflexivity|].
  destruct (Z.eqb_spec 9 j) as [<-|]; [rewrite H9; reflexivity|].
  cbn. rewrite andb_true_r, orb_false_r. reflexivity.
Qed.

Lemma guard_on_testbit (s p : Z) :
  1 <= p <= 8 -> Z.testbit (Z.land s (Z.lnot GUARD)) p = Z.testbit s p.
Proof.
  intros Hp. rewrite Z.land_spec, Z.lnot_spec, GUARD_testbit by lia.
  destruct (Z.eqb_spec 0 p); [lia|]. destruct (Z.eqb_spec 9 p); [lia|].
  apply andb_true_r.
Qed.

(** ** C6: guardedMulti *)

Lemma removelast_snoc {A : Type} (l : list A) (a : A) : removelast (l ++ [a]) = l.
Proof. apply removelast_last. Qed.

(** C6, as the code has it. For every list of digits taken among 1..8
    (none of them a guard relay), on a device that accepts its writes,
    [_sequence_mode_thread] returns and its hardware writes are, in order:
    guardOn, then for each digit the ON word and the OFF word of its
    pulse, then guardOff. Both guard bits are low in every written word
    before the last one, and the last one sets them. When the four relays
    of a list [a; b; c; d] and the guards are OFF at the start, the ten
    writes are spelled out, and the last one restores the initial word. *)
Theorem C6_guardedMulti_order_and_guard (mode_name : string) (pins : list Z)
    (w : World) :
  Forall (fun p => 1 <= p <= 8) pins ->
  reliable (gpio w) ->
  let r := relay_control._sequence_mode_thread mode_name (map Py.str pins) w in
  let s := current_state w in
  let g := Z.land s (Z.lnot GUARD) in
  outcome r = Ok tt
  /\ writes (events r) = guardedMulti_writes s pins
  /\ guard_held (writes (events r))
  /\ (Z.testbit (last (writes (events r)) 0) 0 = true
      /\ Z.testbit (last (writes (events r)) 0) 9 = true)
  /\ (forall a b c d, pins = [a; b; c; d] -> relays_off s ->
      writes (events r) =
      [g; pulse_on g a; g; pulse_on g b; g; pulse_on g c; g; pulse_on g d; g; s]).
Proof.
  intros Hpins Hr r s g.
  assert (Hkeys : Forall2 (fun k p => Py.dict_get relay_control.RELAY_PINS k = Some p)
                          (map Py.str pins) pins).
  { apply keys_of_pins. eapply Forall_impl; [|exact Hpins]. cbv beta. intros; lia. }
  pose proof (runs_sequence_mode mode_name _ _ w Hkeys Hr) as Hrun.
  assert (Hw : writes (events r) = guardedMulti_writes s pins).
  { unfold r. erewrite runs_writes by exact Hrun.
    apply writes_guardedMulti_timeline. }
  destruct (guard_low_pulses pins Hpins g (guard_low_guard_on s)) as [Hlow Hfin].
  split; [apply Hrun|]. split; [exact Hw|]. rewrite Hw.
  unfold guardedMulti_writes. fold g.
  change ([g] ++ pulses_words g pins ++ [Z.lor (pulses_final g pins) GUARD])
    with ((g :: pulses_words g pins) ++ [Z.lor (pulses_final g pins) GUARD]).
  split; [|split].
  - unfold guard_held. rewrite removelast_snoc.
    constructor; [apply guard_low_guard_on | exact Hlow].
  - rewrite last_last, !Z.lor_spec, !GUARD_testbit by lia.
    cbn. rewrite !orb_true_r. auto.
  - intros a b c d -> Hoff.
    assert (Hin : forall p, In p [a; b; c; d] -> pulse_off g p = g).
    { intros p Hp. rewrite Forall_forall in Hpins. specialize (Hpins p Hp).
      apply pulse_off_restores; [lia|].
      unfold g. rewrite guard_on_testbit by exact Hpins. apply Hoff. lia. }
    cbn [pulses_words pulses_final List.app].
    rewrite (Hin a) by (cbn; auto). rewrite (Hin b) by (cbn; auto).
    rewrite (Hin c) by (cbn; auto). rewrite (Hin d) by (cbn; auto).
    unfold g. rewrite guard_off_restores by (apply Hoff; lia). reflexivity.
Qed.

Lemma C6_guardedMulti_order_and_guard_witness :
  let w := power_on (Ftdi None) [] in
  Forall (fun p => 1 <= p <= 8) [4; 5; 6; 6] /\ reliable (gpio w) /\
  writes (events (relay_control._sequence_mode_thread "Reset" ["4"; "5"; "6"; "6"] w))
  = [65022; 65006; 65022; 64990; 65022; 64958; 65022; 64958; 65022; 65535].
Proof.
  intros w.
  assert (H : Forall (fun p => 1 <= p <= 8) [4; 5; 6; 6])
    by (repeat (constructor; [lia|]); constructor).
  split; [exact H|]. split; [exact I|].
  exact (proj1 (proj2 (C6_guardedMulti_order_and_guard "Reset" [4; 5; 6; 6] w H I))).
Defined.

(** C6 as stated fails when a digit of the list is itself a guard relay:
    after the pulse of digit 0 the written word has guard bit 0 back at 1,
    long before the final guardOff. *)
Lemma C6_counterexample :
  ~ guard_held
      (writes (events (relay_control._sequence_mode_thread "Seq" ["0"; "1"; "2"; "3"]
                         (power_on (Ftdi None) [])))).
Proof.
  unfold guard_held. intros H. rewrite Forall_forall in H.
  assert (Hin : In 65023
    (removelast (writes (events
       (relay_control._sequence_mode_thread "Seq" ["0"; "1"; "2"; "3"]
          (power_on (Ftdi None) [])))))) by (vm_compute; auto).
  destruct (H _ Hin) as [H0 _]. vm_compute in H0. discriminate.
Qed.

(** ** C7: the double press *)

(** C7. For every pair of relay digits, [_double_press_mode_thread] on a
    device that accepts its writes returns after exactly two hardware
    writes, each under the lock, with one sleep of the configured duration
    between them and outside the lock: the first clears both bits at once,
    the second sets both bits at once, and no other bit differs from the
    initial word in either. *)
Theorem C7_double_press_two_writes (mode_name : string) (a b : Z) (w : World) :
  0 <= a <= 9 -> 0 <= b <= 9 ->
  reliable (gpio w) ->
  let r := relay_control._double_press_mode_thread mode_name (Py.str a) (Py.str b) w in
  let s := current_state w in
  let both := Z.lor (bit a) (bit b) in
  let on := Z.land s (Z.lnot both) in
  let off := Z.lor on both in
  outcome r = Ok tt
  /\ timeline (events r) =
     [EAcquire; EWrite on; ERelease; ESleep (duration_spinner w);
      EAcquire; EWrite off; ERelease]
  /\ writes (events r) = [on; off]
  /\ (Z.testbit on a = false /\ Z.testbit on b = false)
  /\ (Z.testbit off a = true /\ Z.testbit off b = true)
  /\ (forall j, 0 <= j -> j <> a -> j <> b ->
      Z.testbit on j = Z.testbit s j /\ Z.testbit off j = Z.testbit s j).
Proof.
  intros Ha Hb Hr r s both on off.
  pose proof (RELAY_PINS_str a Ha) as Hka. pose proof (RELAY_PINS_str b Hb) as Hkb.
  assert (Hrun : runs (relay_control._double_press_mode_thread mode_name
                         (Py.str a) (Py.str b)) w (Ok tt) (written off w)
                   [EAcquire; EWrite on; ERelease; ESleep (duration_spinner w);
                    EAcquire; EWrite off; ERelease]).
  { unfold relay_control._double_press_mode_thread.
    eapply runs_eq; [run_step | try reflexivity ..].
    fold (written (Z.land (current_state w) (Z.lnot (Z.lor (Z.shiftl 1 a) (Z.shiftl 1 b)))) w).
    norm_world Hr. reflexivity. }
  assert (Hboth : forall j, 0 <= j ->
            Z.testbit both j = ((a =? j) || (b =? j))%bool).
  { intros j Hj. unfold both. rewrite Z.lor_spec, !bit_testbit by lia. reflexivity. }
  assert (Hon : forall j, 0 <= j ->
            Z.testbit on j = (Z.testbit s j && negb ((a =? j) || (b =? j)))%bool).
  { intros j Hj. unfold on. rewrite Z.land_spec, Z.lnot_spec, Hboth by lia. reflexivity. }
  assert (Hoff : forall j, 0 <= j ->
            Z.testbit off j
            = ((Z.testbit s j && negb ((a =? j) || (b =? j))) || ((a =? j) || (b =? j)))%bool).
  { intros j Hj. unfold off. rewrite Z.lor_spec, Hon, Hboth by lia. reflexivity. }
  split; [apply Hrun|]. split; [apply Hrun|].
  split; [unfold r; erewrite runs_writes by exact Hrun; reflexivity|].
  split; [|split].
  - rewrite !Hon by lia. rewrite !Z.eqb_refl.
    rewrite orb_true_r. cbn. rewrite !andb_false_r. auto.
  - rewrite !Hoff by lia. rewrite !Z.eqb_refl.
    rewrite !orb_true_r. auto.
  - intros j Hj Hja Hjb. rewrite Hon, Hoff by lia.
    destruct (Z.eqb_spec a j); [congruence|]. destruct (Z.eqb_spec b j); [congruence|].
    cbn. rewrite andb_true_r, orb_false_r. auto.
Qed.

Lemma C7_double_press_two_writes_witness :
  let w := power_on (Simulated 65535) [] in
  0 <= 1 <= 9 /\ 0 <= 5 <= 9 /\ reliable (gpio w) /\
  writes (events (relay_control._double_press_mode_thread "Quick Scene" "1" "5" w))
  = [65501; 65535].
Proof.
  intros w. split; [lia|]. split; [lia|]. split; [exact I|].
  exact (proj1 (proj2 (proj2
    (C7_double_press_two_writes "Quick Scene" 1 5 w ltac:(lia) ltac:(lia) I)))).
Defined.

(** ** The single press *)

Lemma runs_single_press_guarded (mode_name relay_key : string) (pin : Z) (w : World) :
  Py.startswith mode_name "Exit Prog Mode" = true ->
  Py.dict_get relay_control.RELAY_PINS relay_key = Some pin ->
  reliable (gpio w) ->
  let g := Z.land (current_state w) (Z.lnot GUARD) in
  runs (relay_control._single_press_mode_thread mode_name relay_key) w (Ok tt)
       (written (Z.lor (pulse_off g pin) GUARD) w)
       (guardedSingle_timeline (duration_spinner w) (current_state w) pin).
Proof.
  intros Hexit Hpin Hr g. unfold relay_control._single_press_mode_thread.
  rewrite Hexit. cbv beta iota.
  run_with Hr.
Qed.

Lemma runs_single_press_bare (mode_name relay_key : string) (pin : Z) (w : World) :
  Py.startswith mode_name "Exit Prog Mode" = false ->
  Py.dict_get relay_control.RELAY_PINS relay_key = Some pin ->
  reliable (gpio w) ->
  runs (relay_control._single_press_mode_thread mode_name relay_key) w (Ok tt)
       (written (pulse_off (current_state w) pin) w)
       (pulses_timeline (duration_spinner w) 0.1 (current_state w) [pin]).
Proof.
  intros Hexit Hpin Hr. unfold relay_control._single_press_mode_thread.
  rewrite Hexit. cbv beta iota.
  run_with Hr.
Qed.

(** ** Gui.py: the same blocks in the Tkinter front-end *)

Lemma runs_Gui_press (mode_name relay : string) (pin : Z) (w : World) :
  Py.dict_get relay_control.RELAY_PINS relay = Some pin ->
  (0 <= duration_spinner w)%Q ->
  reliable (gpio w) ->
  let s := current_state w in
  runs (Gui.press mode_name relay) w (Ok tt)
       (written (pulse_off s pin) w)
       [EAcquire; EWrite (pulse_on s pin); ERelease;
        ESleep (duration_spinner w);
        EAcquire; EWrite (pulse_off s pin); ERelease].
Proof.
  intros Hpin Hd Hr s. unfold Gui.press, Gui.log.
  change Gui.RELAY_PINS_at with relay_control.RELAY_PINS_at.
  change Gui.state_and_not with relay_control.state_and_not.
  change Gui.state_or with relay_control.state_or.
  change Gui.write_state with relay_control.write_state.
  change Gui.configured with relay_control.configured.
  run_with Hr.
Qed.

#[local] Hint Extern 2 (runs (Gui.press _ _) _ _ _ _) =>
  eapply runs_Gui_press;
  [ solve [eauto]
  | cbn [duration_spinner written set_gpio set_current_state]; assumption
  | cbn [gpio set_gpio set_current_state written]; solve [auto with runs] ] : runs.

Lemma runs_Gui_pulse_loop (mode_name : string) (sequence : list string)
    (pins : list Z) (w0 : World) :
  Forall2 (fun k p => Py.dict_get relay_control.RELAY_PINS k = Some p) sequence pins ->
  (0 <= duration_spinner w0)%Q ->
  reliable (gpio w0) ->
  forall s,
  runs (for_each sequence (fun relay => Gui.press mode_name relay ;; sleep 0.1))
       (written s w0) (Ok tt) (written (pulses_final s pins) w0)
       (pulses_timeline (duration_spinner w0) 0.1 s pins).
Proof.
  intros Hkeys Hd Hr.
  induction Hkeys as [|k p ks ps Hk _ IH]; intros s.
  - apply runs_ret.
  - cbn [for_each pulses_final pulses_timeline].
    eapply runs_eq.
    + eapply runs_bind.
      * eapply runs_bind.
        -- eapply (runs_Gui_press mode_name k p); [exact Hk | exact Hd | auto with runs].
        -- cbv beta. apply runs_sleep.
      * cbv beta. norm_world Hr. apply IH.
    + reflexivity.
    + reflexivity.
    + norm_world Hr. rewrite <- !app_assoc. reflexivity.
Qed.

#[local] Hint Extern 2 (runs (for_each _ (fun relay => Gui.press _ relay ;; _)) (written _ _) _ _ _) =>
  eapply runs_Gui_pulse_loop; [ eassumption | assumption | assumption ] : runs.

Lemma runs_Gui_sequence_mode (mode_name : string) (sequence : list string)
    (pins : list Z) (w : World) :
  Forall2 (fun k p => Py.dict_get relay_control.RELAY_PINS k = Some p) sequence pins ->
  (0 <= duration_spinner w)%Q ->
  reliable (gpio w) ->
  let g := Z.land (current_state w) (Z.lnot GUARD) in
  runs (Gui._sequence_mode_thread mode_name sequence) w (Ok tt)
       (written (Z.lor (pulses_final g pins) GUARD) w)
       (guardedMulti_timeline (duration_spinner w) (current_state w) pins).
Proof.
  intros Hkeys Hd Hr g. unfold Gui._sequence_mode_thread, Gui.log.
  change Gui.guard_on with relay_control.guard_on.
  change Gui.guard_off with relay_control.guard_off.
  run_with Hr.
Qed.

Lemma runs_Gui_programming_mode_thread (w : World) :
  (0 <= duration_spinner w)%Q ->
  reliable (gpio w) ->
  let g := Z.land (current_state w) (Z.lnot GUARD) in
  runs Gui._programming_mode_thread w (Ok tt)
       (written (Z.lor (pulses_final g [2; 1; 2; 1]) GUARD) w)
       (guardedMulti_timeline (duration_spinner w) (current_state w) [2; 1; 2; 1]).
Proof.
  intros Hd Hr g. unfold Gui._programming_mode_thread, Gui.log.
  change Gui.guard_on with relay_control.guard_on.
  change Gui.guard_off with relay_control.guard_off.
  assert (Hkeys : Forall2 (fun k p => Py.dict_get relay_control.RELAY_PINS k = Some p)
                          ["2"; "1"; "2"; "1"] [2; 1; 2; 1])
    by (repeat (constructor; [reflexivity|]); constructor).
  run_with Hr.
Qed.

Lemma runs_Gui_single_press (mode_name relay_key : string) (pin : Z) (w : World) :
  Py.dict_get relay_control.RELAY_PINS relay_key = Some pin ->
  (0 <= duration_spinner w)%Q ->
  reliable (gpio w) ->
  let g := Z.land (current_state w) (Z.lnot GUARD) in
  runs (Gui._single_press_mode_thread mode_name relay_key) w (Ok tt)
       (written (Z.lor (pulse_off g pin) GUARD) w)
       (guardedSingle_timeline (duration_spinner w) (current_state w) pin).
Proof.
  intros Hpin Hd Hr g. unfold Gui._single_press_mode_thread, Gui.log.
  change Gui.guard_on with relay_control.guard_on.
  change Gui.guard_off with relay_control.guard_off.
  run_with Hr.
Qed.

Lemma runs_Gui_when_ready (body : M unit) (w w' : World) (o : Outcome unit)
    (t : list Event) :
  hardware_ready w = true ->
  runs body w o w' t -> runs (Gui.when_ready body) w (Ok tt) w' t.
Proof.
  intros Hready H. unfold Gui.when_ready.
  eapply runs_eq; [eapply runs_bind; [apply runs_gets|] | reflexivity ..].
  cbv beta. rewrite Hready. cbn [negb]. eapply runs_spawn, H.
Qed.

(** ** C2: the fixed digit sequences of the catalog *)

Ltac concrete_keys :=
  repeat (constructor; [reflexivity|]); constructor.




(** ** C3: the eight single-mode operations *)

Lemma runs_timeline {A : Type} (m : M A) (w w' : World) (o : Outcome A)
    (t : list Event) :
  runs m w o w' t -> timeline (events (m w)) = t.
Proof. intros (_ & _ & H). exact H. Qed.

(** The guardedSingle shape, spelled out: guardOn; wait 0.3 s; the pulse of
    the digit for the duration [d]; wait 0.1 s; guardOff. *)
Lemma guardedSingle_timeline_shape (d : Q) (s pin : Z) :
  let g := Z.land s (Z.lnot GUARD) in
  guardedSingle_timeline d s pin =
  [EAcquire; EWrite g; ERelease;
   ESleep 0.3;
   EAcquire; EWrite (pulse_on g pin); ERelease;
   ESleep d;
   EAcquire; EWrite (pulse_off g pin); ERelease;
   ESleep 0.1;
   EAcquire; EWrite (Z.lor (pulse_off g pin) GUARD); ERelease].
Proof. reflexivity. Qed.




(** ** C10: the debug checkpoint *)

(** C10. With debug mode off, [wait_for_next_step] returns at once: it
    performs no event, does not wait, and leaves the world as it was.
    Toggling debug mode from on to off sets the step-ready event, and a
    sequence thread suspended in [step_ready.wait()] at a checkpoint is
    released by that toggle: the checkpoint returns, whereas with no
    operator action at all it would stay blocked. *)
Theorem C10_debug_checkpoint (w : World) (rest : list UiAction) :
  let off := set_debug_mode false w in
  let on := set_debug_mode true w in
  let suspended := set_operator (ClickDebugMode :: rest) on in
  let abandoned := set_operator [] on in
  levels_sheet_page.wait_for_next_step off = mkRun (Ok tt) off []
  /\ (outcome (levels_sheet_page.toggle_debug_mode on) = Ok tt
      /\ debug_mode (final (levels_sheet_page.toggle_debug_mode on)) = false
      /\ step_ready (final (levels_sheet_page.toggle_debug_mode on)) = true)
  /\ (outcome (levels_sheet_page.wait_for_next_step suspended) = Ok tt
      /\ debug_mode (final (levels_sheet_page.wait_for_next_step suspended)) = false
      /\ operator (final (levels_sheet_page.wait_for_next_step suspended)) = rest)
  /\ outcome (levels_sheet_page.wait_for_next_step abandoned) = Blocked.
Proof.
  destruct w as [s hr d g rw sn de dm sr en tx op].
  destruct rest as [|a rest]; cbn; repeat split; reflexivity.
Qed.

(** ** Strings: split, splitlines, strip *)

Lemma string_forall_append (P : ascii -> bool) (a b : string) :
  string_forall P (a +s+ b) = (string_forall P a && string_forall P b)%bool.
Proof.
  induction a as [|c a IH]; cbn; [reflexivity|].
  rewrite IH. apply andb_assoc.
Qed.

Lemma string_forall_impl (P Q : ascii -> bool) (s : string) :
  (forall c, P c = true -> Q c = true) ->
  string_forall P s = true -> string_forall Q s = true.
Proof.
  intros HPQ. induction s as [|c s IH]; cbn; [auto|].
  intros H. apply andb_prop in H. destruct H as [Hc Hs].
  rewrite (HPQ c Hc), (IH Hs). reflexivity.
Qed.

Lemma split_no_sep (sep : ascii) (s : string) :
  string_forall (fun c => negb (Ascii.eqb c sep)) s = true ->
  Py.split sep s = [s].
Proof.
  induction s as [|c s IH]; cbn; [reflexivity|].
  intros H. apply andb_prop in H. destruct H as [Hc Hs].
  apply negb_true_iff in Hc. rewrite Hc, (IH Hs). reflexivity.
Qed.

Lemma split_app_sep (sep : ascii) (x rest : string) :
  string_forall (fun c => negb (Ascii.eqb c sep)) x = true ->
  Py.split sep (x +s+ String sep rest) = x :: Py.split sep rest.
Proof.
  induction x as [|c x IH]; cbn.
  - intros _. rewrite Ascii.eqb_refl. reflexivity.
  - intros H. apply andb_prop in H. destruct H as [Hc Hx].
    apply negb_true_iff in Hc. rewrite Hc, (IH Hx). reflexivity.
Qed.

Lemma concat_cons2 (sep x y : string) (rest : list string) :
  String.concat sep (x :: y :: rest) = x +s+ sep +s+ String.concat sep (y :: rest).
Proof. reflexivity. Qed.

Lemma split_join (fields : list string) :
  fields <> [] ->
  Forall comma_free fields ->
  Py.split "," (Py.join "," fields) = fields.
Proof.
  unfold Py.join. induction fields as [|x [|y rest] IH]; intros Hne Hall.
  - congruence.
  - cbn. apply split_no_sep. inversion Hall; assumption.
  - rewrite concat_cons2. inversion Hall as [|? ? Hx Hrest]; subst.
    change ("," +s+ String.concat "," (y :: rest))
      with (String "," (String.concat "," (y :: rest))).
    rewrite split_app_sep by exact Hx.
    rewrite IH; [reflexivity | discriminate | exact Hrest].
Qed.

Lemma splitlines_line (l rest : string) :
  single_line l ->
  Py.splitlines_from false (l +s+ String Py.LF rest)
  = l :: Py.splitlines_from false rest.
Proof.
  unfold single_line.
  induction l as [|c l IH]; cbn [Py.splitlines_from String.append andb string_forall].
  - reflexivity.
  - intros H. apply andb_prop in H. destruct H as [Hc Hl].
    apply negb_true_iff in Hc. rewrite Hc, (IH Hl). reflexivity.
Qed.

Lemma splitlines_last (l : string) :
  single_line l -> l <> "" -> Py.splitlines_from false l = [l].
Proof.
  unfold single_line.
  induction l as [|c l IH]; cbn [Py.splitlines_from andb string_forall]; [congruence|].
  intros H _. apply andb_prop in H. destruct H as [Hc Hl].
  apply negb_true_iff in Hc. rewrite Hc.
  destruct l as [|c' l']; [reflexivity|].
  rewrite IH; [reflexivity | exact Hl | discriminate].
Qed.

Lemma splitlines_join (lines : list string) :
  lines <> [] ->
  Forall (fun l => single_line l /\ l <> "") lines ->
  Py.splitlines (Py.join (String Py.LF "") lines) = lines.
Proof.
  unfold Py.splitlines, Py.join.
  induction lines as [|x [|y rest] IH]; intros Hne Hall.
  - congruence.
  - cbn. inversion Hall as [|? ? [Hx Hx'] _]; subst. apply splitlines_last; assumption.
  - rewrite concat_cons2. inversion Hall as [|? ? [Hx Hx'] Hrest]; subst.
    change (String Py.LF "" +s+ String.concat (String Py.LF "") (y :: rest))
      with (String Py.LF (String.concat (String Py.LF "") (y :: rest))).
    rewrite splitlines_line by exact Hx.
    rewrite IH; [reflexivity | discriminate | exact Hrest].
Qed.

Lemma lstrip_blank (s : string) :
  string_forall Py.isspace s = false -> Py.lstrip s <> "".
Proof.
  induction s as [|c s IH]; cbn; [discriminate|].
  destruct (Py.isspace c); cbn; [exact IH | discriminate].
Qed.

Lemma lstrip_head (s : string) (c : ascii) (rest : string) :
  Py.lstrip s = String c rest -> Py.isspace c = false.
Proof.
  induction s as [|c' s IH]; cbn; [discriminate|].
  destruct (Py.isspace c') eqn:E; [exact IH|].
  intros [= <- <-]. exact E.
Qed.

Lemma rstrip_head (c : ascii) (rest : string) :
  Py.isspace c = false -> Py.rstrip (String c rest) <> "".
Proof.
  intros Hc. cbn. destruct (Py.rstrip rest); [rewrite Hc|]; discriminate.
Qed.

(** A line with a visible character is not blank. *)
Lemma strip_visible (s : string) :
  string_forall Py.isspace s = false -> String.eqb (Py.strip s) "" = false.
Proof.
  intros H. apply String.eqb_neq. unfold Py.strip.
  pose proof (lstrip_blank s H) as Hne.
  destruct (Py.lstrip s) as [|c rest] eqn:E; [congruence|].
  apply rstrip_head. eapply lstrip_head, E.
Qed.

Lemma rstrip_visible (s : string) :
  string_forall (fun c => negb (Py.isspace c)) s = true -> Py.rstrip s = s.
Proof.
  induction s as [|c s IH]; cbn; [reflexivity|].
  intros H. apply andb_prop in H. destruct H as [Hc Hs].
  apply negb_true_iff in Hc. rewrite (IH Hs), Hc.
  destruct s; reflexivity.
Qed.

Lemma strip_visible_all (s : string) :
  string_forall (fun c => negb (Py.isspace c)) s = true -> Py.strip s = s.
Proof.
  intros H. unfold Py.strip.
  assert (Hl : Py.lstrip s = s).
  { destruct s as [|c s]; [reflexivity|]. cbn in *.
    apply andb_prop in H. destruct H as [Hc _].
    apply negb_true_iff in Hc. rewrite Hc. reflexivity. }
  rewrite Hl. apply rstrip_visible, H.
Qed.

(** ** Decimal numerals *)

Lemma digit_facts (c : ascii) :
  is_digit c = true ->
  negb (Ascii.eqb c ",") = true /\ negb (Py.is_linebreak c) = true
  /\ negb (Py.isspace c) = true
  /\ (Ascii.eqb c "+" || Ascii.eqb c "-")%bool = false.
Proof.
  destruct c as [[] [] [] [] [] [] [] []]; cbn; intros H;
    try discriminate; repeat split; reflexivity.
Qed.

Lemma digits_NilEmpty (d : Decimal.uint) :
  string_forall is_digit (NilEmpty.string_of_uint d) = true.
Proof. induction d; cbn; auto. Qed.

Lemma digits_str_nat (n : nat) :
  string_forall is_digit (Py.str_nat n) = true /\ Py.str_nat n <> "".
Proof.
  unfold Py.str_nat, NilZero.string_of_uint.
  destruct (Nat.to_uint n) eqn:E;
    (split; [first [reflexivity | apply (digits_NilEmpty (_ _))] | cbn; discriminate]).
Qed.

Lemma digits_zfill (width : nat) (s : string) :
  string_forall is_digit s = true ->
  string_forall is_digit (Py.zfill width s) = true.
Proof.
  intros H. unfold Py.zfill.
  assert (Hz : forall k, string_forall is_digit (Py.zeros k) = true)
    by (induction k; cbn; auto).
  destruct s as [|c s].
  - apply Hz.
  - pose proof H as H'. cbn in H'. apply andb_prop in H'. destruct H' as [Hc _].
    destruct (digit_facts c Hc) as (_ & _ & _ & Hsign). rewrite Hsign.
    rewrite string_forall_append, Hz, H. reflexivity.
Qed.

Lemma digits_format_02d (v : nat) :
  string_forall is_digit (Py.format_02d (Z.of_nat v)) = true.
Proof.
  unfold Py.format_02d. apply digits_zfill. unfold Py.str.
  destruct v as [|v]; [reflexivity|].
  cbn [Z.of_nat Z.to_int NilZero.string_of_int].
  unfold NilZero.string_of_uint.
  destruct (Pos.to_uint (Pos.of_succ_nat v)); first [reflexivity | apply (digits_NilEmpty (_ _))].
Qed.

Lemma digits_clean (s : string) :
  string_forall is_digit s = true -> clean_field s.
Proof.
  intros H. split; [|split].
  - eapply string_forall_impl; [|exact H]. intros c Hc. apply (digit_facts c Hc).
  - eapply string_forall_impl; [|exact H]. intros c Hc. apply (digit_facts c Hc).
  - apply strip_visible_all. eapply string_forall_impl; [|exact H].
    intros c Hc. apply (digit_facts c Hc).
Qed.

(** ** C8: CSV export followed by import *)

Lemma single_line_join (fields : list string) :
  Forall single_line fields -> single_line (Py.join "," fields).
Proof.
  unfold Py.join, single_line.
  induction fields as [|x [|y rest] IH]; intros Hall.
  - reflexivity.
  - inversion Hall; assumption.
  - rewrite concat_cons2. inversion Hall as [|? ? Hx Hrest]; subst.
    rewrite !string_forall_append, Hx, (IH Hrest). reflexivity.
Qed.

Lemma visible_join (x y : string) (rest : list string) :
  string_forall Py.isspace (Py.join "," (x :: y :: rest)) = false.
Proof.
  unfold Py.join. rewrite concat_cons2, !string_forall_append.
  cbn [string_forall].
  replace (Py.isspace ",") with false by reflexivity.
  cbn [andb]. apply andb_false_r.
Qed.

Lemma visible_nonempty (s : string) :
  string_forall Py.isspace s = false -> s <> "".
Proof. intros H ->. discriminate. Qed.

Lemma map_strip_clean (fields : list string) :
  Forall clean_field fields -> map Py.strip fields = fields.
Proof.
  induction 1 as [|x rest (_ & _ & Hx) _ IH]; cbn; [reflexivity|].
  rewrite Hx, IH. reflexivity.
Qed.

Lemma clean_empty : clean_field "".
Proof. repeat split. Qed.

(** The cells of one exported row. *)
Lemma row_cells (e : levels_sheet_page.Entry nat) :
  let fields := [Py.str_nat (levels_sheet_page.channel e);
                 levels_sheet_page.entry_zone e; levels_sheet_page.dimRef e;
                 levels_sheet_page.entry_name e; levels_sheet_page.entry_type e]
                ++ levels_sheet_page.entry_scenes e in
  Forall clean_field fields ->
  map Py.strip (Py.split "," (Py.join "," fields)) = fields.
Proof.
  intros fields Hclean.
  rewrite split_join.
  - apply map_strip_clean, Hclean.
  - discriminate.
  - eapply Forall_impl; [|exact Hclean]. intros f Hf. apply Hf.
Qed.

Lemma parse_row_line (e : levels_sheet_page.Entry nat) :
  let fields := [Py.str_nat (levels_sheet_page.channel e);
                 levels_sheet_page.entry_zone e; levels_sheet_page.dimRef e;
                 levels_sheet_page.entry_name e; levels_sheet_page.entry_type e]
                ++ levels_sheet_page.entry_scenes e in
  Forall clean_field fields ->
  List.length (levels_sheet_page.entry_scenes e) = 10%nat ->
  levels_sheet_page.parse_csv_rows [Py.join "," fields]
  = [levels_sheet_page.mkEntry
       (Py.str_nat (levels_sheet_page.channel e))
       (levels_sheet_page.entry_zone e) (levels_sheet_page.dimRef e)
       (levels_sheet_page.entry_name e) (levels_sheet_page.entry_type e)
       (levels_sheet_page.entry_scenes e)].
Proof.
  intros fields Hclean Hlen.
  assert (Hn : List.length fields = 15%nat)
    by (unfold fields; rewrite length_app, Hlen; reflexivity).
  pose proof (row_cells e Hclean) as Hcells. fold fields in Hcells.
  unfold levels_sheet_page.parse_csv_rows. cbn [flat_map]. cbv zeta.
  rewrite Hcells, Hn. cbn [Nat.ltb Nat.leb]. rewrite app_nil_r.
  unfold fields. cbn [List.app]. unfold Py.slice.
  cbn [skipn Nat.sub]. rewrite <- Hlen, firstn_all. reflexivity.
Qed.

Lemma parse_csv_rows_cons (l : string) (ls : list string) :
  levels_sheet_page.parse_csv_rows (l :: ls)
  = levels_sheet_page.parse_csv_rows [l] ++ levels_sheet_page.parse_csv_rows ls.
Proof.
  unfold levels_sheet_page.parse_csv_rows. cbn [flat_map].
  rewrite app_nil_r. reflexivity.
Qed.

Lemma parse_row_lines (entries : list (levels_sheet_page.Entry nat)) :
  Forall (fun e =>
    Forall clean_field
      ([Py.str_nat (levels_sheet_page.channel e);
        levels_sheet_page.entry_zone e; levels_sheet_page.dimRef e;
        levels_sheet_page.entry_name e; levels_sheet_page.entry_type e]
       ++ levels_sheet_page.entry_scenes e)
    /\ List.length (levels_sheet_page.entry_scenes e) = 10%nat) entries ->
  levels_sheet_page.parse_csv_rows
    (map (fun entry =>
            Py.join "," ([Py.str_nat (levels_sheet_page.channel entry);
                          levels_sheet_page.entry_zone entry;
                          levels_sheet_page.dimRef entry;
                          levels_sheet_page.entry_name entry;
                          levels_sheet_page.entry_type entry]
                         ++ levels_sheet_page.entry_scenes entry)) entries)
  = map (fun e =>
           levels_sheet_page.mkEntry
             (Py.str_nat (levels_sheet_page.channel e))
             (levels_sheet_page.entry_zone e) (levels_sheet_page.dimRef e)
             (levels_sheet_page.entry_name e) (levels_sheet_page.entry_type e)
             (levels_sheet_page.entry_scenes e)) entries.
Proof.
  induction 1 as [|e rest [Hclean Hlen] _ IH]; [reflexivity|].
  cbn [map]. rewrite parse_csv_rows_cons.
  rewrite (parse_row_line e Hclean Hlen), IH. reflexivity.
Qed.

Lemma entries_clean (table : list Row) (start : nat) :
  Forall clean_row table ->
  Forall (fun e =>
    Forall clean_field
      ([Py.str_nat (levels_sheet_page.channel e);
        levels_sheet_page.entry_zone e; levels_sheet_page.dimRef e;
        levels_sheet_page.entry_name e; levels_sheet_page.entry_type e]
       ++ levels_sheet_page.entry_scenes e)
    /\ List.length (levels_sheet_page.entry_scenes e) = 10%nat)
    (map (fun '(idx, row) =>
            levels_sheet_page.mkEntry idx (zone row) (dim_ref row) (name row) (type row)
              (map (fun spin => Py.format_02d (Z.of_nat spin)) (scenes row)))
         (enumerate_from start table)).
Proof.
  revert start. induction table as [|row rest IH]; intros k Hall.
  - constructor.
  - inversion Hall as [|? ? (Hz & Hd & Hn & Ht & Hlen) Hrest]; subst.
    cbn [enumerate_from map]. constructor; [|apply IH, Hrest].
    cbn [levels_sheet_page.channel levels_sheet_page.entry_zone
         levels_sheet_page.dimRef levels_sheet_page.entry_name
         levels_sheet_page.entry_type levels_sheet_page.entry_scenes].
    split; [|rewrite length_map; exact Hlen].
    apply Forall_app. split.
    + repeat (constructor; [first [assumption
                                  | apply digits_clean, digits_str_nat]|]).
      constructor.
    + apply Forall_map, Forall_forall. intros v _.
      apply digits_clean, digits_format_02d.
Qed.

Lemma read_table_clean (w : World) :
  Forall clean_row (rows w) ->
  Forall (fun e =>
    Forall clean_field
      ([Py.str_nat (levels_sheet_page.channel e);
        levels_sheet_page.entry_zone e; levels_sheet_page.dimRef e;
        levels_sheet_page.entry_name e; levels_sheet_page.entry_type e]
       ++ levels_sheet_page.entry_scenes e)
    /\ List.length (levels_sheet_page.entry_scenes e) = 10%nat)
    (levels_sheet_page.read_table_data w).
Proof. apply entries_clean. Qed.

Lemma filter_all {A : Type} (f : A -> bool) (l : list A) :
  Forall (fun x => f x = true) l -> filter f l = l.
Proof.
  induction 1 as [|x rest Hx _ IH]; cbn; [reflexivity|].
  rewrite Hx, IH. reflexivity.
Qed.

Lemma header_line_fields (label text : string) :
  clean_field text ->
  let fields := [label; text] ++ repeat "" 13 in
  comma_free label -> single_line label ->
  Forall comma_free fields /\ Forall single_line fields.
Proof.
  intros (Hc & Hl & _) fields Hlc Hll. unfold fields. cbn [repeat List.app].
  split; repeat (constructor; [first [assumption | reflexivity]|]); constructor.
Qed.




(** ** Composite sequences: writes, termination and invariant *)

Lemma Inv_written (s s' : Z) (table : list Row) (w : World) :
  Inv s table w -> Inv s' table (written s' w).
Proof.
  intros [Hs Hg Hr Ht]. constructor; cbn; auto using reliable_after.
Qed.

Lemma emits_of_runs {A : Type} (table : list Row) (s s' : Z) (m : M A) (a : A)
    (t : list Event) :
  (forall w, Inv s table w -> runs m w (Ok a) (written s' w) t) ->
  emits table s s' m (writes t) (fun x => x = a).
Proof.
  intros H w Hinv. destruct (H w Hinv) as (Ho & Hf & Ht).
  split; [rewrite Ho; discriminate|]. split; [intros _; eauto|].
  intros a' Ha'. rewrite Ho in Ha'. injection Ha' as <-.
  rewrite Hf. split; [eapply Inv_written, Hinv|].
  split; [rewrite <- Ht; symmetry; apply writes_timeline|].
  split; [reflexivity|]. intros Hd. exact Hd.
Qed.

Lemma emits_weaken {A : Type} (table : list Row) (s s1 s2 : Z) (m : M A)
    (ws1 ws2 : list Z) (post1 post2 : A -> Prop) :
  emits table s s1 m ws1 post1 ->
  s1 = s2 -> ws1 = ws2 -> (forall a, post1 a -> post2 a) ->
  emits table s s2 m ws2 post2.
Proof.
  intros H <- <- Hp w Hinv. destruct (H w Hinv) as (Hr & Hd & Hok).
  split; [exact Hr|]. split; [exact Hd|].
  intros a Ha. destruct (Hok a Ha) as (Hi & Hw & Hpost & Hdm). auto.
Qed.

Lemma emits_bind {A B : Type} (table : list Row) (s s1 s2 : Z) (m : M A)
    (k : A -> M B) (ws1 ws2 : list Z) (post1 : A -> Prop) (post2 : B -> Prop) :
  emits table s s1 m ws1 post1 ->
  (forall a, post1 a -> emits table s1 s2 (k a) ws2 post2) ->
  emits table s s2 (bind m k) (ws1 ++ ws2) post2.
Proof.
  intros Hm Hk w Hinv. destruct (Hm w Hinv) as (Hr & Hd & Hok).
  unfold bind. destruct (outcome (m w)) as [a|e|] eqn:Ho.
  - destruct (Hok a eq_refl) as (Hi & Hw & Hp & Hdm).
    destruct (Hk a Hp (final (m w)) Hi) as (Hr' & Hd' & Hok').
    cbn [outcome final events]. split; [exact Hr'|]. split.
    + intros Hoff. apply Hd'. apply Hdm, Hoff.
    + intros b Hb. destruct (Hok' b Hb) as (Hi' & Hw' & Hp' & Hdm').
      split; [exact Hi'|]. split; [rewrite writes_app, Hw, Hw'; reflexivity|].
      split; [exact Hp'|]. intros Hoff. apply Hdm', Hdm, Hoff.
  - exfalso. eapply Hr. reflexivity.
  - cbn [outcome final events]. split; [discriminate|]. split.
    + intros Hoff. destruct (Hd Hoff) as (a & Ha). discriminate.
    + discriminate.
Qed.

Lemma emits_ret {A : Type} (table : list Row) (s : Z) (a : A) :
  emits table s s (ret a) [] (fun x => x = a).
Proof.
  intros w Hinv. cbn. split; [discriminate|]. split; [eauto|].
  intros a' [= <-]. auto.
Qed.

Lemma emits_for_each {A : Type} (table : list Row) (s : Z) (xs : list A)
    (body : A -> M unit) (ws : A -> list Z) :
  (forall x, In x xs -> emits table s s (body x) (ws x) (fun _ => True)) ->
  emits table s s (for_each xs body) (flat_map ws xs) (fun _ => True).
Proof.
  induction xs as [|x rest IH]; intros H; cbn [for_each flat_map].
  - eapply emits_weaken; [apply emits_ret | reflexivity | reflexivity | auto].
  - eapply emits_bind; [apply H; left; reflexivity|].
    intros _ _. apply IH. intros y Hy. apply H. right. exact Hy.
Qed.

Lemma emits_sleep (table : list Row) (s : Z) (d : Q) :
  emits table s s (sleep d) [] (fun _ => True).
Proof.
  intros w Hinv. cbn. split; [discriminate|]. split; [eauto|]. intros a _. auto.
Qed.

Lemma emits_global_log (table : list Row) (s : Z) (line : string) :
  emits table s s (global_log line) [] (fun _ => True).
Proof.
  intros w Hinv. cbn. split; [discriminate|]. split; [eauto|]. intros a _. auto.
Qed.

Lemma emits_sim_log (table : list Row) (s : Z) (message : string) :
  emits table s s (relay_control.sim_log message) [] (fun _ => True).
Proof.
  intros w Hinv. unfold relay_control.sim_log, bind, gets. cbn.
  destruct (relay_control.SIMULATION_MODE w); cbn;
    (split; [discriminate|]; split; [eauto|]; intros a _; auto).
Qed.

Lemma emits_gets_rows (table : list Row) (s : Z) :
  emits table s s (gets rows) [] (fun t => t = table).
Proof.
  intros w Hinv. cbn. split; [discriminate|]. split; [eauto|].
  intros a [= <-]. pose proof (inv_rows _ _ _ Hinv). auto.
Qed.

Lemma emits_gets_debug_mode (table : list Row) (s : Z) :
  emits table s s (gets debug_mode) [] (fun _ => True).
Proof.
  intros w Hinv. cbn. split; [discriminate|]. split; [eauto|]. intros a _. auto.
Qed.

Lemma emits_of_runs_at {A : Type} (table : list Row) (s s' : Z) (m : M A) (a : A)
    (ws : list Z) :
  (forall w, Inv s table w ->
     exists t, runs m w (Ok a) (written s' w) t /\ writes t = ws) ->
  emits table s s' m ws (fun _ => True).
Proof.
  intros H w Hinv. destruct (H w Hinv) as (t & (Ho & Hf & Ht) & Hws).
  split; [rewrite Ho; discriminate|]. split; [intros _; eauto|].
  intros a' Ha'. rewrite Hf. split; [eapply Inv_written, Hinv|].
  split; [rewrite <- Hws, <- Ht; symmetry; apply writes_timeline|].
  split; [exact I|]. intros Hd. exact Hd.
Qed.

(** *** The debug checkpoint inside a sequence *)

Lemma ui_handler_quiet (s : Z) (table : list Row) (a : UiAction) (w : World) :
  Inv s table w ->
  outcome (levels_sheet_page.ui_handler a w) = Ok tt
  /\ Inv s table (final (levels_sheet_page.ui_handler a w))
  /\ writes (events (levels_sheet_page.ui_handler a w)) = [].
Proof.
  intros [Hs Hg Hr Ht].
  destruct w as [cs hr d g rw sn de dm sr en tx op]; cbn in *.
  destruct a; cbn.
  - destruct (en next_step_button); cbn; repeat split; auto.
  - destruct dm; cbn; repeat split; auto.
Qed.

Lemma wait_loop_quiet (s : Z) (table : list Row) (pending : list UiAction) :
  forall w, Inv s table w ->
  let r := levels_sheet_page.step_ready_wait_from pending w in
  (forall e, outcome r <> Raise e)
  /\ (forall a, outcome r = Ok a ->
        Inv s table (final r) /\ writes (events r) = []).
Proof.
  induction pending as [|a rest IH]; intros w Hinv;
    cbn [levels_sheet_page.step_ready_wait_from].
  - destruct (step_ready w); cbn; (split; [discriminate|]).
    + intros _ _. split; [|reflexivity]. destruct Hinv. constructor; auto.
    + discriminate.
  - destruct (step_ready w); cbn [outcome final events].
    + split; [discriminate|]. intros _ _. split; [|reflexivity].
      destruct Hinv. constructor; auto.
    + destruct (ui_handler_quiet s table a w Hinv) as (Ho & Hi & Hw).
      unfold bind. rewrite Ho. cbn [outcome final events].
      destruct (IH _ Hi) as (Hr' & Hok'). split; [exact Hr'|].
      intros b Hb. destruct (Hok' b Hb) as (Hi' & Hw').
      split; [exact Hi'|]. rewrite writes_app, Hw, Hw'. reflexivity.
Qed.

Lemma emits_wait_for_next_step (table : list Row) (s : Z) :
  emits table s s levels_sheet_page.wait_for_next_step [] (fun _ => True).
Proof.
  intros w Hinv. unfold levels_sheet_page.wait_for_next_step.
  destruct (debug_mode w) eqn:Hdm.
  - assert (Hinv' : Inv s table (set_step_ready false w))
      by (destruct Hinv; constructor; auto).
    destruct (wait_loop_quiet s table (operator w) _ Hinv') as (Hr & Hok).
    unfold levels_sheet_page.step_ready_wait, levels_sheet_page.step_ready_clear,
      bind, global_log, emit, modify, gets in *.
    cbn [outcome final events operator set_step_ready] in *.
    destruct (outcome (levels_sheet_page.step_ready_wait_from (operator w)
                         (set_step_ready false w))) as [u|e|] eqn:Ho;
      cbn [outcome final events].
    + split; [discriminate|]. split; [discriminate|].
      intros a _. destruct (Hok u eq_refl) as (Hi & Hw).
      split; [exact Hi|]. split; [|split; [exact I | discriminate]].
      cbn [List.app writes flat_map]. exact Hw.
    + exfalso. eapply Hr. reflexivity.
    + split; [discriminate|]. split; discriminate.
  - cbn. split; [discriminate|]. split; [eauto|]. intros a _. auto.
Qed.

(** *** The operations of the relay controller *)

Lemma pulses_final_restores (s : Z) (pins : list Z) :
  Forall (fun p => 0 <= p /\ Z.testbit s p = true) pins ->
  pulses_final s pins = s /\ pulses_words s pins = flat_map (fun p => [pulse_on s p; s]) pins.
Proof.
  induction 1 as [|p rest [Hp Hs] _ [IHf IHw]]; cbn; [auto|].
  rewrite (pulse_off_restores s p Hp Hs), IHf, IHw. auto.
Qed.

Lemma guarded_final_restores (s : Z) (pins : list Z) :
  relays_off s -> Forall (fun p => 1 <= p <= 8) pins ->
  Z.lor (pulses_final (Z.land s (Z.lnot GUARD)) pins) GUARD = s.
Proof.
  intros Hoff Hpins.
  destruct (pulses_final_restores (Z.land s (Z.lnot GUARD)) pins) as [Hf _].
  { eapply Forall_impl; [|exact Hpins]. cbv beta. intros p Hp.
    split; [lia|]. rewrite guard_on_testbit by exact Hp. apply Hoff. lia. }
  rewrite Hf. apply guard_off_restores; apply Hoff; lia.
Qed.

Lemma double_restores (s a b : Z) :
  0 <= a -> 0 <= b -> Z.testbit s a = true -> Z.testbit s b = true ->
  Z.lor (Z.land s (Z.lnot (Z.lor (bit a) (bit b)))) (Z.lor (bit a) (bit b)) = s.
Proof.
  intros Ha Hb Hsa Hsb. apply Z.bits_inj'. intros j Hj.
  rewrite !Z.lor_spec, Z.land_spec, Z.lnot_spec, Z.lor_spec, !bit_testbit by lia.
  destruct (Z.eqb_spec a j) as [<-|]; [rewrite Hsa; reflexivity|].
  destruct (Z.eqb_spec b j) as [<-|]; [rewrite Hsb; reflexivity|].
  cbn. rewrite andb_true_r, orb_false_r. reflexivity.
Qed.

Lemma emits_single_press_bare (table : list Row) (s : Z) (mode_name relay_key : string)
    (pin : Z) :
  Py.startswith mode_name "Exit Prog Mode" = false ->
  Py.dict_get relay_control.RELAY_PINS relay_key = Some pin ->
  relays_off s ->
  emits table s s (relay_control._single_press_mode_thread mode_name relay_key)
        (pulses_words s [pin]) (fun _ => True).
Proof.
  intros Hmode Hpin Hoff.
  destruct (RELAY_PINS_range _ _ Hpin) as [Hrange _].
  apply (emits_of_runs_at table s s _ tt). intros w [Hs Hg Hr Ht].
  eexists. split.
  - eapply runs_eq;
      [ apply (runs_single_press_bare mode_name relay_key pin w Hmode Hpin Hg)
      | reflexivity | | reflexivity ].
    rewrite Hs, pulse_off_restores; [reflexivity | lia | apply Hoff, Hrange].
  - rewrite writes_pulses_timeline, Hs. reflexivity.
Qed.

Lemma emits_exit_programming (table : list Row) (s : Z) :
  relays_off s ->
  emits table s s (relay_control._single_press_mode_thread "Exit Prog Mode" "8")
        (exit_words s) (fun _ => True).
Proof.
  intros Hoff. apply (emits_of_runs_at table s s _ tt). intros w [Hs Hg Hr Ht].
  eexists. split.
  - eapply runs_eq;
      [ apply (runs_single_press_guarded "Exit Prog Mode" "8" 8 w eq_refl eq_refl Hg)
      | reflexivity | | reflexivity ].
    cbv zeta. rewrite Hs.
    change (pulse_off (Z.land s (Z.lnot GUARD)) 8)
      with (pulses_final (Z.land s (Z.lnot GUARD)) [8]).
    rewrite guarded_final_restores; [reflexivity | exact Hoff |].
    repeat (constructor; [lia|]). constructor.
  - unfold guardedSingle_timeline. rewrite writes_guardedMulti_timeline, Hs. reflexivity.
Qed.

Lemma emits_programming_mode (table : list Row) (s : Z) :
  relays_off s ->
  emits table s s relay_control._programming_mode_thread (prog_words s) (fun _ => True).
Proof.
  intros Hoff. apply (emits_of_runs_at table s s _ tt). intros w [Hs Hg Hr Ht].
  eexists. split.
  - eapply runs_eq;
      [ apply (runs_programming_mode_thread w Hg) | reflexivity | | reflexivity ].
    cbv zeta. rewrite Hs.
    rewrite guarded_final_restores; [reflexivity | exact Hoff |].
    repeat (constructor; [lia|]). constructor.
  - rewrite writes_guardedMulti_timeline, Hs. reflexivity.
Qed.

Lemma runs_double_press (mode_name k1 k2 : string) (a b : Z) (w : World) :
  Py.dict_get relay_control.RELAY_PINS k1 = Some a ->
  Py.dict_get relay_control.RELAY_PINS k2 = Some b ->
  reliable (gpio w) ->
  let both := Z.lor (bit a) (bit b) in
  let on := Z.land (current_state w) (Z.lnot both) in
  runs (relay_control._double_press_mode_thread mode_name k1 k2) w (Ok tt)
       (written (Z.lor on both) w)
       [EAcquire; EWrite on; ERelease; ESleep (duration_spinner w);
        EAcquire; EWrite (Z.lor on both); ERelease].
Proof.
  intros Ha Hb Hr both on. unfold relay_control._double_press_mode_thread.
  eapply runs_eq; [run_step | try reflexivity ..].
  fold (written (Z.land (current_state w) (Z.lnot (Z.lor (Z.shiftl 1 a) (Z.shiftl 1 b)))) w).
  norm_world Hr. reflexivity.
Qed.

Lemma emits_double_press (table : list Row) (s : Z) (mode_name k1 k2 : string) (a b : Z) :
  Py.dict_get relay_control.RELAY_PINS k1 = Some a ->
  Py.dict_get relay_control.RELAY_PINS k2 = Some b ->
  relays_off s ->
  emits table s s (relay_control._double_press_mode_thread mode_name k1 k2)
        (double_words s a b) (fun _ => True).
Proof.
  intros Ha Hb Hoff.
  destruct (RELAY_PINS_range _ _ Ha) as [Hra _].
  destruct (RELAY_PINS_range _ _ Hb) as [Hrb _].
  apply (emits_of_runs_at table s s _ tt). intros w [Hs Hg Hr Ht].
  eexists. split.
  - eapply runs_eq;
      [ apply (runs_double_press mode_name k1 k2 a b w Ha Hb Hg)
      | reflexivity | | reflexivity ].
    cbv zeta. rewrite Hs, double_restores; [reflexivity | lia | lia | |];
      apply Hoff; lia.
  - rewrite Hs. reflexivity.
Qed.

Lemma emits_guard_on (table : list Row) (s : Z) :
  emits table s (Z.land s (Z.lnot GUARD)) relay_control.guard_on
        [Z.land s (Z.lnot GUARD)] (fun _ => True).
Proof.
  apply (emits_of_runs_at table s _ _ tt). intros w [Hs Hg Hr Ht].
  eexists. split.
  - eapply runs_eq; [apply (runs_guard_on w Hg) | reflexivity | | reflexivity].
    rewrite Hs. reflexivity.
  - rewrite Hs. reflexivity.
Qed.

Lemma emits_guard_off (table : list Row) (s : Z) :
  relays_off s ->
  emits table (Z.land s (Z.lnot GUARD)) s relay_control.guard_off [s] (fun _ => True).
Proof.
  intros Hoff. apply (emits_of_runs_at table _ s _ tt). intros w [Hs Hg Hr Ht].
  eexists. split.
  - eapply runs_eq; [apply (runs_guard_off w Hg) | reflexivity | | reflexivity].
    rewrite Hs, guard_off_restores by (apply Hoff; lia). reflexivity.
  - rewrite Hs, guard_off_restores by (apply Hoff; lia). reflexivity.
Qed.

(** A pulse from a word in which the relay is OFF leaves that word. *)
Lemma emits_press (table : list Row) (s : Z) (mode_name relay : string) (pin : Z)
    (hold : M Q) (h : World -> Q) :
  Py.dict_get relay_control.RELAY_PINS relay = Some pin ->
  (forall w', runs hold w' (Ok (h w')) w' []) ->
  Z.testbit s pin = true ->
  emits table s s (relay_control.press mode_name relay hold)
        [pulse_on s pin; s] (fun _ => True).
Proof.
  intros Hpin Hhold Hbit.
  destruct (RELAY_PINS_range _ _ Hpin) as [Hrange _].
  apply (emits_of_runs_at table s s _ tt). intros w [Hs Hg Hr Ht].
  eexists. split.
  - eapply runs_eq;
      [ apply (runs_press mode_name relay pin hold h w Hpin Hhold Hg)
      | reflexivity | | reflexivity ].
    cbv zeta. rewrite Hs, pulse_off_restores; [reflexivity | lia | exact Hbit].
  - cbv zeta. rewrite Hs, pulse_off_restores; [reflexivity | lia | exact Hbit].
Qed.

Lemma emits_pulse_loop (table : list Row) (s : Z) (mode_name : string) (hold : M Q)
    (h : World -> Q) (gap : Q) (sequence : list string) (pins : list Z) :
  Forall2 (fun k p => Py.dict_get relay_control.RELAY_PINS k = Some p) sequence pins ->
  (forall w', runs hold w' (Ok (h w')) w' []) ->
  Forall (fun p => Z.testbit s p = true) pins ->
  emits table s s
        (for_each sequence (fun relay =>
           relay_control.press mode_name relay hold ;; sleep gap))
        (flat_map (fun p => [pulse_on s p; s]) pins) (fun _ => True).
Proof.
  intros Hkeys Hhold. induction Hkeys as [|k p ks ps Hk _ IH]; intros Hbits.
  - eapply emits_weaken; [apply emits_ret | reflexivity | reflexivity | auto].
  - inversion Hbits as [|? ? Hp Hrest]; subst. cbn [for_each flat_map].
    eapply emits_weaken.
    + eapply emits_bind.
      * eapply emits_bind; [eapply emits_press; eassumption|].
        intros _ _. apply emits_sleep.
      * intros _ _. apply IH, Hrest.
    + reflexivity.
    + cbn [List.app]. rewrite ?app_nil_r. reflexivity.
    + auto.
Qed.

Lemma guardedMulti_writes_off (s : Z) (pins : list Z) :
  relays_off s -> Forall (fun p => 1 <= p <= 8) pins ->
  let g := Z.land s (Z.lnot GUARD) in
  guardedMulti_writes s pins
  = [g] ++ flat_map (fun p => [pulse_on g p; g]) pins ++ [s].
Proof.
  intros Hoff Hpins. cbv zeta. unfold guardedMulti_writes. cbv zeta.
  rewrite (guarded_final_restores s pins Hoff Hpins).
  destruct (pulses_final_restores (Z.land s (Z.lnot GUARD)) pins) as [_ Hw].
  { eapply Forall_impl; [|exact Hpins]. cbv beta. intros p Hp.
    split; [lia|]. rewrite guard_on_testbit by exact Hp. apply Hoff. lia. }
  rewrite Hw. reflexivity.
Qed.

Lemma emits_gets_ready (table : list Row) (s : Z) :
  emits table s s (gets hardware_ready) [] (fun ready => ready = true).
Proof.
  intros w Hinv. cbn. split; [discriminate|]. split; [eauto|].
  intros a [= <-]. pose proof (inv_ready _ _ _ Hinv). auto.
Qed.

Lemma emits_setEnabled (table : list Row) (s : Z) (c : Control) (on : bool) :
  emits table s s (setEnabled c on) [] (fun _ => True).
Proof.
  intros w [Hs Hg Hr Ht]. cbn. split; [discriminate|]. split; [eauto|].
  intros a _. split; [constructor; auto|]. auto.
Qed.

Create HintDb emits.

#[local] Hint Resolve emits_setEnabled : emits.

#[local] Hint Resolve emits_ret emits_sleep emits_global_log emits_sim_log
  emits_gets_rows emits_gets_debug_mode emits_gets_ready emits_wait_for_next_step
  emits_guard_on : emits.

(** One step through a sequence: split a [bind], or close an operation. *)
Ltac emits_step :=
  lazymatch goal with
  | |- emits _ _ _ (bind _ _) _ _ =>
      eapply emits_bind;
      [ emits_step
      | let a := fresh "a" in let Ha := fresh "Ha" in
        intros a Ha; cbv beta in Ha; subst; cbv beta iota zeta; cbn [negb];
        emits_step ]
  | |- _ => solve [eauto with emits]
  end.

Lemma in_guard_bit (s p : Z) :
  relays_off s -> 1 <= p <= 8 -> Z.testbit (Z.land s (Z.lnot GUARD)) p = true.
Proof. intros Hoff Hp. rewrite guard_on_testbit by exact Hp. apply Hoff. lia. Qed.

Lemma emits_program_zone (table : list Row) (s : Z) (target : string) (z : Z)
    (debug_callback : option (M unit)) :
  relays_off s ->
  Py.dict_get relay_control.RELAY_PINS target = Some z ->
  (forall callback, debug_callback = Some callback ->
     emits table s s callback [] (fun _ => True)) ->
  emits table s s (relay_control.program_zone target debug_callback)
        (zone_words s z) (fun _ => True).
Proof.
  intros Hoff Hz Hcb.
  destruct (RELAY_PINS_range _ _ Hz) as [Hzr _].
  set (g := Z.land s (Z.lnot GUARD)).
  assert (Hwait : emits table s s
            match debug_callback with Some callback => callback | None => ret tt end
            [] (fun _ => True)).
  { destruct debug_callback as [cb|]; [apply Hcb; reflexivity|].
    eapply emits_weaken; [apply emits_ret | reflexivity | reflexivity | auto]. }
  assert (H87 : forall mode_name,
            emits table g g
              (for_each ["8"; "7"] (fun relay =>
                 relay_control.press mode_name relay (ret 0.5%Q) ;; sleep 0.3))
              [pulse_on g 8; g; pulse_on g 7; g] (fun _ => True)).
  { intros mode_name.
    eapply (emits_pulse_loop table g mode_name (ret 0.5%Q) (fun _ => 0.5%Q) 0.3
                             ["8"; "7"] [8; 7]).
    - concrete_keys.
    - intros w'. apply runs_ret.
    - repeat (constructor; [apply in_guard_bit; [exact Hoff | lia]|]). constructor. }
  assert (H1 : forall mode_name key p, 1 <= p <= 8 ->
            Py.dict_get relay_control.RELAY_PINS key = Some p ->
            emits table g g (relay_control.press mode_name key (ret 0.5%Q))
                  [pulse_on g p; g] (fun _ => True)).
  { intros mode_name key p Hp Hk.
    eapply (emits_press table g mode_name key p (ret 0.5%Q) (fun _ => 0.5%Q));
      [exact Hk | intros w'; apply runs_ret | apply in_guard_bit; assumption]. }
  assert (Hdigit : forall mode_name,
            emits table s s (relay_control.press mode_name target relay_control.configured)
                  [pulse_on s z; s] (fun _ => True)).
  { intros mode_name.
    eapply (emits_press table s mode_name target z _ duration_spinner);
      [exact Hz | intros w'; apply runs_configured | apply Hoff, Hzr]. }
  pose proof (emits_guard_off table s Hoff) as Hoffg. fold g in Hoffg.
  pose proof (H1 "Zone Left" "1" 1 ltac:(lia) eq_refl) as HL1.
  pose proof (H1 "Zone Right" "2" 2 ltac:(lia) eq_refl) as HR2.
  unfold relay_control.program_zone, relay_control._show_error_slot.
  subst g.
  eapply emits_weaken.
  - emits_step.
  - reflexivity.
  - unfold zone_words.
    rewrite !guardedMulti_writes_off
      by (first [exact Hoff | repeat (constructor; [lia|]); constructor]).
    cbn [flat_map List.app pulses_words pulses_final].
    rewrite (pulse_off_restores s z) by (first [lia | apply Hoff, Hzr]).
    reflexivity.
  - auto.
Qed.

(** *** Digit entry *)

Lemma digit_key (c : ascii) :
  is_digit c = true ->
  exists p, Py.dict_get relay_control.RELAY_PINS (String c "") = Some p
            /\ pin_of (String c "") = p.
Proof.
  destruct c as [[] [] [] [] [] [] [] []]; cbn; intros H; try discriminate;
    eexists; split; reflexivity.
Qed.

Lemma In_chars (x : string) (text : string) (P : ascii -> bool) :
  string_forall P text = true -> In x (chars text) ->
  exists c, x = String c "" /\ P c = true.
Proof.
  induction text as [|c text IH]; cbn; [contradiction|].
  intros H [<-|Hin]; apply andb_prop in H; destruct H as [Hc Ht]; eauto.
Qed.

Lemma emits_digit_entry (table : list Row) (s : Z) (mode_name text : string)
    (tail : M unit) :
  relays_off s ->
  Py.startswith mode_name "Exit Prog Mode" = false ->
  string_forall is_digit text = true ->
  emits table s s tail [] (fun _ => True) ->
  emits table s s
        (for_each (chars text) (fun digit =>
           relay_control._single_press_mode_thread mode_name digit ;; tail))
        (digit_entry_words s text) (fun _ => True).
Proof.
  intros Hoff Hmode Hdigits Htail. unfold digit_entry_words.
  apply emits_for_each. intros x Hx.
  destruct (In_chars x text _ Hdigits Hx) as (c & -> & Hc).
  destruct (digit_key c Hc) as (p & Hp & Hpin). rewrite Hpin.
  eapply emits_weaken.
  - eapply emits_bind;
      [apply (emits_single_press_bare table s mode_name _ p Hmode Hp Hoff)|].
    intros _ _. exact Htail.
  - reflexivity.
  - apply app_nil_r.
  - auto.
Qed.

Lemma digits_zfill_str_nat (idx : nat) :
  string_forall is_digit (Py.zfill 2 (Py.str_nat idx)) = true.
Proof. apply digits_zfill, digits_str_nat. Qed.

(** *** The digits of a digit entry *)

Lemma uint_digits_revapp (u acc : Decimal.uint) :
  uint_digits (Decimal.revapp u acc) = List.rev (uint_digits u) ++ uint_digits acc.
Proof.
  revert acc. induction u; intros acc; cbn [Decimal.revapp uint_digits List.rev];
    [reflexivity | rewrite IHu, <- app_assoc; reflexivity ..].
Qed.

Lemma to_lu_small (n : nat) :
  (n < 10)%nat -> uint_digits (DecimalNat.Unsigned.to_lu n) = [Z.of_nat n].
Proof.
  intros H. do 10 (destruct n as [|n]; [reflexivity|]). lia.
Qed.

Lemma to_lu_step (q r : nat) :
  q <> 0%nat -> (r < 10)%nat ->
  uint_digits (DecimalNat.Unsigned.to_lu (r + 10 * q))
  = Z.of_nat r :: uint_digits (DecimalNat.Unsigned.to_lu q).
Proof.
  intros Hq Hr.
  pose proof (DecimalNat.Unsigned.to_lu_tenfold q Hq) as H10.
  do 10 (destruct r as [|r];
         [cbn [Nat.add DecimalNat.Unsigned.to_lu]; rewrite H10; reflexivity|]).
  lia.
Qed.

Lemma to_lu_digits (fuel n : nat) :
  (n <= fuel)%nat -> (1 <= fuel)%nat ->
  uint_digits (DecimalNat.Unsigned.to_lu n) = decimal_digits_from fuel n.
Proof.
  revert n. induction fuel as [|fuel IH]; intros n Hn Hf; [lia|].
  cbn [decimal_digits_from].
  destruct (Nat.ltb_spec n 10) as [Hlt|Hge].
  - rewrite Nat.mod_small by exact Hlt. apply to_lu_small, Hlt.
  - pose proof (Nat.div_mod_eq n 10) as Hdm.
    assert (Hq : (n / 10 <> 0)%nat).
    { intros H0. apply Nat.div_small_iff in H0; lia. }
    assert (Hr : (n mod 10 < 10)%nat) by (apply Nat.mod_upper_bound; lia).
    assert (Hle : (n / 10 <= fuel)%nat).
    { assert (n / 10 < n)%nat by (apply Nat.div_lt; lia). lia. }
    replace n with (n mod 10 + 10 * (n / 10))%nat at 1 by lia.
    rewrite to_lu_step by assumption. f_equal. apply IH; lia.
Qed.

Lemma uint_digits_to_uint (n : nat) :
  uint_digits (Nat.to_uint n) = List.rev (decimal_digits_from (S n) n).
Proof.
  rewrite DecimalNat.Unsigned.to_uint_alt. unfold Decimal.rev.
  rewrite uint_digits_revapp, app_nil_r. f_equal. apply to_lu_digits; lia.
Qed.

Lemma pos_to_lu_nat (n : nat) :
  DecimalPos.Unsigned.to_lu (N.of_nat n) = DecimalNat.Unsigned.to_lu n.
Proof.
  induction n as [|n IH]; [reflexivity|].
  rewrite Nat2N.inj_succ, DecimalPos.Unsigned.to_lu_succ, IH. reflexivity.
Qed.

(** [str] of a number that is not negative is the numeral of that number. *)
Lemma str_of_nat (n : nat) : Py.str (Z.of_nat n) = Py.str_nat n.
Proof.
  destruct n as [|n]; [reflexivity|].
  unfold Py.str, Py.str_nat.
  cbn [Z.of_nat Z.to_int NilZero.string_of_int]. f_equal.
  rewrite DecimalNat.Unsigned.to_uint_alt, <- pos_to_lu_nat. reflexivity.
Qed.

Lemma pins_of_numeral (u : Decimal.uint) :
  map pin_of (chars (NilEmpty.string_of_uint u)) = uint_digits u.
Proof.
  induction u; cbn [NilEmpty.string_of_uint chars map uint_digits];
    [reflexivity | rewrite IHu; reflexivity ..].
Qed.

Lemma pins_of_str_nat (n : nat) :
  map pin_of (chars (Py.str_nat n)) = List.rev (decimal_digits_from (S n) n).
Proof.
  rewrite <- uint_digits_to_uint. unfold Py.str_nat, NilZero.string_of_uint.
  destruct (Nat.to_uint n) eqn:E; try apply (pins_of_numeral (_ _)).
  pose proof (uint_digits_to_uint n) as H. rewrite E in H.
  cbn [decimal_digits_from List.rev uint_digits] in H.
  symmetry in H. apply app_eq_nil in H. destruct H as [_ H]. discriminate.
Qed.

Lemma length_chars (s : string) : List.length (chars s) = String.length s.
Proof. induction s as [|c s IH]; cbn; auto. Qed.

Lemma zfill_2_digits (s : string) :
  string_forall is_digit s = true -> s <> "" ->
  Py.zfill 2 s = (if (String.length s <? 2)%nat then "0" else "") +s+ s.
Proof.
  intros H Hne. destruct s as [|c s]; [contradiction|].
  unfold Py.zfill. cbn in H. apply andb_prop in H. destruct H as [Hc _].
  destruct (digit_facts c Hc) as (_ & _ & _ & Hsign). rewrite Hsign.
  cbn [String.length]. destruct s as [|c' s]; reflexivity.
Qed.

Lemma chars_append (a b : string) : chars (a +s+ b) = chars a ++ chars b.
Proof. induction a as [|c a IH]; cbn; [reflexivity|]. rewrite IH. reflexivity. Qed.

(** The pulses of [str(n).zfill(2)], character by character, are those of
    digitEntry(n, 2). *)
Lemma digitEntry_digits_zfill (n : nat) :
  map pin_of (chars (Py.zfill 2 (Py.str_nat n))) = digitEntry_digits n.
Proof.
  destruct (digits_str_nat n) as [Hd Hne].
  rewrite (zfill_2_digits _ Hd Hne), chars_append, map_app, pins_of_str_nat.
  rewrite <- length_chars, <- (length_map pin_of), pins_of_str_nat, length_rev.
  unfold digitEntry_digits. cbn [decimal_digits_from].
  destruct (Nat.ltb_spec n 10) as [Hlt|Hge].
  - cbn [List.length Nat.ltb Nat.leb chars map List.rev List.app].
    rewrite Nat.mod_small by exact Hlt. reflexivity.
  - destruct n as [|n]; [lia|]. cbn [decimal_digits_from List.length].
    cbn [Nat.ltb Nat.leb chars map List.app]. reflexivity.
Qed.

Lemma digit_entry_words_pulses (s : Z) (text : string) :
  digit_entry_words s text = digit_pulses s (map pin_of (chars text)).
Proof.
  unfold digit_entry_words, digit_pulses.
  induction (chars text) as [|k ks IH]; [reflexivity|].
  cbn [flat_map map]. rewrite IH. reflexivity.
Qed.

Lemma digit_entry_channel (s : Z) (n : nat) :
  digit_entry_words s (Py.zfill 2 (Py.str_nat n)) = digit_pulses s (digitEntry_digits n).
Proof. rewrite digit_entry_words_pulses, digitEntry_digits_zfill. reflexivity. Qed.

Lemma digit_entry_level (s : Z) (v : nat) :
  digit_entry_words s (Py.zfill 2 (Py.format_02d (Z.of_nat v)))
  = digit_pulses s (digitEntry_digits v).
Proof.
  unfold Py.format_02d. rewrite str_of_nat.
  destruct (digits_str_nat v) as [Hd Hne].
  assert (Hidem : Py.zfill 2 (Py.zfill 2 (Py.str_nat v)) = Py.zfill 2 (Py.str_nat v)).
  { rewrite (zfill_2_digits (Py.zfill 2 _)).
    - rewrite (zfill_2_digits _ Hd Hne).
      destruct (Py.str_nat v) as [|c [|c' rest]]; [contradiction | reflexivity ..].
    - apply digits_zfill, Hd.
    - rewrite (zfill_2_digits _ Hd Hne).
      destruct (Py.str_nat v) as [|c rest]; [contradiction|].
      destruct (String.length (String c rest) <? 2)%nat; discriminate. }
  rewrite Hidem. apply digit_entry_channel.
Qed.

Lemma digitEntry_digits_two (n : nat) :
  (n <= 99)%nat -> digitEntry_digits n = [Z.of_nat (n / 10); Z.of_nat (n mod 10)].
Proof.
  intros H. do 100 (destruct n as [|n]; [vm_compute; reflexivity|]). lia.
Qed.

Lemma digitEntry_digits_more (n : nat) :
  (100 <= n)%nat -> (3 <= List.length (digitEntry_digits n))%nat.
Proof.
  intros H. unfold digitEntry_digits.
  destruct (Nat.ltb_spec n 10) as [?|_]; [lia|]. rewrite length_rev.
  assert (H1 : (10 <= n / 10)%nat) by (apply Nat.div_le_lower_bound; lia).
  cbn [decimal_digits_from List.length].
  destruct (Nat.ltb_spec n 10) as [?|_]; [lia|].
  destruct n as [|n]; [lia|]. cbn [decimal_digits_from List.length].
  destruct (Nat.ltb_spec (S n / 10) 10) as [?|_]; [lia|].
  destruct n as [|n]; [cbn in H1; lia|]. cbn [decimal_digits_from List.length]. lia.
Qed.

(** *** C5: allocateToZone *)

Lemma emits_tail_sleep_wait (table : list Row) (s : Z) (d : Q) :
  emits table s s (sleep d ;; levels_sheet_page.wait_for_next_step) [] (fun _ => True).
Proof.
  eapply emits_weaken;
    [ eapply emits_bind; [apply emits_sleep | intros _ _; apply emits_wait_for_next_step]
    | reflexivity | reflexivity | auto ].
Qed.

Lemma emits_allocate_row (table : list Row) (s : Z) (target : string)
    (entry : nat * Row) :
  relays_off s ->
  emits table s s (levels_sheet_page.allocate_row target entry)
        (allocate_row_words s target entry) (fun _ => True).
Proof.
  intros Hoff. destruct entry as [idx row].
  unfold levels_sheet_page.allocate_row, allocate_row_words, allocation_digit.
  cbn [fst snd]. cbv zeta.
  pose proof (emits_digit_entry table s "Circuit Digit"
                (Py.zfill 2 (Py.str_nat idx))
                (sleep 0.5 ;; levels_sheet_page.wait_for_next_step)
                Hoff eq_refl (digits_zfill_str_nat idx)
                (emits_tail_sleep_wait table s 0.5)) as Hdigits.
  assert (Hact : emits table s s
            (relay_control._single_press_mode_thread "Circuit Act Digit"
               (if String.eqb (zone row) target then "1" else "0"))
            (pulses_words s [if String.eqb (zone row) target then 1 else 0])
            (fun _ => True)).
  { destruct (String.eqb (zone row) target);
      apply emits_single_press_bare; solve [reflexivity | exact Hoff]. }
  eapply emits_weaken.
  - emits_step.
  - reflexivity.
  - cbn [List.app]. rewrite !app_nil_r. reflexivity.
  - auto.
Qed.

Lemma emits_allocate (table : list Row) (s z : Z) :
  0 <= z <= 9 ->
  relays_off s ->
  emits table s s
        (levels_sheet_page.allocate_to_zones_sequence_execute_sequence (Py.str z))
        (allocate_words s z table) (fun _ => True).
Proof.
  intros Hz Hoff.
  pose proof (emits_exit_programming table s Hoff) as Hexit.
  pose proof (emits_programming_mode table s Hoff) as Hprog.
  assert (Hzone : forall cb,
            (cb = None \/ cb = Some levels_sheet_page.wait_for_next_step) ->
            emits table s s (relay_control.program_zone (Py.str z) cb)
                  (zone_words s z) (fun _ => True)).
  { intros cb Hcb.
    apply emits_program_zone; [exact Hoff | apply RELAY_PINS_str, Hz|].
    intros callback ->. destruct Hcb as [Hcb|Hcb]; [discriminate|].
    injection Hcb as ->. apply emits_wait_for_next_step. }
  assert (Hrows : emits table s s
            (for_each (enumerate_from 1 table)
                      (levels_sheet_page.allocate_row (Py.str z)))
            (flat_map (allocate_row_words s (Py.str z)) (enumerate_from 1 table))
            (fun _ => True)).
  { apply emits_for_each. intros entry _. apply emits_allocate_row, Hoff. }
  unfold levels_sheet_page.allocate_to_zones_sequence_execute_sequence.
  eapply emits_weaken.
  - eapply emits_bind; [emits_step|]. intros _ _.
    eapply emits_bind; [emits_step|]. intros _ _.
    eapply emits_bind; [emits_step|]. intros _ _.
    eapply emits_bind; [emits_step|]. intros _ _.
    eapply emits_bind; [emits_step|]. intros _ _.
    eapply emits_bind; [emits_step|]. intros debugging _.
    eapply emits_bind; [apply Hzone; destruct debugging; auto|]. intros _ _.
    emits_step.
  - reflexivity.
  - unfold allocate_words. cbn [List.app]. rewrite ?app_nil_r, <- ?app_assoc.
    reflexivity.
  - auto.
Qed.

Lemma relays_off_65535 : relays_off 65535.
Proof.
  intros i Hi.
  assert (i = 0 \/ i = 1 \/ i = 2 \/ i = 3 \/ i = 4 \/ i = 5 \/ i = 6 \/ i = 7
          \/ i = 8 \/ i = 9) as H by lia.
  repeat (destruct H as [->|H]; [reflexivity|]). subst i. reflexivity.
Qed.

Lemma emits_run {A : Type} (table : list Row) (s s' : Z) (m : M A) (ws : list Z)
    (post : A -> Prop) (w : World) :
  emits table s s' m ws post ->
  reliable (gpio w) -> hardware_ready w = true ->
  current_state w = s -> rows w = table ->
  (debug_mode w = false -> exists a, outcome (m w) = Ok a)
  /\ (forall a, outcome (m w) = Ok a ->
        writes (events (m w)) = ws /\ current_state (final (m w)) = s').
Proof.
  intros H Hg Hr Hs Ht.
  destruct (H w (mkInv s table w Hs Hg Hr Ht)) as (_ & Hd & Hok).
  split; [exact Hd|]. intros a Ha.
  destruct (Hok a Ha) as ([Hs' _ _ _] & Hw & _). auto.
Qed.

Lemma allocateToZone_rows_words (s : Z) (target : string) (table : list Row) :
  forall channel,
  flat_map (allocate_row_words s target) (enumerate_from channel table)
  = allocateToZone_rows s target channel table.
Proof.
  induction table as [|row rest IH]; intros channel; [reflexivity|].
  cbn [enumerate_from flat_map allocateToZone_rows].
  rewrite IH. unfold allocate_row_words, allocation_digit. cbn [fst snd].
  rewrite digit_entry_channel, <- app_assoc. reflexivity.
Qed.

(** C5, as the code has it. For every channel table and target zone
    digit, with all relays OFF at the start, the hardware ready and a
    device that accepts the writes, the allocation sequence returns
    (always when debug mode is off; in debug mode whenever the operator
    steps it to the end), and its hardware writes are then exactly:
    Exit-Programming-Mode, the zone gesture, Programming-Mode entry, then
    for every row of the table, in table order, one pulse per digit of
    the channel number zero-padded to two digits followed by one pulse of
    the allocation digit, 1 when the row's zone is the target zone and 0
    otherwise, and finally Exit-Programming-Mode. The padded channel
    number is exactly its two decimal digits up to channel 99; from
    channel 100 on it has three digits or more, all of which are sent. *)
Theorem C5_allocate_to_zone (z : Z) (w : World) :
  0 <= z <= 9 ->
  relays_off (current_state w) ->
  reliable (gpio w) ->
  hardware_ready w = true ->
  let s := current_state w in
  let target := Py.str z in
  let r := levels_sheet_page.allocate_to_zones_sequence_execute_sequence target w in
  events (levels_sheet_page.allocate_to_zones_sequence target w) = events r
  /\ (debug_mode w = false -> outcome r = Ok tt)
  /\ (outcome r = Ok tt ->
      writes (events r)
      = exit_words s ++ zone_words s z ++ prog_words s
        ++ allocateToZone_rows s target 1 (rows w)
        ++ exit_words s)
  /\ (forall channel, (channel <= 99)%nat ->
      digitEntry_digits channel
      = [Z.of_nat (channel / 10); Z.of_nat (channel mod 10)])
  /\ (forall channel, (100 <= channel)%nat ->
      (3 <= List.length (digitEntry_digits channel))%nat).
Proof.
  intros Hz Hoff Hg Hr s target r.
  destruct (emits_run _ _ _ _ _ _ w (emits_allocate (rows w) s z Hz Hoff)
                      Hg Hr eq_refl eq_refl) as (Hd & Hok).
  split; [reflexivity|]. split; [|split; [|split]].
  - intros Hoffd. destruct (Hd Hoffd) as ([] & Ha). exact Ha.
  - intros Ha. destruct (Hok tt Ha) as [Hw _]. unfold r, target. rewrite Hw.
    unfold allocate_words. rewrite allocateToZone_rows_words. reflexivity.
  - apply digitEntry_digits_two.
  - apply digitEntry_digits_more.
Qed.

Lemma C5_allocate_to_zone_witness :
  let row := fun z => mkRow z "" "" "Dimmed" [90; 70; 50; 30; 99; 99; 99; 99; 99; 0]%nat in
  let w := power_on (Ftdi None) [row "5"; row "1"; row "5"] in
  let r := levels_sheet_page.allocate_to_zones_sequence_execute_sequence "5" w in
  0 <= 5 <= 9 /\ relays_off (current_state w) /\ reliable (gpio w)
  /\ hardware_ready w = true
  /\ outcome r = Ok tt
  /\ writes (events r)
     = exit_words 65535 ++ zone_words 65535 5 ++ prog_words 65535
       ++ (digit_pulses 65535 [0; 1] ++ digit_pulses 65535 [1])
       ++ (digit_pulses 65535 [0; 2] ++ digit_pulses 65535 [0])
       ++ (digit_pulses 65535 [0; 3] ++ digit_pulses 65535 [1])
       ++ exit_words 65535.
Proof.
  intros row w r.
  split; [lia|]. split; [exact relays_off_65535|]. split; [exact I|].
  split; [reflexivity|].
  pose proof (C5_allocate_to_zone 5 w ltac:(lia) relays_off_65535 I eq_refl)
    as (_ & Hreturns & Hwrites & _).
  split; [exact (Hreturns eq_refl)|].
  etransitivity; [exact (Hwrites (Hreturns eq_refl)) | reflexivity].
Defined.

(** C5 as stated fails on a table of 100 rows: the allocation sequence
    returns, but channel 100 is sent as the three digits 1, 0, 0, so the
    digit pulses are 201 and not two per row. *)
Lemma C5_counterexample :
  let w := power_on (Ftdi None) (repeat default_row 100) in
  let r := levels_sheet_page.allocate_to_zones_sequence_execute_sequence "1" w in
  let digit_lines :=
    filter (String.prefix "Circuit Digit: R") (log_lines (events r)) in
  outcome r = Ok tt
  /\ List.length digit_lines <> (2 * (2 * 100))%nat
  /\ skipn 396 digit_lines
     = ["Circuit Digit: R1 ON"; "Circuit Digit: R1 OFF";
        "Circuit Digit: R0 ON"; "Circuit Digit: R0 OFF";
        "Circuit Digit: R0 ON"; "Circuit Digit: R0 OFF"].
Proof.
  intros w r digit_lines.
  assert (H : outcome r = Ok tt /\ digit_lines
              = firstn 396 digit_lines
                ++ ["Circuit Digit: R1 ON"; "Circuit Digit: R1 OFF";
                    "Circuit Digit: R0 ON"; "Circuit Digit: R0 OFF";
                    "Circuit Digit: R0 ON"; "Circuit Digit: R0 OFF"]
              /\ List.length digit_lines = 402%nat).
  { vm_compute. repeat split. }
  destruct H as (Ho & Hl & Hn).
  split; [exact Ho|]. split; [rewrite Hn; discriminate|].
  rewrite Hl at 1. rewrite skipn_app, skipn_all2 by (rewrite length_firstn; lia).
  rewrite length_firstn, Hn. reflexivity.
Qed.

(** The example of the specification: three rows with zones 5, 1, 5 and
    target zone 5 give the allocation digits 1, 0, 1 in row order, as the
    pulses logged for the allocation step show. *)
Example C5_example_allocation_digits :
  let row := fun z => mkRow z "" "" "Dimmed" [90; 70; 50; 30; 99; 99; 99; 99; 99; 0]%nat in
  let w := power_on (Ftdi None) [row "5"; row "1"; row "5"] in
  map (allocation_digit "5") (rows w) = [1; 0; 1]
  /\ filter (fun line => String.prefix "Circuit Act Digit: R" line
                         && String.eqb (String.substring 21 3 line) " ON")%bool
            (log_lines (events (levels_sheet_page.allocate_to_zones_sequence "5" w)))
     = ["Circuit Act Digit: R1 ON"; "Circuit Act Digit: R0 ON"; "Circuit Act Digit: R1 ON"].
Proof. intros row w. split; vm_compute; reflexivity. Qed.

(** *** C4: programSceneForZone *)

Lemma list_at_nat {A : Type} (xs : list A) (k : nat) (default : A) :
  (k < List.length xs)%nat ->
  Py.list_at xs (Z.of_nat k) = Some (nth k xs default).
Proof.
  intros Hk. unfold Py.list_at.
  destruct (Z.leb_spec 0 (Z.of_nat k)); [|lia].
  destruct (Z.ltb_spec (Z.of_nat k) (Z.of_nat (List.length xs))); [|lia].
  cbn [andb]. rewrite Nat2Z.id. apply nth_error_nth'. exact Hk.
Qed.

Lemma scene_index_run (d : Z) (w : World) :
  0 <= d <= 9 ->
  (if String.eqb (Py.str d) "0" then ret 9
   else n <- levels_sheet_page.int_of (Py.str d) ;; ret (n - 1)) w
  = mkRun (Ok (Z.of_nat (scene_index_of d))) w []
  /\ (scene_index_of d < 10)%nat.
Proof.
  intros Hd.
  assert (d = 0 \/ d = 1 \/ d = 2 \/ d = 3 \/ d = 4 \/ d = 5 \/ d = 6 \/ d = 7
          \/ d = 8 \/ d = 9) as H by lia.
  repeat (destruct H as [->|H]; [split; [reflexivity | cbn; lia]|]).
  subst d. split; [reflexivity | cbn; lia].
Qed.

Lemma bind_pure {A B : Type} (m : M A) (k : A -> M B) (a : A) (w : World) :
  m w = mkRun (Ok a) w [] -> bind m k w = k a w.
Proof. intros H. unfold bind. rewrite H. cbn. destruct (k a w); reflexivity. Qed.

Lemma collect_channels_run (d : Z) (target : string) (xs : list (nat * Row)) :
  0 <= d <= 9 ->
  Forall (fun entry => List.length (scenes (snd entry)) = 10%nat) xs ->
  forall acc w,
  levels_sheet_page.collect_channels (Py.str d) target xs acc w
  = mkRun (Ok (acc ++ map (fun entry => (fst entry, level_for d (snd entry)))
                          (filter (fun entry => String.eqb (zone (snd entry)) target) xs)))
          w [].
Proof.
  intros Hd Hall. induction Hall as [|[idx row] rest Hlen _ IH]; intros acc w.
  - cbn. rewrite app_nil_r. reflexivity.
  - cbn [levels_sheet_page.collect_channels filter snd fst].
    destruct (String.eqb (zone row) target).
    + destruct (scene_index_run d w Hd) as [Hidx Hlt].
      rewrite (bind_pure _ _ _ _ Hidx).
      unfold levels_sheet_page.scene_value. cbn [snd] in Hlen.
      rewrite (list_at_nat (scenes row) (scene_index_of d) 0%nat) by lia.
      rewrite (bind_pure (ret _) _ _ w eq_refl), IH.
      cbn [map fst snd]. rewrite <- app_assoc. reflexivity.
    + apply IH.
Qed.

Lemma emits_pure {A : Type} (table : list Row) (s : Z) (m : M A) (a : A) :
  (forall w, m w = mkRun (Ok a) w []) ->
  emits table s s m [] (fun x => x = a).
Proof.
  intros H w Hinv. rewrite H. cbn. split; [discriminate|]. split; [eauto|].
  intros a' [= <-]. auto.
Qed.

Lemma emits_program_channel (table : list Row) (s : Z) (scene_digit target : string)
    (idx : nat) (level_value : string) :
  relays_off s ->
  string_forall is_digit level_value = true ->
  emits table s s
        (levels_sheet_page.program_channel scene_digit target (idx, level_value))
        (double_words s 2 6
         ++ digit_entry_words s (Py.zfill 2 (Py.str_nat idx))
         ++ double_words s 3 7
         ++ digit_entry_words s (Py.zfill 2 level_value))
        (fun _ => True).
Proof.
  intros Hoff Hlevel.
  pose proof (emits_digit_entry table s "Circuit Digit"
                (Py.zfill 2 (Py.str_nat idx))
                (sleep 0.5 ;; levels_sheet_page.wait_for_next_step)
                Hoff eq_refl (digits_zfill_str_nat idx)
                (emits_tail_sleep_wait table s 0.5)) as Hch.
  pose proof (emits_digit_entry table s "Level Digit"
                (Py.zfill 2 level_value)
                (sleep 0.5 ;; levels_sheet_page.wait_for_next_step)
                Hoff eq_refl (digits_zfill 2 _ Hlevel)
                (emits_tail_sleep_wait table s 0.5)) as Hlv.
  pose proof (emits_double_press table s "Quick Circuit" "2" "6" 2 6
                eq_refl eq_refl Hoff) as H26.
  pose proof (emits_double_press table s "Quick Level" "3" "7" 3 7
                eq_refl eq_refl Hoff) as H37.
  unfold levels_sheet_page.program_channel. cbv zeta.
  eapply emits_weaken.
  - emits_step.
  - reflexivity.
  - cbn [List.app]. rewrite ?app_nil_r, <- ?app_assoc. reflexivity.
  - auto.
Qed.

Lemma flat_map_map {A B C : Type} (f : B -> list C) (g : A -> B) (l : list A) :
  flat_map f (map g l) = flat_map (fun x => f (g x)) l.
Proof. induction l as [|x l IH]; cbn; [reflexivity|]. rewrite IH. reflexivity. Qed.

Lemma enumerate_Forall {A : Type} (P : A -> Prop) (l : list A) :
  Forall P l -> forall start, Forall (fun entry => P (snd entry)) (enumerate_from start l).
Proof.
  induction 1 as [|x rest Hx _ IH]; intros start; cbn [enumerate_from];
    constructor; auto.
Qed.

Lemma emits_program_scene (table : list Row) (s d z : Z) :
  0 <= d <= 9 -> 0 <= z <= 9 ->
  relays_off s ->
  Forall (fun row => List.length (scenes row) = 10%nat) table ->
  emits table s s
        (levels_sheet_page.program_scene_levels_sequence (Py.str d) (Py.str z))
        (program_scene_words s d z table) (fun _ => True).
Proof.
  intros Hd Hz Hoff Hlen.
  pose proof (emits_exit_programming table s Hoff) as Hexit.
  pose proof (emits_programming_mode table s Hoff) as Hprog.
  pose proof (emits_double_press table s "Quick Scene" "1" "5" 1 5
                eq_refl eq_refl Hoff) as H15.
  pose proof (emits_single_press_bare table s "Scene digit" (Py.str d) d
                eq_refl (RELAY_PINS_str d Hd) Hoff) as Hscene.
  assert (Hzone : forall cb,
            (cb = None \/ cb = Some levels_sheet_page.wait_for_next_step) ->
            emits table s s (relay_control.program_zone (Py.str z) cb)
                  (zone_words s z) (fun _ => True)).
  { intros cb Hcb.
    apply emits_program_zone; [exact Hoff | apply RELAY_PINS_str, Hz|].
    intros callback ->. destruct Hcb as [Hcb|Hcb]; [discriminate|].
    injection Hcb as ->. apply emits_wait_for_next_step. }
  assert (Hentries : Forall (fun entry => List.length (scenes (snd entry)) = 10%nat)
                            (enumerate_from 1 table)).
  { apply (enumerate_Forall (fun row => List.length (scenes row) = 10%nat)), Hlen. }
  pose proof (emits_pure table s _ _
                (collect_channels_run d (Py.str z) (enumerate_from 1 table) Hd Hentries []))
    as Hcollect.
  assert (Hloop : emits table s s
            (for_each (map (fun entry => (fst entry, level_for d (snd entry)))
                           (zone_rows (Py.str z) table))
                      (levels_sheet_page.program_channel (Py.str d) (Py.str z)))
            (flat_map (channel_words s d) (zone_rows (Py.str z) table))
            (fun _ => True)).
  { eapply emits_weaken.
    - apply (emits_for_each table s _ _
               (fun entry : nat * string =>
                  double_words s 2 6
                  ++ digit_entry_words s (Py.zfill 2 (Py.str_nat (fst entry)))
                  ++ double_words s 3 7
                  ++ digit_entry_words s (Py.zfill 2 (snd entry)))).
      intros [idx level_value] Hin. apply in_map_iff in Hin.
      destruct Hin as ([idx' row] & [= <- <-] & _).
      apply emits_program_channel; [exact Hoff | apply digits_format_02d].
    - reflexivity.
    - rewrite flat_map_map. reflexivity.
    - auto. }
  unfold levels_sheet_page.program_scene_levels_sequence.
  eapply emits_weaken.
  - do 5 (eapply emits_bind; [emits_step|]; intros _ _).
    eapply emits_bind; [emits_step|]. intros debugging _.
    eapply emits_bind; [apply Hzone; destruct debugging; auto|]. intros _ _.
    do 7 (eapply emits_bind; [emits_step|]; intros _ _).
    eapply emits_bind; [emits_step|]. intros t Ht. cbv beta in Ht. subst t.
    eapply emits_bind; [exact Hcollect|]. intros ch Hch. cbv beta in Hch. subst ch.
    cbn [List.app]. fold (zone_rows (Py.str z) table).
    emits_step.
  - reflexivity.
  - unfold program_scene_words. cbn [List.app].
    rewrite ?app_nil_r, <- ?app_assoc. reflexivity.
  - auto.
Qed.

Lemma programSceneForZone_rows_words (s d : Z) (target : string) (table : list Row) :
  forall channel,
  flat_map (channel_words s d)
           (filter (fun entry => String.eqb (zone (snd entry)) target)
                   (enumerate_from channel table))
  = programSceneForZone_rows s (scene_index_of d) target channel table.
Proof.
  induction table as [|row rest IH]; intros channel; [reflexivity|].
  cbn [enumerate_from filter snd programSceneForZone_rows].
  destruct (String.eqb (zone row) target).
  - cbn [flat_map]. rewrite IH. unfold channel_words, level_for. cbn [fst snd].
    rewrite digit_entry_channel, digit_entry_level, <- !app_assoc. reflexivity.
  - rewrite IH. reflexivity.
Qed.

(** C4. For every channel table (each row with its ten spin boxes), scene
    digit and target zone digit, with all relays OFF at the start, the
    hardware ready and a device that accepts the writes, the programming
    sequence returns (always when debug mode is off; in debug mode
    whenever the operator steps it to the end), and its hardware writes
    are then exactly: Exit-Programming-Mode, the zone gesture,
    Programming-Mode entry, the Quick-Scene double press and the scene
    digit, then for every row whose zone equals the target zone, in table
    order, the Quick-Circuit double press, one pulse per digit of the
    row's channel number (its position in the table, counted from 1), the
    Quick-Level double press and one pulse per digit of the level, and
    finally Exit-Programming-Mode. The level is the value of the row's
    scene column of index 9 for scene digit 0 and digit-1 for scene digits
    1..9; channel number and level are sent zero-padded to two digits.
    Rows of another zone contribute no write at all. *)
Theorem C4_program_scene_for_zone (d z : Z) (w : World) :
  0 <= d <= 9 -> 0 <= z <= 9 ->
  relays_off (current_state w) ->
  reliable (gpio w) ->
  hardware_ready w = true ->
  Forall (fun row => List.length (scenes row) = 10%nat) (rows w) ->
  let s := current_state w in
  let target := Py.str z in
  let scene_index := if d =? 0 then 9%nat else Z.to_nat (d - 1) in
  let r := levels_sheet_page.program_scene_levels_sequence (Py.str d) target w in
  (debug_mode w = false -> outcome r = Ok tt)
  /\ (outcome r = Ok tt ->
      writes (events r)
      = exit_words s ++ zone_words s z ++ prog_words s
        ++ double_words s 1 5 ++ pulses_words s [d]
        ++ programSceneForZone_rows s scene_index target 1 (rows w)
        ++ exit_words s).
Proof.
  intros Hd Hz Hoff Hg Hr Hlen s target scene_index r.
  destruct (emits_run _ _ _ _ _ _ w (emits_program_scene (rows w) s d z Hd Hz Hoff Hlen)
                      Hg Hr eq_refl eq_refl) as (Hdone & Hok).
  split.
  - intros Hoffd. destruct (Hdone Hoffd) as ([] & Ha). exact Ha.
  - intros Ha. destruct (Hok tt Ha) as [Hw _]. unfold r, target. rewrite Hw.
    unfold program_scene_words, zone_rows.
    rewrite programSceneForZone_rows_words. reflexivity.
Qed.

Lemma C4_program_scene_for_zone_witness :
  let row := fun z => mkRow z "" "" "Dimmed" [90; 70; 50; 30; 99; 99; 99; 99; 99; 0]%nat in
  let w := power_on (Ftdi None) [row "2"; row "3"; row "2"] in
  let r := levels_sheet_page.program_scene_levels_sequence "1" "2" w in
  0 <= 1 <= 9 /\ 0 <= 2 <= 9 /\ relays_off (current_state w) /\ reliable (gpio w)
  /\ hardware_ready w = true
  /\ Forall (fun row => List.length (scenes row) = 10%nat) (rows w)
  /\ outcome r = Ok tt
  /\ writes (events r)
     = exit_words 65535 ++ zone_words 65535 2 ++ prog_words 65535
       ++ double_words 65535 1 5 ++ pulses_words 65535 [1]
       ++ (double_words 65535 2 6 ++ digit_pulses 65535 [0; 1]
           ++ double_words 65535 3 7 ++ digit_pulses 65535 [9; 0])
       ++ (double_words 65535 2 6 ++ digit_pulses 65535 [0; 3]
           ++ double_words 65535 3 7 ++ digit_pulses 65535 [9; 0])
       ++ exit_words 65535.
Proof.
  intros row w r.
  assert (Hrows : Forall (fun row => List.length (scenes row) = 10%nat) (rows w))
    by (repeat (constructor; [reflexivity|]); constructor).
  split; [lia|]. split; [lia|]. split; [exact relays_off_65535|]. split; [exact I|].
  split; [reflexivity|]. split; [exact Hrows|].
  pose proof (C4_program_scene_for_zone 1 2 w ltac:(lia) ltac:(lia)
                relays_off_65535 I eq_refl Hrows) as (Hreturns & Hwrites).
  split; [exact (Hreturns eq_refl)|].
  etransitivity; [exact (Hwrites (Hreturns eq_refl)) | reflexivity].
Defined.

(** The example of the specification: rows with zones 2, 3, 2 and target
    zone 2: exactly channels 1 and 3 are programmed (here for scene 1,
    whose level is 90), and channel 2 is skipped. *)
Example C4_example_zone_rows :
  let row := fun z => mkRow z "" "" "Dimmed" [90; 70; 50; 30; 99; 99; 99; 99; 99; 0]%nat in
  let w := power_on (Ftdi None) [row "2"; row "3"; row "2"] in
  map fst (zone_rows "2" (rows w)) = [1; 3]%nat
  /\ filter (String.prefix "=== Programming channel")
            (log_lines (events (levels_sheet_page.program_scene_levels_sequence "1" "2" w)))
     = ["=== Programming channel 1 with level 90 for scene 1 (zone 2) ===";
        "=== Programming channel 3 with level 90 for scene 1 (zone 2) ==="]
  /\ filter (String.prefix "Circuit Digit: R")
            (log_lines (events (levels_sheet_page.program_scene_levels_sequence "1" "2" w)))
     = ["Circuit Digit: R0 ON"; "Circuit Digit: R0 OFF";
        "Circuit Digit: R1 ON"; "Circuit Digit: R1 OFF";
        "Circuit Digit: R0 ON"; "Circuit Digit: R0 OFF";
        "Circuit Digit: R3 ON"; "Circuit Digit: R3 OFF"].
Proof. intros row w. repeat split; vm_compute; reflexivity. Qed.

(** ** C9: how the composite operations end *)

Section Keeps.

Variable c : Control.

Lemma keeps_ret {A : Type} (a : A) : keeps c (ret a).
Proof. intros w. reflexivity. Qed.

Lemma keeps_raise {A : Type} (e : Exn) : keeps c (@raise A e).
Proof. intros w. reflexivity. Qed.

Lemma keeps_emit (e : Event) : keeps c (emit e).
Proof. intros w. reflexivity. Qed.

Lemma keeps_gets {A : Type} (f : World -> A) : keeps c (gets f).
Proof. intros w. reflexivity. Qed.

Lemma keeps_modify (f : World -> World) :
  (forall w, enabled (f w) c = enabled w c) -> keeps c (modify f).
Proof. intros H w. apply H. Qed.

Lemma keeps_bind {A B : Type} (m : M A) (k : A -> M B) :
  keeps c m -> (forall a, keeps c (k a)) -> keeps c (bind m k).
Proof.
  intros Hm Hk w. unfold bind.
  destruct (outcome (m w)) as [a| |] eqn:Ho; cbn [final]; [|apply Hm ..].
  rewrite Hk. apply Hm.
Qed.

Lemma keeps_for_each {A : Type} (xs : list A) (body : A -> M unit) :
  (forall x, keeps c (body x)) -> keeps c (for_each xs body).
Proof.
  intros H. induction xs as [|x rest IH]; cbn [for_each].
  - apply keeps_ret.
  - apply keeps_bind; [apply H | intros _; exact IH].
Qed.

Lemma keeps_lock {A : Type} (body : M A) : keeps c body -> keeps c (with_state_lock body).
Proof.
  intros H w. unfold with_state_lock.
  destruct (outcome (body w)); cbn [final]; apply H.
Qed.

Lemma keeps_spawn (body : M unit) : keeps c body -> keeps c (spawn body).
Proof. intros H w. apply H. Qed.

Lemma keeps_sleep (d : Q) : keeps c (sleep d).
Proof. apply keeps_emit. Qed.

Lemma keeps_global_log (line : string) : keeps c (global_log line).
Proof. apply keeps_emit. Qed.

Lemma keeps_sim_log (message : string) : keeps c (relay_control.sim_log message).
Proof.
  unfold relay_control.sim_log. apply keeps_bind; [apply keeps_gets|].
  intros []; apply keeps_global_log.
Qed.

Lemma keeps_gpio_write (word : Z) : keeps c (relay_control.gpio_write word).
Proof.
  intros w. unfold relay_control.gpio_write.
  destruct (gpio w) as [cur|[[|n]|]]; reflexivity.
Qed.

Lemma keeps_RELAY_PINS_at (key : string) : keeps c (relay_control.RELAY_PINS_at key).
Proof.
  unfold relay_control.RELAY_PINS_at.
  destruct (Py.dict_get relay_control.RELAY_PINS key);
    [apply keeps_ret | apply keeps_raise].
Qed.

Lemma keeps_state_and_not (mask : Z) : keeps c (relay_control.state_and_not mask).
Proof. apply keeps_modify. reflexivity. Qed.

Lemma keeps_state_or (mask : Z) : keeps c (relay_control.state_or mask).
Proof. apply keeps_modify. reflexivity. Qed.

Lemma keeps_write_state : keeps c relay_control.write_state.
Proof.
  unfold relay_control.write_state.
  apply keeps_bind; [apply keeps_gets | intros; apply keeps_gpio_write].
Qed.

Lemma keeps_setEnabled_other (c' : Control) (on : bool) :
  Control_eqb c c' = false -> keeps c (setEnabled c' on).
Proof.
  intros H w. unfold setEnabled, bind, modify, emit. cbn. rewrite H. reflexivity.
Qed.

End Keeps.

Create HintDb keeps.

#[local] Hint Resolve keeps_ret keeps_raise keeps_emit keeps_gets keeps_sleep
  keeps_global_log keeps_sim_log keeps_gpio_write keeps_RELAY_PINS_at
  keeps_state_and_not keeps_state_or keeps_write_state : keeps.

(** Go through the binds, loops and locks of an operation. *)
Ltac keeps_tac :=
  repeat first
    [ solve [eauto with keeps]
    | lazymatch goal with
      | |- keeps _ (bind _ _) => apply keeps_bind; [|intros ?]
      | |- keeps _ (for_each _ _) => apply keeps_for_each; intros ?
      | |- keeps _ (with_state_lock _) => apply keeps_lock
      | |- keeps _ (spawn _) => apply keeps_spawn
      | |- keeps _ (if ?b then _ else _) => destruct b
      | |- keeps _ (match ?o with Some _ => _ | None => _ end) => destruct o
      end ].

Lemma keeps_guard_on (c : Control) : keeps c relay_control.guard_on.
Proof. unfold relay_control.guard_on, relay_control.guard_mask. keeps_tac. Qed.

Lemma keeps_guard_off (c : Control) : keeps c relay_control.guard_off.
Proof. unfold relay_control.guard_off, relay_control.guard_mask. keeps_tac. Qed.

Lemma keeps_press (c : Control) (mode_name relay : string) (hold : M Q) :
  keeps c hold -> keeps c (relay_control.press mode_name relay hold).
Proof. intros H. unfold relay_control.press. keeps_tac. Qed.

#[local] Hint Resolve keeps_guard_on keeps_guard_off : keeps.
#[local] Hint Extern 1 (keeps _ (relay_control.press _ _ _)) =>
  apply keeps_press; unfold relay_control.configured; auto with keeps : keeps.

Lemma keeps_programming_mode_thread (c : Control) :
  keeps c relay_control._programming_mode_thread.
Proof. unfold relay_control._programming_mode_thread. keeps_tac. Qed.

Lemma keeps_single_press (c : Control) (mode_name relay_key : string) :
  keeps c (relay_control._single_press_mode_thread mode_name relay_key).
Proof. unfold relay_control._single_press_mode_thread. keeps_tac. Qed.

Lemma keeps_double_press (c : Control) (mode_name k1 k2 : string) :
  keeps c (relay_control._double_press_mode_thread mode_name k1 k2).
Proof.
  unfold relay_control._double_press_mode_thread, relay_control.configured. keeps_tac.
Qed.

#[local] Hint Resolve keeps_programming_mode_thread keeps_single_press
  keeps_double_press : keeps.

Lemma keeps_program_zone (c : Control) (target : string) (cb : option (M unit)) :
  (forall callback, cb = Some callback -> keeps c callback) ->
  keeps c (relay_control.program_zone target cb).
Proof.
  intros Hcb.
  assert (Hwait : keeps c match cb with Some callback => callback | None => ret tt end).
  { destruct cb; [apply Hcb; reflexivity | apply keeps_ret]. }
  unfold relay_control.program_zone, relay_control._show_error_slot. keeps_tac.
Qed.

(** *** The checkpoint leaves the other buttons alone *)

Lemma keeps_ui_handler (c : Control) (a : UiAction) :
  Control_eqb c next_step_button = false ->
  keeps c (levels_sheet_page.ui_handler a).
Proof.
  intros Hc. pose proof (keeps_setEnabled_other c next_step_button) as Hset.
  destruct a; unfold levels_sheet_page.ui_handler, levels_sheet_page.on_next_step,
    levels_sheet_page.toggle_debug_mode, levels_sheet_page.step_ready_set.
  - keeps_tac. apply keeps_modify. reflexivity.
  - keeps_tac; try (apply keeps_modify; reflexivity); apply Hset, Hc.
Qed.

Lemma keeps_step_ready_wait_from (c : Control) (pending : list UiAction) :
  Control_eqb c next_step_button = false ->
  keeps c (levels_sheet_page.step_ready_wait_from pending).
Proof.
  intros Hc. induction pending as [|a rest IH]; intros w;
    cbn [levels_sheet_page.step_ready_wait_from].
  - destruct (step_ready w); reflexivity.
  - destruct (step_ready w); [reflexivity|].
    apply (keeps_bind c _ _ (keeps_ui_handler c a Hc) (fun _ => IH)).
Qed.

Lemma keeps_wait_for_next_step (c : Control) :
  Control_eqb c next_step_button = false ->
  keeps c levels_sheet_page.wait_for_next_step.
Proof.
  intros Hc w. unfold levels_sheet_page.wait_for_next_step.
  destruct (debug_mode w); [|reflexivity].
  revert w. change (keeps c (global_log "Waiting for Next Step button..." ;;
                             levels_sheet_page.step_ready_clear ;;
                             levels_sheet_page.step_ready_wait)).
  unfold levels_sheet_page.step_ready_clear, levels_sheet_page.step_ready_wait.
  keeps_tac.
  - apply keeps_modify. reflexivity.
  - apply keeps_step_ready_wait_from, Hc.
Qed.

Lemma keeps_collect_channels (c : Control) (scene_digit target : string)
    (xs : list (nat * Row)) :
  forall acc, keeps c (levels_sheet_page.collect_channels scene_digit target xs acc).
Proof.
  induction xs as [|[idx row] rest IH]; intros acc;
    cbn [levels_sheet_page.collect_channels].
  - apply keeps_ret.
  - unfold levels_sheet_page.int_of, levels_sheet_page.scene_value.
    destruct (String.eqb (zone row) target); [|apply IH].
    apply keeps_bind.
    + destruct (String.eqb scene_digit "0"); [apply keeps_ret|].
      destruct (Py.int scene_digit); keeps_tac.
    + intros scene_index. apply keeps_bind; [|intros v; apply IH].
      destruct (Py.list_at (scenes row) scene_index); keeps_tac.
Qed.

Section Checkpointed.

Variable c : Control.
Hypothesis c_other : Control_eqb c next_step_button = false.

Lemma keeps_program_channel (scene_digit target : string) (entry : nat * string) :
  keeps c (levels_sheet_page.program_channel scene_digit target entry).
Proof.
  pose proof (keeps_wait_for_next_step c c_other) as Hwait.
  destruct entry as [idx level_value].
  unfold levels_sheet_page.program_channel. cbv zeta. keeps_tac.
Qed.

Lemma keeps_allocate_row (target : string) (entry : nat * Row) :
  keeps c (levels_sheet_page.allocate_row target entry).
Proof.
  pose proof (keeps_wait_for_next_step c c_other) as Hwait.
  destruct entry as [idx row].
  unfold levels_sheet_page.allocate_row. cbv zeta. keeps_tac.
Qed.

Lemma keeps_program_zone_checkpointed (target : string) (debugging : bool) :
  keeps c (relay_control.program_zone target
             (if debugging then Some levels_sheet_page.wait_for_next_step else None)).
Proof.
  apply keeps_program_zone. intros callback H.
  destruct debugging; [|discriminate]. injection H as <-.
  apply keeps_wait_for_next_step, c_other.
Qed.

End Checkpointed.

(** *** Ending well *)

Lemma Control_eqb_refl (c : Control) : Control_eqb c c = true.
Proof.
  destruct c; cbn; auto. rewrite Nat.eqb_refl, String.eqb_refl. reflexivity.
Qed.

Lemma finishes_bind (c : Control) (terminal : string -> Prop) {A B : Type}
    (m : M A) (k : A -> M B) :
  keeps c m -> (forall a, finishes c terminal (k a)) ->
  finishes c terminal (bind m k).
Proof.
  intros Hm Hk w. unfold bind.
  destruct (outcome (m w)) as [a|e|] eqn:Ho; cbn [outcome final events].
  - destruct (Hk a (final (m w))) as [Hok Hfail]. split.
    + intros b Hb. destruct (Hok b Hb) as (Hen & pre & line & Hev & Hline).
      split; [exact Hen|]. exists (events (m w) ++ pre), line.
      rewrite Hev, app_assoc. auto.
    + intros Hnot. rewrite (Hfail Hnot). apply Hm.
  - split; [discriminate | intros _; apply Hm].
  - split; [discriminate | intros _; apply Hm].
Qed.

Lemma finishes_last (c : Control) (terminal : string -> Prop) (line : string) :
  terminal line ->
  finishes c terminal (global_log line ;; setEnabled c true).
Proof.
  intros Hline w. cbn. rewrite Control_eqb_refl. split.
  - intros _ _. split; [reflexivity|]. exists [], line. auto.
  - intros H. exfalso. apply (H tt). reflexivity.
Qed.

Lemma finishes_last_sim (c : Control) (message : string) :
  finishes c (sim_line message) (relay_control.sim_log message ;; setEnabled c true).
Proof.
  intros w. unfold relay_control.sim_log, bind, gets. cbn.
  destruct (relay_control.SIMULATION_MODE w); cbn; rewrite Control_eqb_refl; split;
    try (intros H; exfalso; apply (H tt); reflexivity);
    intros _ _; (split; [reflexivity|]); eexists [], _; (split; [reflexivity|]).
  - right. reflexivity.
  - left. reflexivity.
Qed.

(** Peel the steps of a sequence down to its last two. *)
Ltac finishes_tac :=
  repeat first
    [ apply finishes_last; reflexivity
    | apply finishes_last_sim
    | apply finishes_bind; [solve [keeps_tac] | intros ?] ].

Lemma finishes_program_scene (scene_digit target : string) :
  finishes program_button (eq "=== Programming sequence complete ===")
           (levels_sheet_page.program_scene_levels_sequence scene_digit target).
Proof.
  pose proof (keeps_wait_for_next_step program_button eq_refl) as Hwait.
  pose proof (keeps_program_zone_checkpointed program_button eq_refl target) as Hzone.
  pose proof (keeps_collect_channels program_button scene_digit target) as Hcollect.
  pose proof (keeps_program_channel program_button eq_refl scene_digit target) as Hch.
  unfold levels_sheet_page.program_scene_levels_sequence. finishes_tac.
Qed.

Lemma finishes_allocate (target : string) :
  finishes allocate_button (eq "=== Allocation sequence complete ===")
           (levels_sheet_page.allocate_to_zones_sequence_execute_sequence target).
Proof.
  pose proof (keeps_wait_for_next_step allocate_button eq_refl) as Hwait.
  pose proof (keeps_program_zone_checkpointed allocate_button eq_refl target) as Hzone.
  pose proof (keeps_allocate_row allocate_button eq_refl target) as Hrow.
  unfold levels_sheet_page.allocate_to_zones_sequence_execute_sequence. finishes_tac.
Qed.

Lemma finishes_play (button : Control) (channel : nat) (scene_digit level_value : string) :
  finishes button
    (sim_line ("=== COMPLETE: Play done for channel " +s+ Py.str_nat channel
               +s+ ", scene " +s+ scene_digit +s+ " with level " +s+ level_value
               +s+ " ==="))
    (relay_control._play_scene_level_sequence_execute_sequence
       channel scene_digit level_value (Some (setEnabled button true))).
Proof.
  unfold relay_control._play_scene_level_sequence_execute_sequence. cbv zeta.
  finishes_tac.
Qed.

(** *** The play sequence runs to its end *)

Lemma emits_play (table : list Row) (s d : Z) (channel : nat) (level_value : string)
    (button : Control) :
  0 <= d <= 9 ->
  relays_off s ->
  string_forall is_digit level_value = true ->
  emits table s s
        (relay_control._play_scene_level_sequence_execute_sequence
           channel (Py.str d) level_value (Some (setEnabled button true)))
        (play_words s d channel level_value) (fun _ => True).
Proof.
  intros Hd Hoff Hlevel.
  pose proof (emits_exit_programming table s Hoff) as Hexit.
  pose proof (emits_programming_mode table s Hoff) as Hprog.
  pose proof (emits_double_press table s "Quick Scene" "1" "5" 1 5
                eq_refl eq_refl Hoff) as H15.
  pose proof (emits_double_press table s "Quick Circuit" "2" "6" 2 6
                eq_refl eq_refl Hoff) as H26.
  pose proof (emits_double_press table s "Quick Level" "3" "7" 3 7
                eq_refl eq_refl Hoff) as H37.
  pose proof (emits_single_press_bare table s "Quick Scene Digit" (Py.str d) d
                eq_refl (RELAY_PINS_str d Hd) Hoff) as Hscene.
  pose proof (emits_digit_entry table s "Circuit Digit"
                (Py.zfill 2 (Py.str_nat channel)) (sleep 1.0)
                Hoff eq_refl (digits_zfill_str_nat channel)
                (emits_sleep table s 1.0)) as Hch.
  pose proof (emits_digit_entry table s "Level Digit"
                (Py.zfill 2 level_value) (sleep 1.0)
                Hoff eq_refl (digits_zfill 2 _ Hlevel)
                (emits_sleep table s 1.0)) as Hlv.
  unfold relay_control._play_scene_level_sequence_execute_sequence. cbv zeta.
  eapply emits_weaken.
  - emits_step.
  - reflexivity.
  - unfold play_words. cbn [List.app]. rewrite ?app_nil_r, <- ?app_assoc. reflexivity.
  - auto.
Qed.

(** C9, as the code has it. Each composite operation (Program-Scene,
    Allocate-to-Zones, Play) ends well on its triggering control: when the
    sequence returns, its last two actions are the terminal log line
    (["... sequence complete"], or ["COMPLETE: Play done ..."]) and the
    re-enabling of the control, which is then enabled. The sequences
    contain no exception handler: when a step raises (or the sequence
    stays suspended at a debug checkpoint), nothing more is done and the
    control is left as it was before the sequence, that is, disabled.
    With valid digits, all relays OFF, the hardware ready, a device that
    accepts the writes and debug mode off, each sequence does return. *)
Theorem C9_composites_end (d z : Z) (channel : nat) (level_value : string)
    (button : Control) (w : World) :
  let program := levels_sheet_page.program_scene_levels_sequence (Py.str d) (Py.str z) in
  let allocate := levels_sheet_page.allocate_to_zones_sequence_execute_sequence (Py.str z) in
  let play := relay_control._play_scene_level_sequence_execute_sequence
                channel (Py.str d) level_value (Some (setEnabled button true)) in
  (finishes program_button (eq "=== Programming sequence complete ===") program
   /\ finishes allocate_button (eq "=== Allocation sequence complete ===") allocate
   /\ finishes button
        (sim_line ("=== COMPLETE: Play done for channel " +s+ Py.str_nat channel
                   +s+ ", scene " +s+ Py.str d +s+ " with level " +s+ level_value
                   +s+ " ==="))
        play)
  /\ (0 <= d <= 9 -> 0 <= z <= 9 ->
      relays_off (current_state w) -> reliable (gpio w) -> hardware_ready w = true ->
      Forall (fun row => List.length (scenes row) = 10%nat) (rows w) ->
      string_forall is_digit level_value = true ->
      debug_mode w = false ->
      outcome (program w) = Ok tt /\ outcome (allocate w) = Ok tt
      /\ outcome (play w) = Ok tt).
Proof.
  intros program allocate play. split.
  - split; [apply finishes_program_scene|].
    split; [apply finishes_allocate | apply finishes_play].
  - intros Hd Hz Hoff Hg Hr Hlen Hlevel Hdebug.
    pose proof (emits_run _ _ _ _ _ _ w
                  (emits_program_scene (rows w) _ d z Hd Hz Hoff Hlen)
                  Hg Hr eq_refl eq_refl) as [H1 _].
    pose proof (emits_run _ _ _ _ _ _ w
                  (emits_allocate (rows w) _ z Hz Hoff)
                  Hg Hr eq_refl eq_refl) as [H2 _].
    pose proof (emits_run _ _ _ _ _ _ w
                  (emits_play (rows w) _ d channel level_value button Hd Hoff Hlevel)
                  Hg Hr eq_refl eq_refl) as [H3 _].
    destruct (H1 Hdebug) as ([] & Ho1). destruct (H2 Hdebug) as ([] & Ho2).
    destruct (H3 Hdebug) as ([] & Ho3).
    exact (conj Ho1 (conj Ho2 Ho3)).
Qed.

(** On a healthy device the three operations, started from their buttons,
    leave the button enabled and the terminal line last in the log. *)
Example C9_example_success :
  let row := fun z => mkRow z "" "" "Dimmed" [90; 70; 50; 30; 99; 99; 99; 99; 99; 0]%nat in
  let w := power_on (Simulated 65535) [row "2"; row "3"] in
  let program := levels_sheet_page.on_program_scene_levels (Some "1") (Some "2") true w in
  let allocate := levels_sheet_page.on_allocate_to_zones (Some "2") true w in
  let play := levels_sheet_page.play_level_with_lock (p_button 1 "1") 1 "1" "90" w in
  (enabled (final program) program_button = true
   /\ last (log_lines (events program)) "" = "=== Programming sequence complete ===")
  /\ (enabled (final allocate) allocate_button = true
      /\ last (log_lines (events allocate)) "" = "=== Allocation sequence complete ===")
  /\ (enabled (final play) (p_button 1 "1") = true
      /\ last (log_lines (events play)) ""
         = "[SIMULATION] === COMPLETE: Play done for channel 1, scene 1 with level 90 ===").
Proof. intros row w program allocate play. repeat split; vm_compute; reflexivity. Qed.

(** C9 as stated fails on the error path: when the device raises on a
    write, the sequence thread dies at that step; the control disabled at
    the start stays disabled and the log ends on a progress line. *)
Lemma C9_counterexample :
  let row := fun z => mkRow z "" "" "Dimmed" [90; 70; 50; 30; 99; 99; 99; 99; 99; 0]%nat in
  let w := power_on (Ftdi (Some 0%nat)) [row "2"; row "3"] in
  let r := levels_sheet_page.on_program_scene_levels (Some "1") (Some "2") true w in
  outcome (levels_sheet_page.program_scene_levels_sequence "1" "2"
             (set_enabled program_button false w)) = Raise HardwareError
  /\ enabled (final r) program_button = false
  /\ log_lines (events r)
     = ["=== Starting programming sequence ===";
        "=== STEP 1: Exit Programming Mode ===";
        "Exit Prog Mode: Start"].
Proof. intros row w r. repeat split; vm_compute; reflexivity. Qed.

(** * Further properties of the code *)

(** ** Exceptions inside the relay operations *)

Lemma runs_raise {A : Type} (e : Exn) (w : World) :
  runs (raise (A:=A) e) w (Raise e) w [].
Proof. repeat split. Qed.

Lemma runs_bind_raise {A B : Type} (m : M A) (k : A -> M B) (w w1 : World)
    (e : Exn) (t : list Event) :
  runs m w (Raise e) w1 t -> runs (bind m k) w (Raise e) w1 t.
Proof.
  intros (Ho & Hf & Ht). unfold runs, bind. rewrite Ho.
  cbn [outcome final events]. auto.
Qed.

Lemma runs_lock_raise {A : Type} (body : M A) (w w' : World) (e : Exn)
    (t : list Event) :
  runs body w (Raise e) w' t ->
  runs (with_state_lock body) w (Raise e) w' (EAcquire :: t ++ [ERelease]).
Proof.
  intros (Ho & Hf & Ht). unfold runs, with_state_lock. rewrite Ho, Hf.
  cbn [outcome final events timeline filter is_log negb].
  fold (timeline (events (body w) ++ [ERelease])).
  rewrite timeline_app, Ht. auto.
Qed.

Lemma runs_RELAY_PINS_missing (key : string) (w : World) :
  Py.dict_get relay_control.RELAY_PINS key = None ->
  runs (relay_control.RELAY_PINS_at key) w (Raise (KeyError key)) w [].
Proof. intros H. unfold relay_control.RELAY_PINS_at. rewrite H. apply runs_raise. Qed.

(** X1. A relay key that is not in [RELAY_PINS] makes
    [_toggle_relay_thread] raise [KeyError] at the lookup, before it logs,
    locks or writes anything; [toggle_relay] starts that thread all the
    same, so the click has no effect and no message. *)
Theorem toggle_relay_unknown_key (key : string) (w : World) :
  Py.dict_get relay_control.RELAY_PINS key = None ->
  relay_control._toggle_relay_thread key w = mkRun (Raise (KeyError key)) w []
  /\ (hardware_ready w = true ->
      relay_control.toggle_relay key w = mkRun (Ok tt) w []).
Proof.
  intros H.
  assert (E : relay_control._toggle_relay_thread key w
              = mkRun (Raise (KeyError key)) w []).
  { unfold relay_control._toggle_relay_thread, relay_control.RELAY_PINS_at.
    rewrite H. reflexivity. }
  split; [exact E|]. intros Hready.
  unfold relay_control.toggle_relay, bind, gets. cbn [outcome final events].
  rewrite Hready. cbn [negb]. unfold spawn. rewrite E. reflexivity.
Qed.

Lemma toggle_relay_unknown_key_witness :
  let w := power_on (Ftdi None) [] in
  Py.dict_get relay_control.RELAY_PINS "10" = None
  /\ relay_control._toggle_relay_thread "10" w = mkRun (Raise (KeyError "10")) w [].
Proof.
  intros w. split; [reflexivity|].
  exact (proj1 (toggle_relay_unknown_key "10" w eq_refl)).
Defined.

(** X2. When one of the two keys of a double press is not in
    [RELAY_PINS], [_double_press_mode_thread] raises [KeyError] inside its
    first locked block: the lock is released, nothing is written and the
    relay word is unchanged. *)
Theorem double_press_unknown_key (mode_name k1 k2 : string) (w : World) :
  Py.dict_get relay_control.RELAY_PINS k1 = None
  \/ Py.dict_get relay_control.RELAY_PINS k2 = None ->
  let r := relay_control._double_press_mode_thread mode_name k1 k2 w in
  (outcome r = Raise (KeyError k1) \/ outcome r = Raise (KeyError k2))
  /\ final r = w
  /\ timeline (events r) = [EAcquire; ERelease].
Proof.
  intros H r.
  assert (Hrun : exists k, (k = k1 \/ k = k2)
            /\ runs (relay_control._double_press_mode_thread mode_name k1 k2) w
                    (Raise (KeyError k)) w [EAcquire; ERelease]).
  { unfold relay_control._double_press_mode_thread.
    destruct (Py.dict_get relay_control.RELAY_PINS k1) as [p1|] eqn:E1.
    - destruct H as [H|H]; [discriminate|].
      exists k2. split; [now right|].
      eapply runs_eq.
      + eapply runs_bind; [apply runs_sim_log|]. cbv beta.
        eapply runs_bind_raise, runs_lock_raise.
        eapply runs_bind; [apply runs_RELAY_PINS_at, E1|]. cbv beta.
        eapply runs_bind_raise, runs_RELAY_PINS_missing, H.
      + reflexivity.
      + reflexivity.
      + reflexivity.
    - exists k1. split; [now left|].
      eapply runs_eq.
      + eapply runs_bind; [apply runs_sim_log|]. cbv beta.
        eapply runs_bind_raise, runs_lock_raise.
        eapply runs_bind_raise, runs_RELAY_PINS_missing, E1.
      + reflexivity.
      + reflexivity.
      + reflexivity. }
  destruct Hrun as (k & Hk & Ho & Hf & Ht).
  split; [|split; assumption].
  destruct Hk as [->| ->]; [left|right]; exact Ho.
Qed.

Lemma double_press_unknown_key_witness :
  let w := power_on (Ftdi None) [] in
  let r := relay_control._double_press_mode_thread "Quick Scene" "1" "x" w in
  (Py.dict_get relay_control.RELAY_PINS "1" = None
   \/ Py.dict_get relay_control.RELAY_PINS "x" = None)
  /\ final r = w /\ timeline (events r) = [EAcquire; ERelease].
Proof.
  intros w r. split; [right; reflexivity|].
  exact (proj2 (double_press_unknown_key "Quick Scene" "1" "x" w
                  (or_intror eq_refl))).
Defined.

Lemma runs_pulse_loop_missing (mode_name : string) (hold : M Q) (h : World -> Q)
    (gap : Q) (pins : list Z) (bad : string) (rest : list string) (w0 : World) :
  Forall (fun p => 0 <= p <= 9) pins ->
  Py.dict_get relay_control.RELAY_PINS bad = None ->
  (forall w', runs hold w' (Ok (h w')) w' []) ->
  (forall word, h (written word w0) = h w0) ->
  reliable (gpio w0) ->
  forall s,
  runs (for_each (map Py.str pins ++ bad :: rest) (fun relay =>
          relay_control.press mode_name relay hold ;; sleep gap))
       (written s w0) (Raise (KeyError bad)) (written (pulses_final s pins) w0)
       (pulses_timeline (h w0) gap s pins).
Proof.
  intros Hpins Hbad Hhold Hh Hr.
  induction Hpins as [|p ps Hp _ IH]; intros s.
  - cbn [map List.app for_each pulses_final pulses_timeline].
    apply runs_bind_raise, runs_bind_raise. unfold relay_control.press.
    apply runs_bind_raise, runs_RELAY_PINS_missing, Hbad.
  - cbn [map List.app for_each pulses_final pulses_timeline].
    eapply runs_eq.
    + eapply runs_bind.
      * eapply runs_bind.
        -- eapply (runs_press mode_name (Py.str p) p hold h);
             [apply RELAY_PINS_str, Hp | exact Hhold | auto with runs].
        -- cbv beta. apply runs_sleep.
      * cbv beta. cbn [current_state written set_gpio set_current_state gpio].
        rewrite written_written by exact Hr.
        apply IH.
    + reflexivity.
    + reflexivity.
    + cbn [current_state written set_gpio set_current_state gpio].
      rewrite !written_written by exact Hr. rewrite Hh.
      rewrite <- !app_assoc. reflexivity.
Qed.

Lemma Forall_last {A : Type} (P : A -> Prop) (l : list A) (d : A) :
  Forall P l -> l <> [] -> P (last l d).
Proof.
  intros H Hne. destruct (exists_last Hne) as (l' & a & ->).
  rewrite last_last. rewrite Forall_app in H. destruct H as [_ H].
  inversion H; assumption.
Qed.

(** X3. When a guarded sequence meets a key that is not in [RELAY_PINS]
    after the valid digits [pins] (all in 1..8), the thread ends with
    [KeyError] at that key: the guard relays were switched on and the
    digits before it were pulsed, but guardOff is never written, so the
    last word sent to the device and the relay word kept in memory both
    have R0 and R9 energised. *)
Theorem sequence_unknown_key_leaves_guard (mode_name : string) (pins : list Z)
    (bad : string) (rest : list string) (w : World) :
  Forall (fun p => 1 <= p <= 8) pins ->
  Py.dict_get relay_control.RELAY_PINS bad = None ->
  reliable (gpio w) ->
  let r := relay_control._sequence_mode_thread mode_name
             (map Py.str pins ++ bad :: rest) w in
  let g := Z.land (current_state w) (Z.lnot GUARD) in
  outcome r = Raise (KeyError bad)
  /\ writes (events r) = g :: pulses_words g pins
  /\ guard_low (last (writes (events r)) 0)
  /\ guard_low (current_state (final r)).
Proof.
  intros Hpins Hbad Hr r g.
  assert (Hpins' : Forall (fun p => 0 <= p <= 9) pins)
    by (eapply Forall_impl; [|exact Hpins]; cbv beta; intros; lia).
  assert (Hrun : runs (relay_control._sequence_mode_thread mode_name
                         (map Py.str pins ++ bad :: rest)) w
                   (Raise (KeyError bad)) (written (pulses_final g pins) w)
                   ([EAcquire; EWrite g; ERelease; ESleep 0.3]
                    ++ pulses_timeline (duration_spinner w) 0.1 g pins)).
  { unfold relay_control._sequence_mode_thread.
    eapply runs_eq.
    - eapply runs_bind; [apply runs_sim_log|]. cbv beta.
      eapply runs_bind; [apply runs_guard_on, Hr|]. cbv beta.
      eapply runs_bind; [apply runs_sim_log|]. cbv beta.
      eapply runs_bind; [apply runs_sleep|]. cbv beta.
      eapply runs_bind_raise.
      eapply (runs_pulse_loop_missing mode_name relay_control.configured
                duration_spinner 0.1 pins bad rest w Hpins' Hbad).
      + intros w'. apply runs_configured.
      + intros word. reflexivity.
      + exact Hr.
    - reflexivity.
    - reflexivity.
    - reflexivity. }
  destruct (guard_low_pulses pins Hpins g (guard_low_guard_on (current_state w)))
    as [Hwords Hfinal].
  assert (Hw : writes (events r) = g :: pulses_words g pins).
  { unfold r. erewrite runs_writes by exact Hrun.
    rewrite writes_app, writes_pulses_timeline. reflexivity. }
  split; [apply Hrun|]. split; [exact Hw|]. split.
  - rewrite Hw.
    assert (Hall : Forall guard_low (g :: pulses_words g pins))
      by (constructor; [apply guard_low_guard_on | exact Hwords]).
    apply Forall_last; [exact Hall | discriminate].
  - destruct Hrun as (_ & Hf & _). unfold r. rewrite Hf.
    cbn [current_state written set_gpio set_current_state]. exact Hfinal.
Qed.

Lemma sequence_unknown_key_leaves_guard_witness :
  let w := power_on (Ftdi None) [] in
  let r := relay_control._sequence_mode_thread "Seq" ["4"; "x"; "6"] w in
  Forall (fun p => 1 <= p <= 8) [4]
  /\ Py.dict_get relay_control.RELAY_PINS "x" = None
  /\ reliable (gpio w)
  /\ outcome r = Raise (KeyError "x")
  /\ writes (events r) = [65022; 65006; 65022].
Proof.
  intros w r.
  split; [repeat constructor; lia|]. split; [reflexivity|]. split; [exact I|].
  pose proof (sequence_unknown_key_leaves_guard "Seq" [4] "x" ["6"] w
                ltac:(repeat constructor; lia) eq_refl I) as H.
  split; [exact (proj1 H) | exact (proj1 (proj2 H))].
Defined.

(** ** A device that stops accepting writes *)

Lemma runs_gpio_write_last (word : Z) (w : World) :
  gpio w = Ftdi (Some 1%nat) ->
  runs (relay_control.gpio_write word) w (Ok tt) (set_gpio (Ftdi (Some 0%nat)) w)
       [EWrite word].
Proof. intros H. unfold runs, relay_control.gpio_write. rewrite H. auto. Qed.

Lemma runs_gpio_write_fails (word : Z) (w : World) :
  gpio w = Ftdi (Some 0%nat) ->
  runs (relay_control.gpio_write word) w (Raise HardwareError) w [].
Proof. intros H. unfold runs, relay_control.gpio_write. rewrite H. auto. Qed.

(** X4. When the device raises on a write of [_toggle_relay_thread], the
    exception leaves the thread with the lock released, and the relay word
    kept in memory is one write ahead of the device. If the first write
    fails, nothing reaches the device while the memory word already has
    the relay ON. If the second write fails, the device keeps the relay ON
    (the last word it received has the bit clear) while the memory word
    says OFF. *)
Theorem toggle_relay_device_failure (i : Z) (w : World) :
  0 <= i <= 9 ->
  Z.testbit (current_state w) i = true ->
  let r := relay_control._toggle_relay_thread (Py.str i) w in
  let s := current_state w in
  (gpio w = Ftdi (Some 0%nat) ->
     outcome r = Raise HardwareError
     /\ timeline (events r) = [EAcquire; ERelease]
     /\ current_state (final r) = pulse_on s i
     /\ Z.testbit (current_state (final r)) i = false)
  /\ (gpio w = Ftdi (Some 1%nat) ->
     outcome r = Raise HardwareError
     /\ timeline (events r) =
        [EAcquire; EWrite (pulse_on s i); ERelease; ESleep (duration_spinner w);
         EAcquire; ERelease]
     /\ current_state (final r) = s
     /\ Z.testbit (last (writes (events r)) s) i = false).
Proof.
  intros Hi Hs r s.
  pose proof (RELAY_PINS_str i Hi) as Hpin.
  assert (Hclear : Z.testbit (pulse_on s i) i = false).
  { unfold pulse_on. rewrite clear_bit_testbit by lia. rewrite Z.eqb_refl.
    apply andb_false_r. }
  split; intros Hg.
  - assert (Hrun : runs (relay_control._toggle_relay_thread (Py.str i)) w
                     (Raise HardwareError) (set_current_state (pulse_on s i) w)
                     [EAcquire; ERelease]).
    { unfold relay_control._toggle_relay_thread.
      eapply runs_eq.
      - eapply runs_bind; [apply runs_gets|]. cbv beta.
        eapply runs_bind; [apply runs_RELAY_PINS_at, Hpin|]. cbv beta zeta.
        eapply runs_bind; [apply runs_sim_log|]. cbv beta.
        eapply runs_bind_raise, runs_lock_raise.
        eapply runs_bind; [apply runs_state_and_not|]. cbv beta.
        unfold relay_control.write_state.
        eapply runs_bind; [apply runs_gets|]. cbv beta.
        apply runs_gpio_write_fails. exact Hg.
      - reflexivity.
      - reflexivity.
      - reflexivity. }
    destruct Hrun as (Ho & Hf & Ht).
    split; [exact Ho|]. split; [exact Ht|].
    unfold r. rewrite Hf. cbn [current_state set_current_state].
    split; [reflexivity | exact Hclear].
  - assert (Hrun : runs (relay_control._toggle_relay_thread (Py.str i)) w
                     (Raise HardwareError)
                     (set_current_state (pulse_off s i)
                        (set_gpio (Ftdi (Some 0%nat))
                           (set_current_state (pulse_on s i) w)))
                     [EAcquire; EWrite (pulse_on s i); ERelease;
                      ESleep (duration_spinner w); EAcquire; ERelease]).
    { unfold relay_control._toggle_relay_thread.
      eapply runs_eq.
      - eapply runs_bind; [apply runs_gets|]. cbv beta.
        eapply runs_bind; [apply runs_RELAY_PINS_at, Hpin|]. cbv beta zeta.
        eapply runs_bind; [apply runs_sim_log|]. cbv beta.
        eapply runs_bind.
        { eapply runs_lock.
          eapply runs_bind; [apply runs_state_and_not|]. cbv beta.
          unfold relay_control.write_state.
          eapply runs_bind; [apply runs_gets|]. cbv beta.
          apply runs_gpio_write_last. exact Hg. }
        cbv beta.
        eapply runs_bind; [apply runs_sleep|]. cbv beta.
        eapply runs_bind_raise, runs_lock_raise.
        eapply runs_bind; [apply runs_state_or|]. cbv beta.
        unfold relay_control.write_state.
        eapply runs_bind; [apply runs_gets|]. cbv beta.
        apply runs_gpio_write_fails. reflexivity.
      - reflexivity.
      - reflexivity.
      - reflexivity. }
    pose proof (runs_writes _ _ _ _ _ Hrun) as Hw.
    destruct Hrun as (Ho & Hf & Ht).
    split; [exact Ho|]. split; [exact Ht|].
    unfold r. rewrite Hf, Hw. cbn [current_state set_current_state set_gpio].
    split; [apply pulse_off_restores; [lia | exact Hs] | exact Hclear].
Qed.

Lemma toggle_relay_device_failure_witness :
  let w := power_on (Ftdi (Some 1%nat)) [] in
  let r := relay_control._toggle_relay_thread "3" w in
  0 <= 3 <= 9 /\ Z.testbit (current_state w) 3 = true
  /\ outcome r = Raise HardwareError
  /\ writes (events r) = [65527]
  /\ current_state (final r) = 65535.
Proof.
  intros w r. split; [lia|]. split; [reflexivity|].
  pose proof (proj2 (toggle_relay_device_failure 3 w ltac:(lia) eq_refl) eq_refl)
    as (Ho & _ & Hs & _).
  split; [exact Ho|]. split; [reflexivity|exact Hs].
Defined.

(** ** Hardware not ready *)

Lemma guard_not_ready (other : M unit) (w : World) :
  hardware_ready w = false ->
  (ready <- gets hardware_ready ;;
   if negb ready then relay_control._show_error_slot "Not Ready" "Hardware not ready."
   else other) w
  = mkRun (Ok tt) w [EErrorDialog "Not Ready" "Hardware not ready."].
Proof.
  intros H. unfold bind, gets. cbn [outcome final events]. rewrite H. reflexivity.
Qed.

(** X5. While [hardware_ready] is false, every button operation of the
    PyQt relay page (the relay buttons, the relay test, the mode and
    shortcut buttons and [program_zone]) only shows the "Not Ready" error
    box: it starts no thread, writes nothing and leaves the relay word and
    everything else as it was. *)
Theorem not_ready_only_dialog (relay_number scene_digit zone : string)
    (confirmed : bool) (debug_callback : option (M unit)) (w : World) :
  hardware_ready w = false ->
  Forall (fun button =>
            button w = mkRun (Ok tt) w [EErrorDialog "Not Ready" "Hardware not ready."])
         (relay_control_buttons relay_number scene_digit zone confirmed debug_callback).
Proof.
  intros H. unfold relay_control_buttons.
  repeat (apply Forall_cons; [apply guard_not_ready; exact H|]).
  apply Forall_nil.
Qed.

Lemma not_ready_only_dialog_witness :
  let w := mkWorld 65535 false 0.5%Q (Ftdi None) [] "" "" false false
                   (fun _ => true) "Debug Mode: OFF" [] in
  hardware_ready w = false
  /\ relay_control.quick_scene w
     = mkRun (Ok tt) w [EErrorDialog "Not Ready" "Hardware not ready."].
Proof.
  intros w. split; [reflexivity|].
  pose proof (not_ready_only_dialog "1" "1" "1" true None w eq_refl) as H.
  unfold relay_control_buttons in H. rewrite Forall_forall in H.
  apply H. do 14 right. left. reflexivity.
Defined.

(** ** The dummy controller of simulation mode *)

Lemma land_bit_eqb (x j : Z) :
  0 <= j -> (Z.land x (Z.shiftl 1 j) =? 0) = negb (Z.testbit x j).
Proof.
  intros Hj. fold (bit j).
  destruct (Z.testbit x j) eqn:E; cbn [negb].
  - apply Z.eqb_neq. intros H0.
    assert (Hb : Z.testbit (Z.land x (bit j)) j = true)
      by (rewrite Z.land_spec, E, bit_testbit, Z.eqb_refl by lia; reflexivity).
    rewrite H0, Z.bits_0 in Hb. discriminate.
  - apply Z.eqb_eq. apply Z.bits_inj'. intros n Hn.
    rewrite Z.land_spec, bit_testbit, Z.bits_0 by lia.
    destruct (Z.eqb_spec j n) as [->|_]; [rewrite E|]; auto using andb_false_r.
Qed.

Lemma flat_map_ext_range {A : Type} (f g : Z -> list A) (n : nat) :
  (forall i, 0 <= i -> f i = g i) ->
  flat_map f (Py.range n) = flat_map g (Py.range n).
Proof.
  intros H. unfold Py.range. generalize 0%nat as start.
  induction n as [|n IH]; intros start; [reflexivity|].
  cbn [seq map flat_map]. rewrite H by lia. rewrite IH. reflexivity.
Qed.

Lemma simulated_write_lines_bits (cur state : Z) :
  relay_control.simulated_write_lines cur state
  = flat_map (fun i =>
      if xorb (Z.testbit cur i) (Z.testbit state i)
      then [simulated_line i (if Z.testbit state i then "OFF" else "ON")]
      else []) (Py.range 10).
Proof.
  unfold relay_control.simulated_write_lines. cbv zeta.
  apply flat_map_ext_range. intros i Hi.
  rewrite !land_bit_eqb by lia. rewrite !negb_involutive, Z.lxor_spec.
  reflexivity.
Qed.

Lemma flat_map_single {A : Type} (x : Z -> list A) (i : Z) :
  0 <= i <= 9 ->
  flat_map (fun j => if i =? j then x j else []) (Py.range 10) = x i.
Proof.
  intros Hi.
  assert (H : i = 0 \/ i = 1 \/ i = 2 \/ i = 3 \/ i = 4 \/ i = 5 \/ i = 6 \/ i = 7
              \/ i = 8 \/ i = 9) by lia.
  repeat (destruct H as [->|H]; [cbn; rewrite ?app_nil_r; reflexivity|]).
  subst. cbn. rewrite ?app_nil_r. reflexivity.
Qed.

Lemma simulated_write_same (cur : Z) :
  relay_control.simulated_write_lines cur cur = [].
Proof.
  rewrite simulated_write_lines_bits.
  rewrite (flat_map_ext_range _ (fun _ => [])).
  - generalize (Py.range 10). intros l. induction l; auto.
  - intros j _. rewrite xorb_nilpotent. reflexivity.
Qed.

Lemma simulated_write_single (cur i : Z) :
  0 <= i <= 9 ->
  Z.testbit cur i = true ->
  relay_control.simulated_write_lines cur (pulse_on cur i)
  = ["[SIMULATION] Relay R" +s+ Py.str i +s+ " -> ON"]
  /\ relay_control.simulated_write_lines (pulse_on cur i) cur
     = ["[SIMULATION] Relay R" +s+ Py.str i +s+ " -> OFF"].
Proof.
  intros Hi Hs.
  assert (Hon : forall j, 0 <= j ->
            Z.testbit (pulse_on cur i) j = (Z.testbit cur j && negb (i =? j))%bool)
    by (intros j Hj; unfold pulse_on; apply clear_bit_testbit; lia).
  rewrite !simulated_write_lines_bits. split.
  - transitivity (flat_map (fun j => if i =? j then [simulated_line j "ON"] else [])
                    (Py.range 10));
      [|exact (flat_map_single (fun j => [simulated_line j "ON"]) i Hi)].
    apply flat_map_ext_range. intros j Hj. rewrite Hon by lia.
    destruct (Z.eqb_spec i j) as [<-|_]; cbn [negb].
    + rewrite Hs. reflexivity.
    + rewrite andb_true_r, xorb_nilpotent. reflexivity.
  - transitivity (flat_map (fun j => if i =? j then [simulated_line j "OFF"] else [])
                    (Py.range 10));
      [|exact (flat_map_single (fun j => [simulated_line j "OFF"]) i Hi)].
    apply flat_map_ext_range. intros j Hj. rewrite Hon by lia.
    destruct (Z.eqb_spec i j) as [<-|_]; cbn [negb].
    + rewrite Hs. reflexivity.
    + rewrite andb_true_r, xorb_nilpotent. reflexivity.
Qed.

Lemma flat_map_filter_map {A B : Type} (keep : A -> bool) (f : A -> B) (l : list A) :
  flat_map (fun x => if keep x then [f x] else []) l = map f (filter keep l).
Proof.
  induction l as [|x l IH]; [reflexivity|].
  cbn [flat_map filter]. destruct (keep x); cbn [map List.app]; rewrite IH; reflexivity.
Qed.

(** X6. Whatever word the dummy controller stored and whatever word is
    written, it logs one line per relay 0..9 whose bit differs between
    the two, in the order of the relays, and nothing else; the line of
    relay [i] says ON when the bit of [i] is clear in the new word and OFF
    when it is set. So writing the stored word again logs nothing,
    switching relay [i] ON from a word where it is OFF logs the single
    line "Relay Ri -> ON", and switching it back logs the single line
    "Relay Ri -> OFF". *)
Theorem simulated_write_reports_changes (cur state : Z) :
  relay_control.simulated_write_lines cur state
  = map (fun i => "[SIMULATION] Relay R" +s+ Py.str i +s+ " -> "
                   +s+ (if Z.testbit state i then "OFF" else "ON"))
        (filter (fun i => negb (Bool.eqb (Z.testbit cur i) (Z.testbit state i)))
                [0; 1; 2; 3; 4; 5; 6; 7; 8; 9])
  /\ relay_control.simulated_write_lines cur cur = []
  /\ (forall i, 0 <= i <= 9 -> Z.testbit cur i = true ->
        relay_control.simulated_write_lines cur (pulse_on cur i)
        = ["[SIMULATION] Relay R" +s+ Py.str i +s+ " -> ON"]
        /\ relay_control.simulated_write_lines (pulse_on cur i) cur
           = ["[SIMULATION] Relay R" +s+ Py.str i +s+ " -> OFF"]).
Proof.
  split; [|split].
  - rewrite simulated_write_lines_bits.
    change [0; 1; 2; 3; 4; 5; 6; 7; 8; 9] with (Py.range 10).
    rewrite <- flat_map_filter_map. apply flat_map_ext_range. intros i _.
    destruct (Z.testbit cur i), (Z.testbit state i); reflexivity.
  - apply simulated_write_same.
  - intros i Hi Hs. apply simulated_write_single; assumption.
Qed.

Lemma simulated_write_reports_changes_witness :
  0 <= 3 <= 9 /\ Z.testbit 65535 3 = true
  /\ relay_control.simulated_write_lines 65535 (pulse_on 65535 3)
     = ["[SIMULATION] Relay R3 -> ON"]
  /\ relay_control.simulated_write_lines 65535 (Z.land 65535 (Z.lnot GUARD))
     = ["[SIMULATION] Relay R0 -> ON"; "[SIMULATION] Relay R9 -> ON"]
  /\ relay_control.simulated_write_lines 65022 65527
     = ["[SIMULATION] Relay R0 -> OFF"; "[SIMULATION] Relay R3 -> ON";
        "[SIMULATION] Relay R9 -> OFF"].
Proof.
  split; [lia|]. split; [reflexivity|].
  split; [|split].
  - exact (proj1 (proj2 (proj2 (simulated_write_reports_changes 65535 65535)) 3
                        ltac:(lia) eq_refl)).
  - etransitivity;
      [exact (proj1 (simulated_write_reports_changes 65535 (Z.land 65535 (Z.lnot GUARD))))
      | reflexivity].
  - etransitivity;
      [exact (proj1 (simulated_write_reports_changes 65022 65527)) | reflexivity].
Defined.

Lemma yields_bind {A B : Type} (m : M A) (k : A -> M B) (w w1 w2 : World)
    (a : A) (o : Outcome B) (t1 t2 : list Event) :
  yields m w (Ok a) w1 t1 -> yields (k a) w1 o w2 t2 ->
  yields (bind m k) w o w2 (t1 ++ t2).
Proof.
  unfold yields, bind. intros -> H. cbn [outcome final events]. rewrite H.
  reflexivity.
Qed.

Lemma yields_eq {A : Type} (m : M A) (w w1 w2 : World) (o o' : Outcome A)
    (t1 t2 : list Event) :
  yields m w o w1 t1 -> o = o' -> w1 = w2 -> t1 = t2 -> yields m w o' w2 t2.
Proof. intros H <- <- <-. exact H. Qed.

Lemma yields_ret {A : Type} (a : A) (w : World) : yields (ret a) w (Ok a) w [].
Proof. reflexivity. Qed.

Lemma yields_gets {A : Type} (f : World -> A) (w : World) :
  yields (gets f) w (Ok (f w)) w [].
Proof. reflexivity. Qed.

Lemma yields_modify (f : World -> World) (w : World) :
  yields (modify f) w (Ok tt) (f w) [].
Proof. reflexivity. Qed.

Lemma yields_emit (e : Event) (w : World) : yields (emit e) w (Ok tt) w [e].
Proof. reflexivity. Qed.

Lemma yields_lock {A : Type} (body : M A) (w w' : World) (a : A) (t : list Event) :
  yields body w (Ok a) w' t ->
  yields (with_state_lock body) w (Ok a) w' (EAcquire :: t ++ [ERelease]).
Proof. unfold yields, with_state_lock. intros ->. reflexivity. Qed.

Lemma yields_sim_log_simulated (message : string) (cur : Z) (w : World) :
  gpio w = Simulated cur ->
  yields (relay_control.sim_log message) w (Ok tt) w
         [ELog ("[SIMULATION] " +s+ message)].
Proof.
  intros H. unfold yields, relay_control.sim_log, relay_control.SIMULATION_MODE,
    bind, gets. cbn [outcome final events]. rewrite H. reflexivity.
Qed.

Lemma yields_write_simulated (cur : Z) (w : World) :
  gpio w = Simulated cur ->
  yields relay_control.write_state w (Ok tt)
         (set_gpio (Simulated (current_state w)) w)
         (map ELog (relay_control.simulated_write_lines cur (current_state w))
          ++ [EWrite (current_state w)]).
Proof.
  intros H. unfold yields, relay_control.write_state, relay_control.gpio_write,
    bind, gets. cbn [outcome final events]. rewrite H. reflexivity.
Qed.

(** X7. In simulation mode, with the dummy controller holding the same
    word as the application, pulsing relay [i] from OFF logs exactly four
    lines, in this order: the application's "Ri ON", the controller's
    "Relay Ri -> ON", the controller's "Relay Ri -> OFF" and the
    application's "Ri OFF"; afterwards the controller again holds the
    application's word. *)
Theorem toggle_relay_simulation_log (i : Z) (w : World) :
  0 <= i <= 9 ->
  gpio w = Simulated (current_state w) ->
  Z.testbit (current_state w) i = true ->
  let r := relay_control._toggle_relay_thread (Py.str i) w in
  log_lines (events r)
  = ["[SIMULATION] R" +s+ Py.str i +s+ " ON";
     "[SIMULATION] Relay R" +s+ Py.str i +s+ " -> ON";
     "[SIMULATION] Relay R" +s+ Py.str i +s+ " -> OFF";
     "[SIMULATION] R" +s+ Py.str i +s+ " OFF"]
  /\ gpio (final r) = Simulated (current_state (final r)).
Proof.
  intros Hi Hg Hs r.
  destruct (simulated_write_single (current_state w) i Hi Hs) as (Hon & Hoff).
  assert (Hrestore : pulse_off (current_state w) i = current_state w)
    by (apply pulse_off_restores; [lia | exact Hs]).
  pose proof (RELAY_PINS_str i Hi) as Hpin.
  set (s := current_state w) in *.
  assert (Hrun : yields (relay_control._toggle_relay_thread (Py.str i)) w (Ok tt)
            (set_gpio (Simulated s) (set_current_state s
               (set_gpio (Simulated (pulse_on s i))
                  (set_current_state (pulse_on s i) w))))
            ([ELog ("[SIMULATION] " +s+ "R" +s+ Py.str i +s+ " ON")]
             ++ (EAcquire
                 :: (map ELog (relay_control.simulated_write_lines s (pulse_on s i))
                     ++ [EWrite (pulse_on s i)]) ++ [ERelease])
             ++ [ESleep (duration_spinner w)]
             ++ (EAcquire
                 :: (map ELog (relay_control.simulated_write_lines (pulse_on s i) s)
                     ++ [EWrite s]) ++ [ERelease])
             ++ [ELog ("[SIMULATION] " +s+ "R" +s+ Py.str i +s+ " OFF")])).
  { unfold relay_control._toggle_relay_thread.
    eapply yields_eq.
    - eapply yields_bind; [apply yields_gets|]. cbv beta.
      eapply yields_bind;
        [unfold relay_control.RELAY_PINS_at; rewrite Hpin; apply yields_ret|].
      cbv beta zeta.
      eapply yields_bind; [eapply yields_sim_log_simulated, Hg|]. cbv beta.
      eapply yields_bind.
      { apply yields_lock.
        eapply yields_bind; [apply yields_modify|]. cbv beta.
        eapply yields_write_simulated. exact Hg. }
      cbv beta.
      eapply yields_bind; [apply yields_emit|]. cbv beta.
      eapply yields_bind.
      { apply yields_lock.
        eapply yields_bind; [apply yields_modify|]. cbv beta.
        eapply yields_write_simulated. reflexivity. }
      cbv beta.
      eapply yields_sim_log_simulated. reflexivity.
    - reflexivity.
    - cbn [current_state set_current_state set_gpio].
      fold s. fold (bit i). fold (pulse_on s i). fold (pulse_off s i).
      rewrite Hrestore. reflexivity.
    - cbn [current_state set_current_state set_gpio List.app].
      fold s. fold (bit i). fold (pulse_on s i). fold (pulse_off s i).
      rewrite Hrestore. rewrite <- !app_assoc. reflexivity. }
  unfold r. rewrite Hrun. cbn [events final].
  rewrite Hon, Hoff. split; reflexivity.
Qed.

Lemma toggle_relay_simulation_log_witness :
  let w := power_on (Simulated 65535) [] in
  0 <= 3 <= 9 /\ gpio w = Simulated (current_state w)
  /\ Z.testbit (current_state w) 3 = true
  /\ log_lines (events (relay_control._toggle_relay_thread "3" w))
     = ["[SIMULATION] R3 ON"; "[SIMULATION] Relay R3 -> ON";
        "[SIMULATION] Relay R3 -> OFF"; "[SIMULATION] R3 OFF"].
Proof.
  intros w. split; [lia|]. split; [reflexivity|]. split; [reflexivity|].
  exact (proj1 (toggle_relay_simulation_log 3 w ltac:(lia) eq_refl eq_refl)).
Defined.

(** ** The relay word in memory and the word on the device *)

(** X8. On a device that accepts every write, a guarded sequence over any
    valid keys returns with the relay word kept in memory equal to the last
    word it wrote, and the dummy controller of simulation mode then stores
    that same word: memory, device and simulation agree after the
    sequence, whatever word it started from. *)
Theorem sequence_mode_mirror (mode_name : string) (pins : list Z) (w : World) :
  Forall (fun p => 0 <= p <= 9) pins ->
  reliable (gpio w) ->
  let r := relay_control._sequence_mode_thread mode_name (map Py.str pins) w in
  outcome r = Ok tt
  /\ current_state (final r) = last (writes (events r)) 0
  /\ (forall cur, gpio w = Simulated cur ->
        gpio (final r) = Simulated (current_state (final r))).
Proof.
  intros Hpins Hr r.
  pose proof (runs_sequence_mode mode_name (map Py.str pins) pins w
                (keys_of_pins pins Hpins) Hr) as Hrun.
  cbv zeta in Hrun. pose proof (runs_writes _ _ _ _ _ Hrun) as Hw.
  destruct Hrun as (Ho & Hf & _).
  split; [exact Ho|]. unfold r. rewrite Hf, Hw, writes_guardedMulti_timeline.
  split.
  - unfold guardedMulti_writes. cbv zeta.
    rewrite app_assoc, last_last. reflexivity.
  - intros cur Hg. unfold written. cbn [gpio set_gpio set_current_state current_state].
    rewrite Hg. reflexivity.
Qed.

Lemma sequence_mode_mirror_witness :
  let w := power_on (Simulated 65535) [] in
  let r := relay_control._sequence_mode_thread "Reset" ["4"; "5"; "6"; "6"] w in
  Forall (fun p => 0 <= p <= 9) [4; 5; 6; 6] /\ reliable (gpio w)
  /\ current_state (final r) = last (writes (events r)) 0.
Proof.
  intros w r. split; [repeat constructor; lia|]. split; [exact I|].
  exact (proj1 (proj2 (sequence_mode_mirror "Reset" [4; 5; 6; 6] w
                         ltac:(repeat constructor; lia) I))).
Defined.

(** ** The relay test *)

Lemma runs_toggle_relay_thread (key : string) (pin : Z) (w : World) :
  Py.dict_get relay_control.RELAY_PINS key = Some pin ->
  reliable (gpio w) ->
  let s := current_state w in
  runs (relay_control._toggle_relay_thread key) w (Ok tt)
       (written (pulse_off s pin) w)
       [EAcquire; EWrite (pulse_on s pin); ERelease;
        ESleep (duration_spinner w);
        EAcquire; EWrite (pulse_off s pin); ERelease].
Proof.
  intros Hpin Hr s. unfold relay_control._toggle_relay_thread.
  run_with Hr.
Qed.

Lemma runs_toggle_loop (gap : Q) (sequence : list string) (pins : list Z)
    (w0 : World) :
  Forall2 (fun k p => Py.dict_get relay_control.RELAY_PINS k = Some p) sequence pins ->
  reliable (gpio w0) ->
  forall s,
  runs (for_each sequence (fun relay =>
          relay_control._toggle_relay_thread relay ;; sleep gap))
       (written s w0) (Ok tt) (written (pulses_final s pins) w0)
       (pulses_timeline (duration_spinner w0) gap s pins).
Proof.
  intros Hkeys Hr.
  induction Hkeys as [|k p ks ps Hk _ IH]; intros s.
  - apply runs_ret.
  - cbn [for_each pulses_final pulses_timeline].
    eapply runs_eq.
    + eapply runs_bind.
      * eapply runs_bind.
        -- eapply (runs_toggle_relay_thread k p); [exact Hk | auto with runs].
        -- cbv beta. apply runs_sleep.
      * cbv beta. cbn [current_state written set_gpio set_current_state gpio].
        rewrite written_written by exact Hr.
        apply IH.
    + reflexivity.
    + reflexivity.
    + cbn [current_state written set_gpio set_current_state gpio duration_spinner].
      rewrite <- !app_assoc. reflexivity.
Qed.

Lemma relays_on_pulse (s i : Z) :
  relays_off s -> 0 <= i <= 9 -> relays_on (pulse_on s i) = [i].
Proof.
  intros Hoff Hi. unfold relays_on, pulse_on.
  change (Py.range 10) with [0; 1; 2; 3; 4; 5; 6; 7; 8; 9].
  cbn [filter].
  rewrite !clear_bit_testbit by lia. rewrite !Hoff by lia.
  assert (H : i = 0 \/ i = 1 \/ i = 2 \/ i = 3 \/ i = 4 \/ i = 5 \/ i = 6 \/ i = 7
              \/ i = 8 \/ i = 9) by lia.
  repeat (destruct H as [->|H]; [reflexivity|]). subst. reflexivity.
Qed.

Lemma runs_test_all_relays (w : World) :
  reliable (gpio w) ->
  relays_off (current_state w) ->
  runs relay_control._test_all_relays_thread w (Ok tt) (written (current_state w) w)
       (flat_map (fun i =>
          [EAcquire; EWrite (pulse_on (current_state w) i); ERelease;
           ESleep (duration_spinner w);
           EAcquire; EWrite (current_state w); ERelease; ESleep 0.2]) (Py.range 10)).
Proof.
  intros Hr Hoff. set (s := current_state w).
  unfold relay_control._test_all_relays_thread.
  change (Py.sorted (map fst relay_control.RELAY_PINS))
    with ("0" :: map Py.str [1; 2; 3; 4; 5; 6; 7; 8; 9]).
  change (Py.range 10) with [0; 1; 2; 3; 4; 5; 6; 7; 8; 9].
  assert (Hp : forall p, 0 <= p <= 9 -> pulse_off s p = s)
    by (intros p Hp; apply pulse_off_restores; [lia | apply Hoff; lia]).
  cbn [for_each].
  eapply runs_eq.
  + eapply runs_bind.
    * eapply runs_bind.
      -- eapply (runs_toggle_relay_thread "0" 0); [reflexivity | exact Hr].
      -- cbv beta. apply runs_sleep.
    * cbv beta.
      eapply (runs_toggle_loop 0.2 _ [1; 2; 3; 4; 5; 6; 7; 8; 9]);
        [apply keys_of_pins; repeat constructor; lia | exact Hr].
  + reflexivity.
  + fold s. cbn [pulses_final]. rewrite !Hp by lia. reflexivity.
  + fold s. cbn [pulses_timeline List.app flat_map]. rewrite !Hp by lia.
    reflexivity.
Qed.

(** X9. The relay test visits the keys of [RELAY_PINS] in sorted order,
    which is relay 0 up to relay 9: on a device that accepts every write
    and with all relays OFF, it pulses each relay once for the configured
    duration and pauses 0.2 s after each, every write is made under the
    lock and every sleep outside it, exactly one relay is ON in the word
    of each pulse, and the relay word is the initial one at the end. *)
Theorem test_all_relays_sweep (w : World) :
  reliable (gpio w) ->
  relays_off (current_state w) ->
  let s := current_state w in
  runs relay_control._test_all_relays_thread w (Ok tt) (written s w)
       (flat_map (fun i =>
          [EAcquire; EWrite (pulse_on s i); ERelease; ESleep (duration_spinner w);
           EAcquire; EWrite s; ERelease; ESleep 0.2]) (Py.range 10))
  /\ (forall i, In i (Py.range 10) -> relays_on (pulse_on s i) = [i]).
Proof.
  intros Hr Hoff s. split; [exact (runs_test_all_relays w Hr Hoff)|].
  intros i Hin. apply relays_on_pulse; [exact Hoff|].
  unfold Py.range in Hin. apply in_map_iff in Hin as (k & <- & Hk).
  apply in_seq in Hk. lia.
Qed.

Lemma test_all_relays_sweep_witness :
  let w := power_on (Ftdi None) [] in
  reliable (gpio w) /\ relays_off (current_state w)
  /\ writes (events (relay_control._test_all_relays_thread w))
     = [65534; 65535; 65533; 65535; 65531; 65535; 65527; 65535; 65519; 65535;
        65503; 65535; 65471; 65535; 65407; 65535; 65279; 65535; 65023; 65535].
Proof.
  intros w.
  assert (Hoff : relays_off (current_state w)) by apply relays_off_65535.
  split; [exact I|]. split; [exact Hoff|].
  rewrite (runs_writes _ _ _ _ _ (proj1 (test_all_relays_sweep w I Hoff))).
  reflexivity.
Defined.

(** ** The zone gesture *)

Lemma runs_press_fixed (mode_name relay : string) (pin : Z) (hold : Q) (w : World) :
  Py.dict_get relay_control.RELAY_PINS relay = Some pin ->
  reliable (gpio w) ->
  let s := current_state w in
  runs (relay_control.press mode_name relay (ret hold)) w (Ok tt)
       (written (pulse_off s pin) w)
       [EAcquire; EWrite (pulse_on s pin); ERelease;
        ESleep hold;
        EAcquire; EWrite (pulse_off s pin); ERelease].
Proof.
  intros Hpin Hr s.
  apply (runs_press mode_name relay pin (ret hold) (fun _ => hold) w Hpin);
    [intros w'; apply runs_ret | exact Hr].
Qed.

Lemma runs_pulse_loop_fixed (mode_name : string) (hold gap : Q)
    (sequence : list string) (pins : list Z) (w0 : World) :
  Forall2 (fun k p => Py.dict_get relay_control.RELAY_PINS k = Some p) sequence pins ->
  reliable (gpio w0) ->
  forall s,
  runs (for_each sequence (fun relay =>
          relay_control.press mode_name relay (ret hold) ;; sleep gap))
       (written s w0) (Ok tt) (written (pulses_final s pins) w0)
       (pulses_timeline hold gap s pins).
Proof.
  intros Hkeys Hr s.
  apply (runs_pulse_loop mode_name (ret hold) (fun _ => hold) gap sequence pins w0
           Hkeys); [intros w'; apply runs_ret | reflexivity | exact Hr].
Qed.

#[local] Hint Extern 1 (runs (relay_control.press _ _ (ret _)) _ _ _ _) =>
  eapply runs_press_fixed;
  [ solve [eauto]
  | cbn [gpio set_gpio set_current_state written]; solve [auto with runs] ] : runs.

#[local] Hint Extern 1 (runs (for_each _ (fun relay => relay_control.press _ relay (ret _) ;; _))
                          (written _ _) _ _ _) =>
  eapply runs_pulse_loop_fixed; [ eassumption | assumption ] : runs.

(** A long sequence is run block by block; after each block the world is
    brought back to the form [written word w] and the relay word is
    simplified by [simp]. *)
Ltac run_chain Hr simp :=
  lazymatch goal with
  | |- runs (bind _ _) _ _ _ _ =>
      eapply runs_bind;
      [ run_step | cbv beta iota zeta; norm_world Hr; simp; run_chain Hr simp ]
  | |- _ => run_step
  end.

Lemma runs_program_zone (z : Z) (w : World) :
  0 <= z <= 9 ->
  hardware_ready w = true ->
  reliable (gpio w) ->
  relays_off (current_state w) ->
  let s := current_state w in
  let g := Z.land s (Z.lnot GUARD) in
  let d := duration_spinner w in
  runs (relay_control.program_zone (Py.str z) None) w (Ok tt) (written s w)
       ([EAcquire; EWrite g; ERelease; ESleep 0.5]
        ++ pulses_timeline 0.5 0.3 g [8; 7; 1; 1]
        ++ [EAcquire; EWrite s; ERelease]
        ++ [EAcquire; EWrite (pulse_on s z); ERelease; ESleep d;
            EAcquire; EWrite s; ERelease; ESleep 1.0]
        ++ [EAcquire; EWrite g; ERelease; ESleep 0.5]
        ++ pulses_timeline 0.5 0.3 g [8; 7]
        ++ [EAcquire; EWrite (pulse_on g 2); ERelease; ESleep 0.5;
            EAcquire; EWrite g; ERelease;
            EAcquire; EWrite (pulse_on g 2); ERelease; ESleep 0.5;
            EAcquire; EWrite g; ERelease; ESleep 0.3]
        ++ [EAcquire; EWrite s; ERelease; ESleep 0.3]
        ++ [EAcquire; EWrite (pulse_on s z); ERelease; ESleep d;
            EAcquire; EWrite s; ERelease; ESleep 2.0; ESleep 2.0]).
Proof.
  intros Hz Hready Hr Hoff s g d.
  pose proof (RELAY_PINS_str z Hz) as Hzone.
  assert (Hp : forall p, 1 <= p <= 8 -> pulse_off g p = g)
    by (intros p Hp; apply pulse_off_restores; [lia | apply in_guard_bit; assumption]).
  assert (Hs : pulse_off s z = s)
    by (apply pulse_off_restores; [lia | apply Hoff; lia]).
  assert (Hg : Z.lor g GUARD = s)
    by (apply guard_off_restores; apply Hoff; lia).
  assert (H87 : Forall2 (fun k p => Py.dict_get relay_control.RELAY_PINS k = Some p)
                        ["8"; "7"] [8; 7]) by concrete_keys.
  assert (H1 : Py.dict_get relay_control.RELAY_PINS "1" = Some 1) by reflexivity.
  assert (H2 : Py.dict_get relay_control.RELAY_PINS "2" = Some 2) by reflexivity.
  unfold relay_control.program_zone.
  eapply runs_eq.
  - eapply runs_bind; [apply runs_gets|]. cbv beta. rewrite Hready.
    cbv beta iota zeta. cbn [negb]. run_chain Hr
      ltac:(cbn [pulses_final]; fold s; fold g;
            repeat first [rewrite Hp by lia | rewrite Hg | rewrite Hs]).
  - reflexivity.
  - cbn [current_state written set_gpio set_current_state gpio pulses_final].
    fold s. fold g.
    repeat first [rewrite Hp by lia | rewrite Hg | rewrite Hs]. reflexivity.
  - cbn [current_state written set_gpio set_current_state gpio pulses_final
         pulses_timeline List.app duration_spinner].
    fold s. fold g. fold d.
    repeat first [rewrite Hp by lia | rewrite Hg | rewrite Hs].
    reflexivity.
Qed.

(** X10. [program_zone] without a debug callback, on ready hardware that
    accepts every write and with all relays OFF, returns after exactly this
    hardware sequence for the zone digit [z]: guard ON, 0.5 s; relays 8, 7,
    1, 1 each held 0.5 s and followed by 0.3 s; guard OFF; the zone digit
    held for the configured duration, outside the guard bracket, then 1 s;
    guard ON, 0.5 s; relays 8 and 7 as before; relay 2 held 0.5 s twice,
    the second press following the first without a pause; 0.3 s; guard
    OFF, 0.3 s; the zone digit again, then twice 2 s. The relay word is the
    initial one at the end. *)
Theorem program_zone_timeline (z : Z) (w : World) :
  0 <= z <= 9 ->
  hardware_ready w = true ->
  reliable (gpio w) ->
  relays_off (current_state w) ->
  let s := current_state w in
  let g := Z.land s (Z.lnot GUARD) in
  let d := duration_spinner w in
  runs (relay_control.program_zone (Py.str z) None) w (Ok tt) (written s w)
       ([EAcquire; EWrite g; ERelease; ESleep 0.5]
        ++ pulses_timeline 0.5 0.3 g [8; 7; 1; 1]
        ++ [EAcquire; EWrite s; ERelease]
        ++ [EAcquire; EWrite (pulse_on s z); ERelease; ESleep d;
            EAcquire; EWrite s; ERelease; ESleep 1.0]
        ++ [EAcquire; EWrite g; ERelease; ESleep 0.5]
        ++ pulses_timeline 0.5 0.3 g [8; 7]
        ++ [EAcquire; EWrite (pulse_on g 2); ERelease; ESleep 0.5;
            EAcquire; EWrite g; ERelease;
            EAcquire; EWrite (pulse_on g 2); ERelease; ESleep 0.5;
            EAcquire; EWrite g; ERelease; ESleep 0.3]
        ++ [EAcquire; EWrite s; ERelease; ESleep 0.3]
        ++ [EAcquire; EWrite (pulse_on s z); ERelease; ESleep d;
            EAcquire; EWrite s; ERelease; ESleep 2.0; ESleep 2.0]).
Proof.
  intros Hz Hready Hr Hoff s g d.
  exact (runs_program_zone z w Hz Hready Hr Hoff).
Qed.

Lemma program_zone_timeline_witness :
  let w := power_on (Ftdi None) [] in
  0 <= 3 <= 9 /\ hardware_ready w = true /\ reliable (gpio w)
  /\ relays_off (current_state w)
  /\ writes (events (relay_control.program_zone "3" None w))
     = [65022; 64766; 65022; 64894; 65022; 65020; 65022; 65020; 65022; 65535;
        65527; 65535;
        65022; 64766; 65022; 64894; 65022; 65018; 65022; 65018; 65022; 65535;
        65527; 65535].
Proof.
  intros w.
  assert (Hoff : relays_off (current_state w)) by apply relays_off_65535.
  split; [lia|]. split; [reflexivity|]. split; [exact I|]. split; [exact Hoff|].
  etransitivity;
    [exact (runs_writes _ _ _ _ _
              (program_zone_timeline 3 w ltac:(lia) eq_refl I Hoff))
    | reflexivity].
Defined.

(** ** The play sequence *)

Lemma runs_digit_loop (mode_name : string) (gap : Q) (text : string) (w0 : World)
    (s : Z) :
  Py.startswith mode_name "Exit Prog Mode" = false ->
  string_forall is_digit text = true ->
  reliable (gpio w0) ->
  relays_off s ->
  runs (for_each (chars text) (fun digit =>
          relay_control._single_press_mode_thread mode_name digit ;; sleep gap))
       (written s w0) (Ok tt) (written s w0)
       (digit_entry_timeline (duration_spinner w0) gap s text).
Proof.
  intros Hmode Hdigits Hr Hoff. unfold digit_entry_timeline.
  induction text as [|c text IH]; [apply runs_ret|].
  cbn [string_forall] in Hdigits. apply andb_prop in Hdigits as [Hc Hrest].
  destruct (digit_key c Hc) as (p & Hp & Hpin).
  destruct (RELAY_PINS_range _ _ Hp) as [Hrange _].
  cbn [chars for_each flat_map]. rewrite Hpin.
  eapply runs_eq.
  - eapply runs_bind.
    + eapply runs_bind.
      * eapply (runs_single_press_bare mode_name (String c "") p);
          [exact Hmode | exact Hp | auto with runs].
      * cbv beta. apply runs_sleep.
    + cbv beta. cbn [current_state written set_gpio set_current_state gpio].
      rewrite written_written by exact Hr.
      rewrite pulse_off_restores by (try apply Hoff; lia).
      apply IH. exact Hrest.
  - reflexivity.
  - reflexivity.
  - cbn [current_state written set_gpio set_current_state gpio duration_spinner].
    rewrite <- !app_assoc. reflexivity.
Qed.

Lemma writes_digit_entry_timeline (d gap : Q) (s : Z) (text : string) :
  writes (digit_entry_timeline d gap s text) = digit_entry_words s text.
Proof.
  unfold digit_entry_timeline, digit_entry_words.
  induction (chars text) as [|k ks IH]; [reflexivity|].
  cbn [flat_map]. rewrite !writes_app, IH, writes_pulses_timeline.
  cbn [writes flat_map List.app]. rewrite app_nil_r. reflexivity.
Qed.

#[local] Hint Extern 1 (runs (relay_control._single_press_mode_thread "Exit Prog Mode" "8")
                          _ _ _ _) =>
  eapply runs_single_press_guarded;
  [ reflexivity | eassumption | solve [auto with runs] ] : runs.

#[local] Hint Extern 2 (runs (relay_control._single_press_mode_thread _ _) _ _ _ _) =>
  eapply runs_single_press_bare;
  [ reflexivity | eassumption | solve [auto with runs] ] : runs.

#[local] Hint Extern 1 (runs relay_control._programming_mode_thread _ _ _ _) =>
  eapply runs_programming_mode_thread; solve [auto with runs] : runs.

#[local] Hint Extern 1 (runs (relay_control._double_press_mode_thread _ _ _) _ _ _ _) =>
  eapply runs_double_press;
  [ eassumption | eassumption | solve [auto with runs] ] : runs.

#[local] Hint Extern 1 (runs (for_each (chars _) _) (written _ _) _ _ _) =>
  eapply runs_digit_loop;
  [ reflexivity | eassumption | assumption | assumption ] : runs.

Lemma runs_play_sequence (scene : Z) (channel : nat) (level_value : string)
    (w : World) :
  0 <= scene <= 9 ->
  string_forall is_digit level_value = true ->
  reliable (gpio w) ->
  relays_off (current_state w) ->
  runs (relay_control._play_scene_level_sequence_execute_sequence
          channel (Py.str scene) level_value None)
       w (Ok tt) (written (current_state w) w)
       (play_timeline (duration_spinner w) (current_state w) scene channel level_value).
Proof.
  intros Hscene Hlevel Hr Hoff. set (s := current_state w).
  pose proof (RELAY_PINS_str scene Hscene) as Hkey.
  pose proof (digits_zfill_str_nat channel) as Hch.
  pose proof (digits_zfill 2 level_value Hlevel) as Hlv.
  pose proof (RELAY_PINS_str 1 ltac:(lia)) as K1.
  pose proof (RELAY_PINS_str 2 ltac:(lia)) as K2.
  pose proof (RELAY_PINS_str 3 ltac:(lia)) as K3.
  pose proof (RELAY_PINS_str 5 ltac:(lia)) as K5.
  pose proof (RELAY_PINS_str 6 ltac:(lia)) as K6.
  pose proof (RELAY_PINS_str 7 ltac:(lia)) as K7.
  pose proof (RELAY_PINS_str 8 ltac:(lia)) as K8.
  change (Py.str 1) with "1" in K1. change (Py.str 2) with "2" in K2.
  change (Py.str 3) with "3" in K3. change (Py.str 5) with "5" in K5.
  change (Py.str 6) with "6" in K6. change (Py.str 7) with "7" in K7.
  change (Py.str 8) with "8" in K8.
  assert (He : Z.lor (pulse_off (Z.land s (Z.lnot GUARD)) 8) GUARD = s)
    by (apply (guarded_final_restores s [8] Hoff); repeat constructor; lia).
  assert (Hp : Z.lor (pulses_final (Z.land s (Z.lnot GUARD)) [2; 1; 2; 1]) GUARD = s)
    by (apply (guarded_final_restores s [2; 1; 2; 1] Hoff); repeat constructor; lia).
  assert (Hd : forall a b, 0 <= a <= 9 -> 0 <= b <= 9 ->
            Z.lor (Z.land s (Z.lnot (Z.lor (bit a) (bit b)))) (Z.lor (bit a) (bit b)) = s)
    by (intros a b Ha Hb; apply double_restores; try apply Hoff; lia).
  assert (Hs : pulse_off s scene = s)
    by (apply pulse_off_restores; [lia | apply Hoff; lia]).
  unfold relay_control._play_scene_level_sequence_execute_sequence.
  cbv zeta.
  eapply runs_eq.
  - run_chain Hr
      ltac:(fold s;
            repeat first [rewrite He | rewrite Hp | rewrite Hd by lia | rewrite Hs]).
  - reflexivity.
  - cbn [current_state written set_gpio set_current_state gpio].
    fold s.
    repeat first [rewrite He | rewrite Hp | rewrite Hd by lia | rewrite Hs].
    norm_world Hr. reflexivity.
  - unfold play_timeline, double_timeline.
    cbn [current_state written set_gpio set_current_state gpio duration_spinner].
    fold s. rewrite ?app_nil_r, <- ?app_assoc. cbn [List.app].
    reflexivity.
Qed.

Lemma writes_play_timeline (d : Q) (s scene : Z) (channel : nat) (level_value : string) :
  writes (play_timeline d s scene channel level_value)
  = play_words s scene channel level_value.
Proof.
  unfold play_timeline, play_words.
  rewrite !writes_app, !writes_digit_entry_timeline, !writes_pulses_timeline.
  unfold guardedSingle_timeline, exit_words, prog_words.
  rewrite !writes_guardedMulti_timeline. reflexivity.
Qed.



(** ** The bits above the relays *)

Lemma writes_logs (lines : list string) : writes (map ELog lines) = [].
Proof. induction lines as [|l ls IH]; simpl; auto. Qed.

(** A mask without bit above the relays. *)
Lemma relay_mask_bit (p : Z) :
  0 <= p <= 9 -> forall j, 10 <= j -> Z.testbit (Z.shiftl 1 p) j = false.
Proof.
  intros Hp j Hj. fold (bit p). rewrite bit_testbit by lia.
  apply Z.eqb_neq. lia.
Qed.

Lemma relay_mask_lor (a b : Z) :
  (forall j, 10 <= j -> Z.testbit a j = false) ->
  (forall j, 10 <= j -> Z.testbit b j = false) ->
  forall j, 10 <= j -> Z.testbit (Z.lor a b) j = false.
Proof. intros Ha Hb j Hj. rewrite Z.lor_spec, Ha, Hb by lia. reflexivity. Qed.

Lemma relay_mask_GUARD : forall j, 10 <= j -> Z.testbit GUARD j = false.
Proof.
  intros j Hj. rewrite GUARD_testbit by lia.
  destruct (Z.eqb_spec 0 j); [lia|]. destruct (Z.eqb_spec 9 j); [lia|]. reflexivity.
Qed.

Section RelayBitsOnly.

Variable s0 : Z.

Lemma bits_ret {A : Type} (a : A) : relay_bits_only s0 (ret a).
Proof. intros w Hw. split; [constructor | exact Hw]. Qed.

Lemma bits_raise {A : Type} (e : Exn) : relay_bits_only s0 (@raise A e).
Proof. intros w Hw. split; [constructor | exact Hw]. Qed.

Lemma bits_gets {A : Type} (f : World -> A) : relay_bits_only s0 (gets f).
Proof. intros w Hw. split; [constructor | exact Hw]. Qed.

Lemma bits_emit (e : Event) :
  match e with EWrite _ => False | _ => True end -> relay_bits_only s0 (emit e).
Proof. intros He w Hw. split; [|exact Hw]. destruct e; try contradiction; constructor. Qed.

Lemma bits_modify (f : World -> World) :
  (forall w, current_state (f w) = current_state w) -> relay_bits_only s0 (modify f).
Proof. intros H w Hw. split; [constructor|]. cbn. rewrite H. exact Hw. Qed.

Lemma bits_bind {A B : Type} (m : M A) (k : A -> M B) :
  relay_bits_only s0 m -> (forall a, relay_bits_only s0 (k a)) ->
  relay_bits_only s0 (bind m k).
Proof.
  intros Hm Hk w Hw. destruct (Hm w Hw) as [Hws Hf]. unfold bind.
  destruct (outcome (m w)) as [a| |]; cbn [events final]; [|split; assumption ..].
  destruct (Hk a _ Hf) as [Hws' Hf'].
  split; [rewrite writes_app; apply Forall_app; split; assumption | exact Hf'].
Qed.

Lemma bits_for_each {A : Type} (xs : list A) (body : A -> M unit) :
  (forall x, relay_bits_only s0 (body x)) -> relay_bits_only s0 (for_each xs body).
Proof.
  intros H. induction xs as [|x rest IH]; cbn [for_each].
  - apply bits_ret.
  - apply bits_bind; [apply H | intros _; exact IH].
Qed.

Lemma bits_lock {A : Type} (body : M A) :
  relay_bits_only s0 body -> relay_bits_only s0 (with_state_lock body).
Proof.
  intros H w Hw. destruct (H w Hw) as [Hws Hf]. unfold with_state_lock.
  destruct (outcome (body w)); cbn [events final]; (split; [|exact Hf]);
    change (EAcquire :: ?t) with ([EAcquire] ++ t);
    rewrite ?writes_app, ?app_nil_r; exact Hws.
Qed.

Lemma bits_spawn (body : M unit) : relay_bits_only s0 body -> relay_bits_only s0 (spawn body).
Proof. intros H w Hw. apply (H w Hw). Qed.

Lemma bits_sleep (d : Q) : relay_bits_only s0 (sleep d).
Proof. apply bits_emit. exact I. Qed.

Lemma bits_global_log (line : string) : relay_bits_only s0 (global_log line).
Proof. apply bits_emit. exact I. Qed.

Lemma bits_sim_log (message : string) : relay_bits_only s0 (relay_control.sim_log message).
Proof.
  unfold relay_control.sim_log. apply bits_bind; [apply bits_gets|].
  intros []; apply bits_global_log.
Qed.

Lemma bits_setEnabled (c : Control) (on : bool) : relay_bits_only s0 (setEnabled c on).
Proof.
  unfold setEnabled. apply bits_bind; [apply bits_modify; reflexivity|].
  intros _. apply bits_emit. exact I.
Qed.

(** The only write of the program: the relay word itself. *)
Lemma bits_write_state : relay_bits_only s0 relay_control.write_state.
Proof.
  intros w Hw. unfold relay_control.write_state, relay_control.gpio_write, bind, gets.
  cbn [outcome final events].
  destruct (gpio w) as [cur|[[|n]|]]; cbn [outcome final events List.app];
    rewrite ?writes_app, ?writes_logs; cbn [List.app writes flat_map];
    (split; [repeat constructor; exact Hw | exact Hw]).
Qed.

Lemma bits_state_and_not (mask : Z) :
  (forall j, 10 <= j -> Z.testbit mask j = false) ->
  relay_bits_only s0 (relay_control.state_and_not mask).
Proof.
  intros Hmask w Hw. split; [constructor|]. cbn. intros j Hj.
  rewrite Z.land_spec, Z.lnot_spec, Hmask, Hw by lia. apply andb_true_r.
Qed.

Lemma bits_state_or (mask : Z) :
  (forall j, 10 <= j -> Z.testbit mask j = false) ->
  relay_bits_only s0 (relay_control.state_or mask).
Proof.
  intros Hmask w Hw. split; [constructor|]. cbn. intros j Hj.
  rewrite Z.lor_spec, Hmask, Hw by lia. apply orb_false_r.
Qed.

(** A pin read from [RELAY_PINS] is one of the ten relays. *)
Lemma bits_bind_pin {B : Type} (key : string) (k : Z -> M B) :
  (forall pin, 0 <= pin <= 9 -> relay_bits_only s0 (k pin)) ->
  relay_bits_only s0 (bind (relay_control.RELAY_PINS_at key) k).
Proof.
  intros Hk w Hw. unfold relay_control.RELAY_PINS_at.
  destruct (Py.dict_get relay_control.RELAY_PINS key) as [pin|] eqn:E.
  - rewrite (bind_pure _ _ pin w eq_refl).
    apply Hk; [apply (RELAY_PINS_range _ _ E) | exact Hw].
  - split; [constructor | exact Hw].
Qed.

End RelayBitsOnly.

Create HintDb bits.

#[local] Hint Resolve relay_mask_bit relay_mask_lor relay_mask_GUARD : bits.
#[local] Hint Extern 1 (relay_bits_only _ (ret _)) => apply bits_ret : bits.
#[local] Hint Extern 1 (relay_bits_only _ (raise _)) => apply bits_raise : bits.
#[local] Hint Extern 1 (relay_bits_only _ (gets _)) => apply bits_gets : bits.
#[local] Hint Extern 1 (relay_bits_only _ (sleep _)) => apply bits_sleep : bits.
#[local] Hint Extern 1 (relay_bits_only _ (global_log _)) => apply bits_global_log : bits.
#[local] Hint Extern 1 (relay_bits_only _ (relay_control.sim_log _)) =>
  apply bits_sim_log : bits.
#[local] Hint Extern 1 (relay_bits_only _ (setEnabled _ _)) => apply bits_setEnabled : bits.
#[local] Hint Extern 1 (relay_bits_only _ relay_control.write_state) =>
  apply bits_write_state : bits.
#[local] Hint Extern 1 (relay_bits_only _ (emit _)) => apply bits_emit; exact I : bits.
#[local] Hint Extern 1 (relay_bits_only _ (modify _)) =>
  apply bits_modify; reflexivity : bits.
#[local] Hint Extern 1 (relay_bits_only _ (relay_control.state_and_not _)) =>
  apply bits_state_and_not; auto with bits : bits.
#[local] Hint Extern 1 (relay_bits_only _ (relay_control.state_or _)) =>
  apply bits_state_or; auto with bits : bits.

(** Go through the binds, loops and locks of an operation. *)
Ltac bits_tac :=
  repeat lazymatch goal with
         | |- relay_bits_only _ (bind (relay_control.RELAY_PINS_at _) _) =>
             apply bits_bind_pin; intros ? ?
         | |- relay_bits_only _ (bind _ _) => apply bits_bind; [|intros ?]
         | |- relay_bits_only _ (for_each _ _) => apply bits_for_each; intros ?
         | |- relay_bits_only _ (with_state_lock _) => apply bits_lock
         | |- relay_bits_only _ (spawn _) => apply bits_spawn
         | |- relay_bits_only _ (if ?b then _ else _) => destruct b
         | |- relay_bits_only _ (match ?o with Some _ => _ | None => _ end) =>
             destruct o
         | |- relay_bits_only _ _ => solve [auto with bits]
         end.

Lemma bits_guard_on (s0 : Z) : relay_bits_only s0 relay_control.guard_on.
Proof.
  unfold relay_control.guard_on. apply bits_lock. intros w Hw.
  rewrite (bind_pure _ _ GUARD w eq_refl). revert w Hw.
  change (relay_bits_only s0 (relay_control.state_and_not GUARD ;;
                              relay_control.write_state)).
  bits_tac.
Qed.

Lemma bits_guard_off (s0 : Z) : relay_bits_only s0 relay_control.guard_off.
Proof.
  unfold relay_control.guard_off. apply bits_lock. intros w Hw.
  rewrite (bind_pure _ _ GUARD w eq_refl). revert w Hw.
  change (relay_bits_only s0 (relay_control.state_or GUARD ;;
                              relay_control.write_state)).
  bits_tac.
Qed.

Lemma bits_press (s0 : Z) (mode_name relay : string) (hold : M Q) :
  relay_bits_only s0 hold ->
  relay_bits_only s0 (relay_control.press mode_name relay hold).
Proof. intros H. unfold relay_control.press. bits_tac. Qed.

#[local] Hint Extern 1 (relay_bits_only _ relay_control.guard_on) =>
  apply bits_guard_on : bits.
#[local] Hint Extern 1 (relay_bits_only _ relay_control.guard_off) =>
  apply bits_guard_off : bits.
#[local] Hint Extern 1 (relay_bits_only _ (relay_control.press _ _ _)) =>
  apply bits_press; unfold relay_control.configured; auto with bits : bits.

Lemma bits_programming_mode_thread (s0 : Z) :
  relay_bits_only s0 relay_control._programming_mode_thread.
Proof. unfold relay_control._programming_mode_thread. bits_tac. Qed.

Lemma bits_single_press (s0 : Z) (mode_name relay_key : string) :
  relay_bits_only s0 (relay_control._single_press_mode_thread mode_name relay_key).
Proof. unfold relay_control._single_press_mode_thread. bits_tac. Qed.

Lemma bits_double_press (s0 : Z) (mode_name k1 k2 : string) :
  relay_bits_only s0 (relay_control._double_press_mode_thread mode_name k1 k2).
Proof.
  unfold relay_control._double_press_mode_thread, relay_control.configured. bits_tac.
Qed.

#[local] Hint Extern 1 (relay_bits_only _ relay_control._programming_mode_thread) =>
  apply bits_programming_mode_thread : bits.
#[local] Hint Extern 1 (relay_bits_only _ (relay_control._single_press_mode_thread _ _)) =>
  apply bits_single_press : bits.
#[local] Hint Extern 1 (relay_bits_only _ (relay_control._double_press_mode_thread _ _ _)) =>
  apply bits_double_press : bits.

Lemma bits_program_zone (s0 : Z) (target : string) (cb : option (M unit)) :
  (forall callback, cb = Some callback -> relay_bits_only s0 callback) ->
  relay_bits_only s0 (relay_control.program_zone target cb).
Proof.
  intros Hcb.
  assert (Hwait : relay_bits_only s0
                    match cb with Some callback => callback | None => ret tt end).
  { destruct cb; [apply Hcb; reflexivity | apply bits_ret]. }
  unfold relay_control.program_zone, relay_control._show_error_slot. bits_tac.
Qed.

(** The debug checkpoint and the operator's clicks write nothing. *)
Lemma bits_ui_handler (s0 : Z) (a : UiAction) :
  relay_bits_only s0 (levels_sheet_page.ui_handler a).
Proof.
  destruct a; unfold levels_sheet_page.ui_handler, levels_sheet_page.on_next_step,
    levels_sheet_page.toggle_debug_mode, levels_sheet_page.step_ready_set;
    bits_tac.
Qed.

Lemma bits_step_ready_wait_from (s0 : Z) (pending : list UiAction) :
  relay_bits_only s0 (levels_sheet_page.step_ready_wait_from pending).
Proof.
  induction pending as [|a rest IH]; intros w Hw;
    cbn [levels_sheet_page.step_ready_wait_from].
  - destruct (step_ready w); (split; [constructor | exact Hw]).
  - destruct (step_ready w); [split; [constructor | exact Hw]|].
    apply (bits_bind s0 _ _ (bits_ui_handler s0 a) (fun _ => IH)), Hw.
Qed.

Lemma bits_wait_for_next_step (s0 : Z) :
  relay_bits_only s0 levels_sheet_page.wait_for_next_step.
Proof.
  intros w Hw. unfold levels_sheet_page.wait_for_next_step.
  destruct (debug_mode w); [|split; [constructor | exact Hw]].
  revert w Hw.
  change (relay_bits_only s0 (global_log "Waiting for Next Step button..." ;;
                              levels_sheet_page.step_ready_clear ;;
                              levels_sheet_page.step_ready_wait)).
  unfold levels_sheet_page.step_ready_clear, levels_sheet_page.step_ready_wait.
  bits_tac. apply bits_step_ready_wait_from.
Qed.

#[local] Hint Extern 1 (relay_bits_only _ levels_sheet_page.wait_for_next_step) =>
  apply bits_wait_for_next_step : bits.

Lemma bits_collect_channels (s0 : Z) (scene_digit target : string)
    (xs : list (nat * Row)) :
  forall acc,
  relay_bits_only s0 (levels_sheet_page.collect_channels scene_digit target xs acc).
Proof.
  induction xs as [|[idx row] rest IH]; intros acc;
    cbn [levels_sheet_page.collect_channels].
  - apply bits_ret.
  - unfold levels_sheet_page.int_of, levels_sheet_page.scene_value.
    destruct (String.eqb (zone row) target); [|apply IH].
    apply bits_bind.
    + destruct (String.eqb scene_digit "0"); [apply bits_ret|].
      destruct (Py.int scene_digit); bits_tac.
    + intros scene_index. apply bits_bind; [|intros v; apply IH].
      destruct (Py.list_at (scenes row) scene_index); bits_tac.
Qed.

Lemma bits_program_channel (s0 : Z) (scene_digit target : string)
    (entry : nat * string) :
  relay_bits_only s0 (levels_sheet_page.program_channel scene_digit target entry).
Proof.
  destruct entry as [idx level_value].
  unfold levels_sheet_page.program_channel. cbv zeta. bits_tac.
Qed.

Lemma bits_allocate_row (s0 : Z) (target : string) (entry : nat * Row) :
  relay_bits_only s0 (levels_sheet_page.allocate_row target entry).
Proof.
  destruct entry as [idx row].
  unfold levels_sheet_page.allocate_row. cbv zeta. bits_tac.
Qed.

Lemma bits_program_zone_checkpointed (s0 : Z) (target : string) (debugging : bool) :
  relay_bits_only s0
    (relay_control.program_zone target
       (if debugging then Some levels_sheet_page.wait_for_next_step else None)).
Proof.
  apply bits_program_zone. intros callback H.
  destruct debugging; [|discriminate]. injection H as <-.
  apply bits_wait_for_next_step.
Qed.

#[local] Hint Extern 1 (relay_bits_only _ (levels_sheet_page.collect_channels _ _ _ _)) =>
  apply bits_collect_channels : bits.
#[local] Hint Extern 1 (relay_bits_only _ (levels_sheet_page.program_channel _ _ _)) =>
  apply bits_program_channel : bits.
#[local] Hint Extern 1 (relay_bits_only _ (levels_sheet_page.allocate_row _ _)) =>
  apply bits_allocate_row : bits.
#[local] Hint Extern 1 (relay_bits_only _ (relay_control.program_zone _ _)) =>
  apply bits_program_zone_checkpointed : bits.

(** X12. The three composite sequences (programming a scene for a zone,
    allocating the channels to a zone, playing one cell) only ever drive
    the ten relay bits: every word they write has the GPIO bits 10 and
    above exactly as they were in the relay word at the start. This holds
    for every world, every table and every argument, and however the run
    ends: returned, ended by an exception, or left suspended at a debug
    checkpoint. *)
Theorem sequences_keep_upper_bits (scene_digit target level_value : string)
    (channel : nat) (w : World) :
  let s := current_state w in
  let program :=
    levels_sheet_page.program_scene_levels_sequence scene_digit target w in
  let allocate :=
    levels_sheet_page.allocate_to_zones_sequence_execute_sequence target w in
  let play :=
    relay_control._play_scene_level_sequence_execute_sequence
      channel scene_digit level_value None w in
  Forall (upper_kept s) (writes (events program))
  /\ Forall (upper_kept s) (writes (events allocate))
  /\ Forall (upper_kept s) (writes (events play)).
Proof.
  intros s program allocate play.
  assert (Hs : upper_kept s (current_state w)) by (intros j _; reflexivity).
  assert (Hprogram : relay_bits_only s
            (levels_sheet_page.program_scene_levels_sequence scene_digit target)).
  { unfold levels_sheet_page.program_scene_levels_sequence. bits_tac. }
  assert (Hallocate : relay_bits_only s
            (levels_sheet_page.allocate_to_zones_sequence_execute_sequence target)).
  { unfold levels_sheet_page.allocate_to_zones_sequence_execute_sequence. bits_tac. }
  assert (Hplay : relay_bits_only s
            (relay_control._play_scene_level_sequence_execute_sequence
               channel scene_digit level_value None)).
  { unfold relay_control._play_scene_level_sequence_execute_sequence. cbv zeta.
    bits_tac. }
  split; [apply (Hprogram w Hs) | split; [apply (Hallocate w Hs) | apply (Hplay w Hs)]].
Qed.

(** A run of the programming sequence that does not return: in debug mode,
    with no click to come, it stays suspended at the first checkpoint,
    after the four writes of Exit-Programming-Mode. *)
Example suspended_at_first_checkpoint :
  let w := mkWorld 65535 true 0.5%Q (Ftdi None) [default_row] "" ""
                   true false (fun _ => true) "Debug Mode: ON" [] in
  let r := levels_sheet_page.program_scene_levels_sequence "1" "1" w in
  outcome r = Blocked
  /\ map relays_on (writes (events r)) = [[0; 9]; [0; 8; 9]; [0; 9]; []].
Proof. intros w r. split; vm_compute; reflexivity. Qed.

Lemma Forall_flat_map {A B : Type} (P : B -> Prop) (f : A -> list B) (l : list A) :
  (forall x, Forall P (f x)) -> Forall P (flat_map f l).
Proof.
  intros H. induction l as [|x l IH]; [constructor|].
  cbn [flat_map]. apply Forall_app. auto.
Qed.

(** ** Gui.py: the Tkinter front-end against the PyQt one *)

Lemma runs_Gui_double_press (mode_name k1 k2 : string) (a b : Z) (w : World) :
  Py.dict_get relay_control.RELAY_PINS k1 = Some a ->
  Py.dict_get relay_control.RELAY_PINS k2 = Some b ->
  (0 <= duration_spinner w)%Q ->
  reliable (gpio w) ->
  let both := Z.lor (bit a) (bit b) in
  let on := Z.land (current_state w) (Z.lnot both) in
  runs (Gui._double_press_mode_thread mode_name k1 k2) w (Ok tt)
       (written (Z.lor on both) w)
       [EAcquire; EWrite on; ERelease; ESleep (duration_spinner w);
        EAcquire; EWrite (Z.lor on both); ERelease].
Proof.
  intros Ha Hb Hd Hr both on. unfold Gui._double_press_mode_thread, Gui.log.
  change Gui.RELAY_PINS_at with relay_control.RELAY_PINS_at.
  change Gui.state_and_not with relay_control.state_and_not.
  change Gui.state_or with relay_control.state_or.
  change Gui.write_state with relay_control.write_state.
  change Gui.configured with relay_control.configured.
  eapply runs_eq; [run_step | try reflexivity ..].
  fold (written (Z.land (current_state w) (Z.lnot (Z.lor (Z.shiftl 1 a) (Z.shiftl 1 b)))) w).
  norm_world Hr. reflexivity.
Qed.

Lemma runs_Gui_toggle_relay_thread (key : string) (pin : Z) (w : World) :
  Py.dict_get relay_control.RELAY_PINS key = Some pin ->
  (0 <= duration_spinner w)%Q ->
  reliable (gpio w) ->
  let s := current_state w in
  runs (Gui._toggle_relay_thread key) w (Ok tt)
       (written (pulse_off s pin) w)
       [EAcquire; EWrite (pulse_on s pin); ERelease;
        ESleep (duration_spinner w);
        EAcquire; EWrite (pulse_off s pin); ERelease].
Proof.
  intros Hpin Hd Hr s. unfold Gui._toggle_relay_thread, Gui.log.
  change Gui.RELAY_PINS_at with relay_control.RELAY_PINS_at.
  change Gui.state_and_not with relay_control.state_and_not.
  change Gui.state_or with relay_control.state_or.
  change Gui.write_state with relay_control.write_state.
  change Gui.configured with relay_control.configured.
  run_with Hr.
Qed.



Lemma guarded_single_restores (s z : Z) :
  relays_off s -> 0 <= z <= 9 ->
  Z.lor (pulse_off (Z.land s (Z.lnot GUARD)) z) GUARD = s.
Proof.
  intros Hoff Hz. apply Z.bits_inj'. intros j Hj.
  unfold pulse_off, pulse_on.
  rewrite Z.lor_spec, set_bit_testbit, clear_bit_testbit, Z.land_spec, Z.lnot_spec,
    GUARD_testbit by lia.
  destruct (Z.eqb_spec 0 j) as [<-|]; [rewrite Hoff by lia; apply orb_true_r|].
  destruct (Z.eqb_spec 9 j) as [<-|]; [rewrite Hoff by lia; apply orb_true_r|].
  destruct (Z.eqb_spec z j) as [<-|]; cbn [negb orb andb].
  - rewrite Hoff by lia. rewrite andb_false_r. reflexivity.
  - rewrite !andb_true_r, !orb_false_r. reflexivity.
Qed.

Lemma relays_on_guarded (s z : Z) :
  relays_off s -> 0 <= z <= 9 ->
  let g := Z.land s (Z.lnot GUARD) in
  relays_on (pulse_on g z)
  = filter (fun j => (0 =? j) || (9 =? j) || (z =? j))%bool (Py.range 10)
  /\ relays_on (pulse_off g z)
     = filter (fun j => ((0 =? j) || (9 =? j)) && negb (z =? j))%bool (Py.range 10).
Proof.
  intros Hoff Hz g. unfold relays_on. split; apply filter_ext_in; intros j Hj.
  - assert (Hj' : 0 <= j <= 9).
    { unfold Py.range in Hj. apply in_map_iff in Hj as (k & <- & Hk).
      apply in_seq in Hk. lia. }
    unfold pulse_on, g.
    rewrite clear_bit_testbit, Z.land_spec, Z.lnot_spec, GUARD_testbit by lia.
    rewrite Hoff by lia.
    destruct (0 =? j), (9 =? j), (z =? j); reflexivity.
  - assert (Hj' : 0 <= j <= 9).
    { unfold Py.range in Hj. apply in_map_iff in Hj as (k & <- & Hk).
      apply in_seq in Hk. lia. }
    unfold pulse_off, pulse_on, g.
    rewrite set_bit_testbit, clear_bit_testbit, Z.land_spec, Z.lnot_spec,
      GUARD_testbit by lia.
    rewrite Hoff by lia.
    destruct (0 =? j), (9 =? j), (z =? j); reflexivity.
Qed.



Lemma runs_Gui_zone_press (mode_name relay : string) (pin : Z) (w : World) :
  Py.dict_get relay_control.RELAY_PINS relay = Some pin ->
  reliable (gpio w) ->
  let s := current_state w in
  runs (Gui.zone_press mode_name relay) w (Ok tt)
       (written (pulse_off s pin) w)
       [EAcquire; EWrite (pulse_on s pin); ERelease;
        ESleep 0.5;
        EAcquire; EWrite (pulse_off s pin); ERelease].
Proof.
  intros Hpin Hr s. unfold Gui.zone_press, Gui.log.
  change Gui.RELAY_PINS_at with relay_control.RELAY_PINS_at.
  change Gui.state_and_not with relay_control.state_and_not.
  change Gui.state_or with relay_control.state_or.
  change Gui.write_state with relay_control.write_state.
  run_with Hr.
Qed.

Lemma runs_Gui_zone_loop (mode_name : string) (sequence : list string)
    (pins : list Z) (w0 : World) :
  Forall2 (fun k p => Py.dict_get relay_control.RELAY_PINS k = Some p) sequence pins ->
  reliable (gpio w0) ->
  forall s,
  runs (for_each sequence (fun relay => Gui.zone_press mode_name relay ;; sleep 0.3))
       (written s w0) (Ok tt) (written (pulses_final s pins) w0)
       (pulses_timeline 0.5 0.3 s pins).
Proof.
  intros Hkeys Hr.
  induction Hkeys as [|k p ks ps Hk _ IH]; intros s.
  - apply runs_ret.
  - cbn [for_each pulses_final pulses_timeline].
    eapply runs_eq.
    + eapply runs_bind.
      * eapply runs_bind.
        -- eapply (runs_Gui_zone_press mode_name k p); [exact Hk | auto with runs].
        -- cbv beta. apply runs_sleep.
      * cbv beta. cbn [current_state written set_gpio set_current_state gpio].
        rewrite written_written by exact Hr.
        apply IH.
    + reflexivity.
    + reflexivity.
    + cbn [current_state written set_gpio set_current_state gpio].
      rewrite <- !app_assoc. reflexivity.
Qed.

#[local] Hint Extern 1 (runs (for_each _ (fun relay => Gui.zone_press _ relay ;; _))
                          (written _ _) _ _ _) =>
  eapply runs_Gui_zone_loop; [ eassumption | assumption ] : runs.

#[local] Hint Extern 1 (runs (Gui._single_press_mode_thread _ _) _ _ _ _) =>
  eapply runs_Gui_single_press;
  [ eassumption
  | cbn [duration_spinner written set_gpio set_current_state]; assumption
  | solve [auto with runs] ] : runs.

Lemma guard_on_idempotent (s : Z) :
  Z.land (Z.land s (Z.lnot GUARD)) (Z.lnot GUARD) = Z.land s (Z.lnot GUARD).
Proof. rewrite <- Z.land_assoc, Z.land_diag. reflexivity. Qed.

Lemma guard_off_idle (s : Z) : relays_off s -> Z.lor s GUARD = s.
Proof.
  intros Hoff. apply Z.bits_inj'. intros j Hj.
  rewrite Z.lor_spec, GUARD_testbit by lia.
  destruct (Z.eqb_spec 0 j) as [<-|]; [rewrite Hoff by lia; reflexivity|].
  destruct (Z.eqb_spec 9 j) as [<-|]; [rewrite Hoff by lia; reflexivity|].
  apply orb_false_r.
Qed.



(** ** The key handler of the Tkinter front-end *)

Lemma contains_digits_only (c : ascii) :
  Py.contains "0123456789" (String c "") = is_digit c.
Proof. destruct c as [[] [] [] [] [] [] [] []]; reflexivity. Qed.



(** ** A negative duration in the Tkinter front-end *)

Lemma runs_time_sleep_negative (d : Q) (w : World) :
  (d < 0)%Q ->
  runs (time_sleep d) w (Raise (ValueError "sleep length must be non-negative")) w [].
Proof.
  intros Hd. unfold time_sleep. destruct (Qle_bool 0 d) eqn:E; [|apply runs_raise].
  apply Qle_bool_iff in E. exfalso. exact (Qlt_not_le _ _ Hd E).
Qed.

Lemma runs_Gui_press_negative (mode_name relay : string) (pin : Z) (w : World) :
  Py.dict_get relay_control.RELAY_PINS relay = Some pin ->
  (duration_spinner w < 0)%Q ->
  reliable (gpio w) ->
  let s := current_state w in
  runs (Gui.press mode_name relay) w
       (Raise (ValueError "sleep length must be non-negative"))
       (written (pulse_on s pin) w)
       [EAcquire; EWrite (pulse_on s pin); ERelease].
Proof.
  intros Hpin Hd Hr s. unfold Gui.press, Gui.log.
  change Gui.RELAY_PINS_at with relay_control.RELAY_PINS_at.
  change Gui.state_and_not with relay_control.state_and_not.
  change Gui.write_state with relay_control.write_state.
  change Gui.configured with relay_control.configured.
  eapply runs_eq.
  - eapply runs_bind; [apply runs_RELAY_PINS_at, Hpin|]. cbv beta zeta.
    eapply runs_bind; [apply runs_global_log|]. cbv beta.
    eapply runs_bind; [apply runs_state_and_not_write, Hr|]. cbv beta.
    eapply runs_bind; [apply runs_configured|]. cbv beta.
    apply runs_bind_raise, runs_time_sleep_negative. exact Hd.
  - reflexivity.
  - reflexivity.
  - reflexivity.
Qed.



(** ** The CSV import *)

Lemma rstrip_cons (c : ascii) (rest : string) :
  Py.rstrip (String c rest)
  = match Py.rstrip rest with
    | EmptyString => if Py.isspace c then EmptyString else String c EmptyString
    | kept => String c kept
    end.
Proof. reflexivity. Qed.

Lemma rstrip_idempotent (s : string) : Py.rstrip (Py.rstrip s) = Py.rstrip s.
Proof.
  induction s as [|c s IH]; [reflexivity|].
  rewrite rstrip_cons. destruct (Py.rstrip s) as [|a k] eqn:E.
  - destruct (Py.isspace c) eqn:Hc; [reflexivity|].
    rewrite rstrip_cons. cbn [Py.rstrip]. rewrite Hc. reflexivity.
  - rewrite rstrip_cons, IH. reflexivity.
Qed.

Lemma lstrip_rstrip (c : ascii) (rest : string) :
  Py.isspace c = false ->
  Py.lstrip (Py.rstrip (String c rest)) = Py.rstrip (String c rest).
Proof.
  intros Hc. rewrite rstrip_cons.
  destruct (Py.rstrip rest); rewrite ?Hc; cbn [Py.lstrip]; rewrite Hc; reflexivity.
Qed.

Lemma strip_idempotent (s : string) : Py.strip (Py.strip s) = Py.strip s.
Proof.
  unfold Py.strip. destruct (Py.lstrip s) as [|c rest] eqn:E; [reflexivity|].
  rewrite (lstrip_rstrip c rest (lstrip_head s c rest E)).
  apply rstrip_idempotent.
Qed.

Lemma parse_csv_rows_well_formed (lines : list string) :
  Forall well_formed_entry (levels_sheet_page.parse_csv_rows lines).
Proof.
  unfold levels_sheet_page.parse_csv_rows. apply Forall_flat_map. intros line.
  cbv zeta.
  assert (Hcells : Forall stripped (map Py.strip (Py.split "," line))).
  { apply Forall_map. apply Forall_forall. intros x _. apply strip_idempotent. }
  revert Hcells. generalize (map Py.strip (Py.split "," line)) as cells.
  intros cells Hcells.
  destruct (List.length cells <? 15)%nat eqn:Hlen; [constructor|].
  apply Nat.ltb_ge in Hlen.
  destruct cells as [|c0 [|c1 [|c2 [|c3 [|c4 more]]]]]; try constructor; [|constructor].
  repeat match goal with
         | H : Forall stripped (_ :: _) |- _ =>
             let Hx := fresh "Hx" in
             inversion H as [|? ? Hx ?]; subst; clear H
         end.
  unfold well_formed_entry. cbn [levels_sheet_page.channel
    levels_sheet_page.entry_zone levels_sheet_page.dimRef
    levels_sheet_page.entry_name levels_sheet_page.entry_type
    levels_sheet_page.entry_scenes].
  repeat (split; [assumption|]).
  unfold Py.slice. cbn [skipn Nat.sub]. cbn [List.length] in Hlen.
  split.
  - rewrite length_firstn. lia.
  - match goal with
    | H : Forall stripped more |- _ =>
        rewrite <- (firstn_skipn 10 more) in H; apply Forall_app in H; apply H
    end.
Qed.

(** X17. Whatever text it is given, when [parse_csv] accepts it the result
    is well formed: the site name and the date have no blank at either
    end, and every returned row has its five texts stripped and exactly
    ten scene cells, each stripped: no returned row is short of a scene
    cell and none carries more than ten. *)
Theorem parse_csv_well_formed (csv_text : string) (parsed : levels_sheet_page.Parsed) :
  levels_sheet_page.parse_csv csv_text = inr parsed ->
  stripped (levels_sheet_page.siteName parsed)
  /\ stripped (levels_sheet_page.siteDate parsed)
  /\ Forall well_formed_entry (levels_sheet_page.parsed_rows parsed).
Proof.
  unfold levels_sheet_page.parse_csv. cbv zeta.
  destruct (_ <? 4)%nat; [discriminate|].
  destruct (nth_error _ 1) as [name_cell|]; [|discriminate].
  destruct (nth_error _ 1) as [date_cell|]; [|discriminate].
  intros [= <-]. cbn [levels_sheet_page.siteName levels_sheet_page.siteDate
                      levels_sheet_page.parsed_rows].
  split; [apply strip_idempotent|]. split; [apply strip_idempotent|].
  apply parse_csv_rows_well_formed.
Qed.

Lemma parse_csv_well_formed_witness :
  let row := mkRow "2" "D1" " Hall " "Dimmed" [90; 70; 50; 30; 99; 99; 99; 99; 99; 0]%nat in
  let w := mkWorld 65535 true 0.5%Q (Ftdi None) [row] " Tiger House" "2024-05-01"
                   false false (fun _ => true) "Debug Mode: OFF" [] in
  exists parsed,
    levels_sheet_page.parse_csv (levels_sheet_page.generate_csv_data w) = inr parsed
    /\ Forall well_formed_entry (levels_sheet_page.parsed_rows parsed).
Proof.
  intros row w. eexists. split; [vm_compute; reflexivity|].
  refine (proj2 (proj2 (parse_csv_well_formed
                          (levels_sheet_page.generate_csv_data w) _ _))).
  vm_compute. reflexivity.
Defined.

Lemma string_forall_lstrip (P : ascii -> bool) (s : string) :
  string_forall P s = true -> string_forall P (Py.lstrip s) = true.
Proof.
  induction s as [|c s IH]; [auto|]. intros H. cbn [Py.lstrip].
  destruct (Py.isspace c); [|exact H].
  cbn [string_forall] in H. apply andb_prop in H as [_ H]. auto.
Qed.

Lemma string_forall_rstrip (P : ascii -> bool) (s : string) :
  string_forall P s = true -> string_forall P (Py.rstrip s) = true.
Proof.
  induction s as [|c s IH]; [auto|]. intros H.
  cbn [string_forall] in H. apply andb_prop in H as [Hc H].
  rewrite rstrip_cons. specialize (IH H).
  destruct (Py.rstrip s).
  - destruct (Py.isspace c); [reflexivity|]. cbn [string_forall].
    rewrite Hc. reflexivity.
  - cbn [string_forall] in *. rewrite Hc, IH. reflexivity.
Qed.

Lemma single_line_strip (s : string) : single_line s -> single_line (Py.strip s).
Proof.
  intros H. unfold single_line, Py.strip.
  apply string_forall_rstrip, string_forall_lstrip, H.
Qed.

(** X18. The export of an empty table cannot be imported again: with no
    row in the table (and a site name and date that hold no line break),
    [generate_csv_data] gives only its three header lines, and [parse_csv]
    rejects that text with the error "CSV does not have enough lines.". *)
Theorem empty_table_export_rejected (w : World) :
  rows w = [] ->
  single_line (site_name_entry w) ->
  single_line (date_entry w) ->
  levels_sheet_page.parse_csv (levels_sheet_page.generate_csv_data w)
  = inl (ValueError "CSV does not have enough lines.").
Proof.
  intros Hrows Hsite Hdate.
  unfold levels_sheet_page.generate_csv_data, levels_sheet_page.parse_csv,
    levels_sheet_page.read_table_data.
  cbv zeta. rewrite Hrows. cbn [enumerate_from map List.app].
  set (l1 := Py.join "," (["Site Name:"; Py.strip (site_name_entry w)] ++ repeat "" 13)).
  set (l2 := Py.join "," (["Date:"; Py.strip (date_entry w)] ++ repeat "" 13)).
  set (l3 := Py.join "," (["Channel"; "Zone"; "Dim Ref"; "Name"; "Type"]
                          ++ levels_sheet_page.scene_labels)).
  assert (Hgood : Forall (fun l => single_line l /\ string_forall Py.isspace l = false)
                         [l1; l2; l3]).
  { constructor; [|constructor; [|constructor; [|constructor]]].
    - split; [|apply visible_join]. apply single_line_join. cbn [repeat List.app].
      repeat (constructor; [first [apply single_line_strip, Hsite | reflexivity]|]).
      constructor.
    - split; [|apply visible_join]. apply single_line_join. cbn [repeat List.app].
      repeat (constructor; [first [apply single_line_strip, Hdate | reflexivity]|]).
      constructor.
    - split; vm_compute; reflexivity. }
  rewrite splitlines_join.
  2: discriminate.
  2: { eapply Forall_impl; [|exact Hgood]. intros l [Hl Hv].
       split; [exact Hl | apply visible_nonempty, Hv]. }
  rewrite filter_all.
  2: { eapply Forall_impl; [|exact Hgood]. intros l [_ Hv].
       rewrite (strip_visible l Hv). reflexivity. }
  reflexivity.
Qed.

Lemma empty_table_export_rejected_witness :
  let w := mkWorld 65535 true 0.5%Q (Ftdi None) [] "Tiger House" "2024-05-01"
                   false false (fun _ => true) "Debug Mode: OFF" [] in
  rows w = [] /\ single_line (site_name_entry w) /\ single_line (date_entry w)
  /\ levels_sheet_page.parse_csv (levels_sheet_page.generate_csv_data w)
     = inl (ValueError "CSV does not have enough lines.").
Proof.
  intros w. split; [reflexivity|]. split; [reflexivity|]. split; [reflexivity|].
  exact (empty_table_export_rejected w eq_refl eq_refl eq_refl).
Defined.

(** ** Reading the table *)

Lemma format_02d_round_trip (v : nat) :
  (v <= 99)%nat ->
  Py.int (Py.format_02d (Z.of_nat v)) = Some (Z.of_nat v)
  /\ String.length (Py.format_02d (Z.of_nat v)) = 2%nat.
Proof.
  intros H.
  do 100 (destruct v as [|v]; [split; vm_compute; reflexivity|]).
  lia.
Qed.

Lemma enumerate_from_fst {A : Type} (xs : list A) (start : nat) :
  map fst (enumerate_from start xs) = seq start (List.length xs).
Proof.
  revert start. induction xs as [|x xs IH]; intros start; [reflexivity|].
  cbn [enumerate_from map fst List.length seq]. rewrite IH. reflexivity.
Qed.

Lemma read_entries_from (table : list Row) (start : nat) :
  Forall (fun row => Forall (fun v => (v <= 99)%nat) (scenes row)) table ->
  Forall2 (fun e row =>
       levels_sheet_page.entry_zone e = zone row
       /\ levels_sheet_page.dimRef e = dim_ref row
       /\ levels_sheet_page.entry_name e = name row
       /\ levels_sheet_page.entry_type e = type row
       /\ map Py.int (levels_sheet_page.entry_scenes e)
          = map (fun v => Some (Z.of_nat v)) (scenes row)
       /\ Forall (fun text => String.length text = 2%nat)
                 (levels_sheet_page.entry_scenes e))
    (map (fun '(idx, row) =>
            levels_sheet_page.mkEntry idx (zone row) (dim_ref row) (name row) (type row)
              (map (fun spin => Py.format_02d (Z.of_nat spin)) (scenes row)))
         (enumerate_from start table))
    table.
Proof.
  intros Hrows. revert start.
  induction Hrows as [|row table Hrow _ IH]; intros start; [constructor|].
  cbn [enumerate_from map]. constructor; [|apply IH].
  cbn [levels_sheet_page.entry_zone levels_sheet_page.dimRef
       levels_sheet_page.entry_name levels_sheet_page.entry_type
       levels_sheet_page.entry_scenes].
  repeat (split; [reflexivity|]). split.
  - rewrite map_map. apply map_ext_in. intros v Hv.
    rewrite Forall_forall in Hrow. apply format_02d_round_trip, Hrow, Hv.
  - apply Forall_map. eapply Forall_impl; [|exact Hrow].
    intros v Hv. apply format_02d_round_trip, Hv.
Qed.

(** X19. [read_table_data] numbers the rows 1, 2, 3, ... in table order,
    and it renders every spin value 0..99 as a text of exactly two
    characters that [int] reads back as the same value; zone, dim ref,
    name and type are passed on as they are. *)
Theorem read_table_data_entries (w : World) :
  Forall (fun row => Forall (fun v => (v <= 99)%nat) (scenes row)) (rows w) ->
  map levels_sheet_page.channel (levels_sheet_page.read_table_data w)
  = seq 1 (List.length (rows w))
  /\ Forall2 (fun e row =>
       levels_sheet_page.entry_zone e = zone row
       /\ levels_sheet_page.dimRef e = dim_ref row
       /\ levels_sheet_page.entry_name e = name row
       /\ levels_sheet_page.entry_type e = type row
       /\ map Py.int (levels_sheet_page.entry_scenes e)
          = map (fun v => Some (Z.of_nat v)) (scenes row)
       /\ Forall (fun text => String.length text = 2%nat)
                 (levels_sheet_page.entry_scenes e))
     (levels_sheet_page.read_table_data w) (rows w).
Proof.
  intros Hrows. unfold levels_sheet_page.read_table_data. split.
  - rewrite <- (enumerate_from_fst (rows w) 1). rewrite !map_map.
    apply map_ext. intros [idx row]. reflexivity.
  - apply read_entries_from, Hrows.
Qed.

Lemma read_table_data_entries_witness :
  let row := mkRow "2" "D1" "Hall" "Dimmed" [90; 7; 50; 30; 99; 99; 99; 99; 99; 0]%nat in
  let w := mkWorld 65535 true 0.5%Q (Ftdi None) [row; row] "" ""
                   false false (fun _ => true) "Debug Mode: OFF" [] in
  Forall (fun row => Forall (fun v => (v <= 99)%nat) (scenes row)) (rows w)
  /\ map levels_sheet_page.channel (levels_sheet_page.read_table_data w) = [1; 2]%nat.
Proof.
  intros row w.
  assert (H : Forall (fun row => Forall (fun v => (v <= 99)%nat) (scenes row)) (rows w))
    by (repeat constructor; lia).
  split; [exact H|]. exact (proj1 (read_table_data_entries w H)).
Defined.

(** ** The Next Step button *)

(** X20. In debug mode a checkpoint first clears the step-ready event and
    then waits: a signal left over from before the checkpoint is
    discarded, so with no further click the thread stays suspended; and
    one click on the enabled Next Step button releases exactly this
    checkpoint: the wait returns, debug mode stays on, and the clicks that
    follow are still to come. *)
Theorem next_step_releases_one_checkpoint (w : World) (rest : list UiAction) :
  debug_mode w = true ->
  enabled w next_step_button = true ->
  let stale := set_operator [] (set_step_ready true w) in
  let r := levels_sheet_page.wait_for_next_step
             (set_operator (ClickNextStep :: rest) w) in
  outcome (levels_sheet_page.wait_for_next_step stale) = Blocked
  /\ outcome r = Ok tt
  /\ events r = [ELog "Waiting for Next Step button..."; EClear; EWait;
                 ELog "Proceeding to next step..."]
  /\ operator (final r) = rest
  /\ debug_mode (final r) = true
  /\ current_state (final r) = current_state w.
Proof.
  destruct w as [s hr d g rw sn de dm sr en tx op].
  cbn [debug_mode enabled]. intros -> Hen. cbv zeta.
  unfold levels_sheet_page.wait_for_next_step, levels_sheet_page.step_ready_clear,
    levels_sheet_page.step_ready_wait.
  destruct rest; cbn; unfold bind, gets; cbn; rewrite Hen; cbn;
    unfold levels_sheet_page.on_next_step, levels_sheet_page.step_ready_set, bind;
    cbn; repeat split; reflexivity.
Qed.

Lemma next_step_releases_one_checkpoint_witness :
  let w := set_debug_mode true (power_on (Ftdi None) []) in
  debug_mode w = true /\ enabled w next_step_button = true
  /\ outcome (levels_sheet_page.wait_for_next_step
                (set_operator [ClickNextStep; ClickNextStep] w)) = Ok tt.
Proof.
  intros w. split; [reflexivity|]. split; [reflexivity|].
  exact (proj1 (proj2 (next_step_releases_one_checkpoint w [ClickNextStep]
                         eq_refl eq_refl))).
Defined.

(** ** Rebuilding the table *)

Lemma bind_step {A B : Type} (m : M A) (k : A -> M B) (a : A) (w w1 : World) :
  m w = mkRun (Ok a) w1 [] -> bind m k w = k a w1.
Proof. intros H. unfold bind. rewrite H. cbn. destruct (k a w1); reflexivity. Qed.

Lemma set_rows_set_rows (a b : list Row) (w : World) :
  set_rows a (set_rows b w) = set_rows a w.
Proof. reflexivity. Qed.

Lemma rows_set_rows (a : list Row) (w : World) : rows (set_rows a w) = a.
Proof. reflexivity. Qed.

Lemma set_rows_same (w : World) : set_rows (rows w) w = w.
Proof. destruct w; reflexivity. Qed.

Lemma create_row_default (i : Z) (w : World) :
  levels_sheet_page.create_row i w = mkRun (Ok default_row) (new_buttons w i) [].
Proof. reflexivity. Qed.

Lemma fold_left_commute {A B : Type} (f : B -> A -> B) (g : B -> B) (xs : list A) :
  (forall b a, f (g b) a = g (f b a)) ->
  forall b, fold_left f xs (g b) = g (fold_left f xs b).
Proof.
  intros H. induction xs as [|x xs IH]; intros b; [reflexivity|].
  cbn [fold_left]. rewrite H. apply IH.
Qed.

Lemma fold_left_preserves {A B C : Type} (f : B -> A -> B) (p : B -> C) (xs : list A) :
  (forall b a, p (f b a) = p b) ->
  forall b, p (fold_left f xs b) = p b.
Proof.
  intros H. induction xs as [|x xs IH]; intros b; [reflexivity|].
  cbn [fold_left]. rewrite IH. apply H.
Qed.

Lemma new_buttons_set_rows (l : list Row) (w : World) (j : Z) :
  new_buttons (set_rows l w) j = set_rows l (new_buttons w j).
Proof.
  unfold new_buttons.
  apply (fold_left_commute _ (set_rows l)). intros b a. reflexivity.
Qed.

Lemma fold_new_buttons_set_rows (indices : list Z) (l : list Row) (w : World) :
  fold_left new_buttons indices (set_rows l w)
  = set_rows l (fold_left new_buttons indices w).
Proof.
  apply (fold_left_commute new_buttons (set_rows l)).
  intros b a. apply new_buttons_set_rows.
Qed.

Lemma rows_new_buttons (w : World) (j : Z) : rows (new_buttons w j) = rows w.
Proof.
  unfold new_buttons. apply (fold_left_preserves _ rows). intros b a. reflexivity.
Qed.

Lemma rows_fold_new_buttons (indices : list Z) (w : World) :
  rows (fold_left new_buttons indices w) = rows w.
Proof.
  apply (fold_left_preserves new_buttons rows). intros b a. apply rows_new_buttons.
Qed.

Lemma create_rows_run (indices : list Z) (w : World) :
  for_each indices (fun i =>
    row <- levels_sheet_page.create_row i ;;
    modify (fun w => set_rows (rows w ++ [row]) w)) w
  = mkRun (Ok tt)
          (set_rows (rows w ++ repeat default_row (List.length indices))
                    (fold_left new_buttons indices w)) [].
Proof.
  revert w. induction indices as [|i indices IH]; intros w.
  - cbn [for_each List.length repeat fold_left].
    rewrite app_nil_r, set_rows_same. reflexivity.
  - cbn [for_each List.length repeat fold_left].
    rewrite (bind_step _ _ tt w (set_rows (rows w ++ [default_row]) (new_buttons w i))).
    + rewrite IH. rewrite rows_set_rows, fold_new_buttons_set_rows,
        set_rows_set_rows, <- app_assoc.
      reflexivity.
    + rewrite (bind_step _ _ default_row w _ (create_row_default i w)).
      unfold modify. rewrite rows_new_buttons. reflexivity.
Qed.

Lemma setCurrentText_item (items : list string) (text current : string) :
  In text items -> levels_sheet_page.setCurrentText items text current = text.
Proof.
  intros H. unfold levels_sheet_page.setCurrentText.
  assert (E : existsb (String.eqb text) items = true).
  { apply existsb_exists. exists text. split; [exact H | apply String.eqb_refl]. }
  rewrite E. reflexivity.
Qed.

Lemma setValue_small (v : nat) :
  (v <= 99)%nat -> levels_sheet_page.setValue (Z.of_nat v) = v.
Proof. intros H. unfold levels_sheet_page.setValue. lia. Qed.

Lemma update_nth_fuse {A : Type} (n : nat) (f g : A -> A) (l : list A) :
  levels_sheet_page.update_nth n f (levels_sheet_page.update_nth n g l)
  = levels_sheet_page.update_nth n (fun x => f (g x)) l.
Proof.
  revert n. induction l as [|x l IH]; intros [|n]; cbn; try reflexivity.
  rewrite IH. reflexivity.
Qed.

Lemma update_nth_at {A : Type} (n : nat) (f : A -> A) (l : list A) (x : A) :
  nth_error l n = Some x ->
  levels_sheet_page.update_nth n f l = levels_sheet_page.update_nth n (fun _ => f x) l.
Proof.
  revert n. induction l as [|y l IH]; intros [|n]; cbn; try discriminate.
  - intros [= ->]. reflexivity.
  - intros H. rewrite (IH n H). reflexivity.
Qed.

Lemma item_nth_error {A : Type} (xs : list A) (k : nat) (x : A) (w : World) :
  nth_error xs k = Some x ->
  levels_sheet_page.item xs (Z.of_nat k) w = mkRun (Ok x) w [].
Proof.
  intros H. unfold levels_sheet_page.item.
  assert (Hk : (k < List.length xs)%nat) by (apply nth_error_Some; congruence).
  rewrite (list_at_nat xs k x Hk). rewrite (nth_error_nth _ _ _ H). reflexivity.
Qed.

Lemma update_row_run (i : Z) (f : Row -> Row) (w : World) :
  levels_sheet_page.update_row i f w
  = mkRun (Ok tt) (set_rows (levels_sheet_page.update_nth (Z.to_nat i) f (rows w)) w) [].
Proof. reflexivity. Qed.

Lemma restore_scene_run (scene_texts : list string) (i : Z) (j v : nat) (w : World) :
  nth_error scene_texts j = Some (Py.format_02d (Z.of_nat v)) ->
  (v <= 99)%nat ->
  (if Z.of_nat j <? Z.of_nat (List.length scene_texts)
   then text <- levels_sheet_page.item scene_texts (Z.of_nat j) ;;
        v <- levels_sheet_page.int_of text ;;
        levels_sheet_page.update_row i
          (levels_sheet_page.with_scene (Z.of_nat j) (levels_sheet_page.setValue v))
   else ret tt) w
  = mkRun (Ok tt)
      (set_rows (levels_sheet_page.update_nth (Z.to_nat i)
                   (levels_sheet_page.with_scene (Z.of_nat j) v) (rows w)) w) [].
Proof.
  intros Hj Hv.
  assert (Hlt : (j < List.length scene_texts)%nat) by (apply nth_error_Some; congruence).
  destruct (Z.ltb_spec (Z.of_nat j) (Z.of_nat (List.length scene_texts))); [|lia].
  rewrite (bind_step _ _ _ w w (item_nth_error _ _ _ w Hj)).
  unfold levels_sheet_page.int_of.
  rewrite (proj1 (format_02d_round_trip v Hv)).
  rewrite (bind_step _ _ (Z.of_nat v) w w eq_refl).
  rewrite setValue_small by exact Hv. reflexivity.
Qed.

Lemma restore_row_run (old_data : list (levels_sheet_page.Entry nat)) (k idx : nat)
    (old : Row) (w : World) :
  nth_error old_data k
  = Some (levels_sheet_page.mkEntry idx (zone old) (dim_ref old) (name old) (type old)
            (map (fun spin => Py.format_02d (Z.of_nat spin)) (scenes old))) ->
  nth_error (rows w) k = Some default_row ->
  widget_row old ->
  levels_sheet_page.restore_row old_data (Z.of_nat k) w
  = mkRun (Ok tt) (set_rows (levels_sheet_page.update_nth k (fun _ => old) (rows w)) w) [].
Proof.
  intros Hdata Hrow (Hz & Ht & Hlen & Hv).
  destruct old as [z dr nm ty sc]. cbn [zone dim_ref name type scenes] in *.
  do 10 (destruct sc as [|? sc]; [discriminate|]).
  destruct sc; [|discriminate]. clear Hlen.
  repeat match goal with
         | H : Forall _ (_ :: _) |- _ =>
             let Hx := fresh "Hx" in inversion H as [|? ? Hx ?]; subst; clear H
         end.
  unfold levels_sheet_page.restore_row.
  rewrite (bind_step _ _ _ w w (item_nth_error _ _ _ w Hdata)).
  rewrite (bind_step _ _ (rows w) w w eq_refl).
  rewrite (bind_step _ _ _ w w (item_nth_error _ _ _ w Hrow)).
  do 4 (erewrite bind_step; [|apply update_row_run]).
  cbn [scenes default_row List.length levels_sheet_page.entry_scenes
       levels_sheet_page.entry_zone levels_sheet_page.dimRef
       levels_sheet_page.entry_name levels_sheet_page.entry_type].
  change (Py.range 10) with (map Z.of_nat [0; 1; 2; 3; 4; 5; 6; 7; 8; 9]%nat).
  cbn [map for_each].
  do 10 (erewrite bind_step; [|eapply restore_scene_run; [reflexivity | assumption]]).
  unfold ret. f_equal.
  rewrite !rows_set_rows, !set_rows_set_rows, !Nat2Z.id, !update_nth_fuse.
  rewrite (update_nth_at k _ (rows w) default_row Hrow).
  rewrite (setCurrentText_item _ _ _ Hz), (setCurrentText_item _ _ _ Ht).
  reflexivity.
Qed.

Lemma nth_error_enumerate_from {A : Type} (xs : list A) (start k : nat) (x : A) :
  nth_error xs k = Some x ->
  nth_error (enumerate_from start xs) k = Some ((start + k)%nat, x).
Proof.
  revert start k. induction xs as [|y xs IH]; intros start [|k]; cbn; try discriminate.
  - intros [= ->]. rewrite Nat.add_0_r. reflexivity.
  - intros H. rewrite (IH (S start) k H). f_equal. f_equal. lia.
Qed.

Lemma update_nth_app {A : Type} (a b : list A) (x : A) (f : A -> A) (n : nat) :
  List.length a = n ->
  levels_sheet_page.update_nth n f (a ++ x :: b) = a ++ f x :: b.
Proof.
  intros <-. induction a as [|y a IH]; cbn; [reflexivity|]. rewrite IH. reflexivity.
Qed.

Lemma firstn_snoc {A : Type} (xs : list A) (k : nat) (x : A) :
  nth_error xs k = Some x -> firstn (S k) xs = firstn k xs ++ [x].
Proof.
  revert k. induction xs as [|y xs IH]; intros [|k]; cbn [nth_error];
    try discriminate.
  - intros [= ->]. reflexivity.
  - intros H. rewrite !firstn_cons, (IH k H). reflexivity.
Qed.

Lemma restore_rows_run (w0 : World) (N : nat) :
  Forall widget_row (rows w0) ->
  forall count start,
  (start + count <= List.length (rows w0))%nat ->
  (start + count <= N)%nat ->
  for_each (map (fun k => 0 + Z.of_nat k) (seq start count))
           (levels_sheet_page.restore_row (levels_sheet_page.read_table_data w0))
           (set_rows (firstn start (rows w0) ++ repeat default_row (N - start)) w0)
  = mkRun (Ok tt)
      (set_rows (firstn (start + count) (rows w0)
                 ++ repeat default_row (N - (start + count))) w0) [].
Proof.
  intros Hrows. induction count as [|count IH]; intros start Hlen HN.
  - cbn [seq map for_each]. rewrite Nat.add_0_r. reflexivity.
  - cbn [seq map for_each]. rewrite Z.add_0_l.
    destruct (nth_error (rows w0) start) as [row|] eqn:Erow.
    2: { apply nth_error_None in Erow. lia. }
    assert (Hrow : widget_row row).
    { rewrite Forall_forall in Hrows. apply Hrows. eapply nth_error_In, Erow. }
    assert (Hstart : List.length (firstn start (rows w0)) = start)
      by (rewrite length_firstn; lia).
    assert (Hrep : (N - start = S (N - S start))%nat) by lia.
    set (l := firstn start (rows w0) ++ repeat default_row (N - start)).
    rewrite (bind_step _ _ tt (set_rows l w0)
               (set_rows (levels_sheet_page.update_nth start (fun _ => row) l)
                         (set_rows l w0))).
    + rewrite set_rows_set_rows. unfold l. rewrite Hrep. cbn [repeat].
      rewrite (update_nth_app _ _ _ _ _ Hstart).
      replace (firstn start (rows w0) ++ row :: repeat default_row (N - S start))
        with (firstn (S start) (rows w0) ++ repeat default_row (N - S start))
        by (rewrite (firstn_snoc _ _ _ Erow), <- app_assoc; reflexivity).
      rewrite (IH (S start)) by lia.
      replace (S start + count)%nat with (start + S count)%nat by lia.
      reflexivity.
    + apply (restore_row_run _ start (1 + start) row).
      * unfold levels_sheet_page.read_table_data.
        rewrite nth_error_map, (nth_error_enumerate_from _ 1 start row Erow).
        reflexivity.
      * rewrite rows_set_rows. unfold l. rewrite Hrep. cbn [repeat].
        rewrite nth_error_app2 by lia. rewrite Hstart, Nat.sub_diag. reflexivity.
      * exact Hrow.
Qed.

Lemma length_range_from (a b : Z) :
  List.length (Py.range_from a b) = Z.to_nat (b - a).
Proof. unfold Py.range_from. rewrite length_map, length_seq. reflexivity. Qed.

(** X21. [rebuild_table] keeps the table by position: for a table whose
    rows are as their widgets can hold them, rebuilding to [num_channels]
    rows never raises and performs no event; the rows that exist before and
    after keep their zone, dim ref, name, type and ten scene values; rows
    beyond the old table are the default row (zone 1, type Dimmed, scenes
    90, 70, 50, 30, 99, 99, 99, 99, 99, 0); and rows beyond [num_channels]
    are dropped. A number below 1 empties the table. Nothing else changes
    but the "P" buttons of the rebuilt rows, which are new and enabled. *)
Theorem rebuild_table_keeps_rows (num_channels : Z) (w : World) :
  Forall widget_row (rows w) ->
  let n := Z.to_nat num_channels in
  levels_sheet_page.rebuild_table num_channels w
  = mkRun (Ok tt)
      (set_rows (firstn n (rows w) ++ repeat default_row (n - List.length (rows w)))
                (new_table_buttons num_channels w))
      [].
Proof.
  intros Hrows n. unfold levels_sheet_page.rebuild_table.
  rewrite (bind_step _ _ (rows w) w w eq_refl).
  rewrite (bind_step _ _ (levels_sheet_page.read_table_data w) w w).
  2: { destruct (rows w) eqn:E; [|reflexivity].
       unfold levels_sheet_page.read_table_data. rewrite E. reflexivity. }
  rewrite (bind_step _ _ tt w (set_rows [] w) eq_refl).
  rewrite (bind_step _ _ tt (set_rows [] w) _ (create_rows_run _ _)).
  rewrite rows_set_rows, fold_new_buttons_set_rows, set_rows_set_rows,
    length_range_from.
  cbn [List.app].
  replace (num_channels + 1 - 1) with num_channels by lia. fold n.
  fold (new_table_buttons num_channels w).
  set (w0 := new_table_buttons num_channels w).
  assert (Hw0 : rows w0 = rows w) by apply rows_fold_new_buttons.
  assert (Hdata : levels_sheet_page.read_table_data w0
                  = levels_sheet_page.read_table_data w)
    by (unfold levels_sheet_page.read_table_data; rewrite Hw0; reflexivity).
  assert (Hlen : List.length (levels_sheet_page.read_table_data w)
                 = List.length (rows w)).
  { unfold levels_sheet_page.read_table_data. rewrite length_map.
    rewrite <- (length_map fst), enumerate_from_fst, length_seq. reflexivity. }
  rewrite Hlen. unfold Py.range_from.
  set (m := Z.to_nat (Z.min num_channels (Z.of_nat (List.length (rows w))) - 0)).
  assert (Hm : m = Nat.min n (List.length (rows w))) by (unfold m, n; lia).
  assert (Hrows0 : Forall widget_row (rows w0)) by (rewrite Hw0; exact Hrows).
  pose proof (restore_rows_run w0 n Hrows0 m 0%nat) as H.
  rewrite Hdata, Hw0 in H.
  cbn [firstn List.app Nat.add] in H. rewrite Nat.sub_0_r in H.
  rewrite H by lia. f_equal.
  destruct (Nat.le_ge_cases n (List.length (rows w))) as [Hle|Hge].
  - replace m with n by lia.
    replace (n - n)%nat with (n - List.length (rows w))%nat by lia. reflexivity.
  - replace m with (List.length (rows w)) by lia.
    rewrite firstn_all, (firstn_all2 (rows w)) by lia. reflexivity.
Qed.

Lemma rebuild_table_keeps_rows_witness :
  let row := mkRow "2" "D1" "Hall" "Switched" [10; 20; 30; 40; 50; 60; 70; 80; 90; 5]%nat in
  let w := mkWorld 65535 true 0.5%Q (Ftdi None) [row; row] "" ""
                   false false (fun _ => true) "Debug Mode: OFF" [] in
  Forall widget_row (rows w)
  /\ rows (final (levels_sheet_page.rebuild_table 3 w)) = [row; row; default_row]
  /\ rows (final (levels_sheet_page.rebuild_table 1 w)) = [row].
Proof.
  intros row w.
  assert (Hrow : widget_row row).
  { unfold widget_row. cbn [zone type scenes row].
    split; [right; left; reflexivity|]. split; [right; left; reflexivity|].
    split; [reflexivity|]. repeat (apply Forall_cons; [lia|]). apply Forall_nil. }
  assert (H : Forall widget_row (rows w))
    by (apply Forall_cons; [exact Hrow|]; apply Forall_cons; [exact Hrow|];
        apply Forall_nil).
  split; [exact H|].
  rewrite (rebuild_table_keeps_rows 3 w H), (rebuild_table_keeps_rows 1 w H).
  split; reflexivity.
Defined.

(** ** The state lock *)

Lemma disciplined_timeline (held : bool) (t : list Event) :
  disciplined held (timeline t) = disciplined held t.
Proof.
  revert held. induction t as [|e t IH]; intros held; [reflexivity|].
  destruct e; cbn [timeline filter is_log negb disciplined];
    fold (timeline t); rewrite ?IH; reflexivity.
Qed.

Lemma disciplined_app (held : bool) (t1 t2 : list Event) :
  disciplined held t1 = true ->
  disciplined held (t1 ++ t2) = disciplined false t2.
Proof.
  revert held. induction t1 as [|e t1 IH]; intros held H.
  - destruct held; [discriminate | reflexivity].
  - destruct e; cbn [List.app disciplined] in *;
      try (apply andb_prop in H as [-> H]; cbn [andb]); auto.
Qed.

Lemma disciplined_pulses (d gap : Q) (s : Z) (pins : list Z) :
  disciplined false (pulses_timeline d gap s pins) = true.
Proof.
  revert s. induction pins as [|p pins IH]; intros s; [reflexivity|].
  cbn [pulses_timeline List.app disciplined negb andb]. apply IH.
Qed.

Lemma disciplined_guardedMulti (d : Q) (s : Z) (pins : list Z) :
  disciplined false (guardedMulti_timeline d s pins) = true.
Proof.
  unfold guardedMulti_timeline. cbv zeta.
  cbn [List.app disciplined negb andb].
  rewrite disciplined_app by apply disciplined_pulses. reflexivity.
Qed.

Lemma disciplined_digit_entry (d gap : Q) (s : Z) (text : string) :
  disciplined false (digit_entry_timeline d gap s text) = true.
Proof.
  unfold digit_entry_timeline.
  induction (chars text) as [|k ks IH]; [reflexivity|].
  cbn [flat_map pulses_timeline List.app disciplined negb andb]. exact IH.
Qed.

Lemma disciplined_play (d : Q) (s scene : Z) (channel : nat) (level_value : string) :
  disciplined false (play_timeline d s scene channel level_value) = true.
Proof.
  unfold play_timeline, guardedSingle_timeline.
  repeat first
    [ rewrite disciplined_app by
        first [ apply disciplined_guardedMulti | apply disciplined_pulses
              | apply disciplined_digit_entry | reflexivity ]
    | reflexivity ].
Qed.

(** X22. On a device that accepts every write, the relay threads keep the
    lock discipline: in a guarded sequence over any valid keys, in a double
    press, in the pulse of one relay, in the relay test, in [program_zone]
    and in the play sequence, every write is made while the state lock is
    held, every sleep while it is free, the lock is never taken twice nor
    released when free, and it is free at the end. *)
Theorem lock_discipline (mode_name : string) (pins : list Z) (a b : Z)
    (channel : nat) (level_value : string) (w : World) :
  Forall (fun p => 0 <= p <= 9) pins ->
  0 <= a <= 9 -> 0 <= b <= 9 ->
  string_forall is_digit level_value = true ->
  hardware_ready w = true ->
  reliable (gpio w) ->
  relays_off (current_state w) ->
  Forall (fun run => disciplined false (events run) = true)
    [ relay_control._sequence_mode_thread mode_name (map Py.str pins) w;
      relay_control._double_press_mode_thread mode_name (Py.str a) (Py.str b) w;
      relay_control._toggle_relay_thread (Py.str a) w;
      relay_control._test_all_relays_thread w;
      relay_control.program_zone (Py.str a) None w;
      relay_control._play_scene_level_sequence_execute_sequence
        channel (Py.str a) level_value None w ].
Proof.
  intros Hpins Ha Hb Hlevel Hready Hr Hoff.
  pose proof (RELAY_PINS_str a Ha) as Hka.
  pose proof (RELAY_PINS_str b Hb) as Hkb.
  assert (Huse : forall (m : M unit) w' t,
            runs m w (Ok tt) w' t -> disciplined false t = true ->
            disciplined false (events (m w)) = true).
  { intros m w' t (_ & _ & <-) H. rewrite disciplined_timeline in H. exact H. }
  repeat (apply Forall_cons; [|]); [ | | | | | | apply Forall_nil].
  - eapply Huse;
      [apply (runs_sequence_mode mode_name _ pins w (keys_of_pins pins Hpins) Hr)|].
    apply disciplined_guardedMulti.
  - eapply Huse; [apply (runs_double_press mode_name _ _ a b w Hka Hkb Hr)|].
    reflexivity.
  - eapply Huse; [apply (runs_toggle_relay_thread _ a w Hka Hr)|]. reflexivity.
  - eapply Huse; [apply (runs_test_all_relays w Hr Hoff)|].
    change (Py.range 10) with [0; 1; 2; 3; 4; 5; 6; 7; 8; 9]. reflexivity.
  - eapply Huse; [apply (runs_program_zone a w Ha Hready Hr Hoff)|].
    cbv zeta.
    repeat first
      [ rewrite disciplined_app by first [apply disciplined_pulses | reflexivity]
      | reflexivity ].
  - eapply Huse;
      [apply (runs_play_sequence a channel level_value w Ha Hlevel Hr Hoff)|].
    apply disciplined_play.
Qed.

Lemma lock_discipline_witness :
  let w := power_on (Ftdi None) [] in
  Forall (fun p => 0 <= p <= 9) [4; 5; 6; 6] /\ 0 <= 1 <= 9 /\ 0 <= 5 <= 9
  /\ string_forall is_digit "90" = true /\ hardware_ready w = true
  /\ reliable (gpio w) /\ relays_off (current_state w)
  /\ disciplined false
       (events (relay_control._sequence_mode_thread "Reset" ["4"; "5"; "6"; "6"] w))
     = true.
Proof.
  intros w.
  assert (Hoff : relays_off (current_state w)) by apply relays_off_65535.
  assert (Hpins : Forall (fun p => 0 <= p <= 9) [4; 5; 6; 6])
    by (repeat (apply Forall_cons; [lia|]); apply Forall_nil).
  split; [exact Hpins|]. split; [lia|]. split; [lia|]. split; [reflexivity|].
  split; [reflexivity|]. split; [exact I|]. split; [exact Hoff|].
  pose proof (lock_discipline "Reset" [4; 5; 6; 6] 1 5 7 "90" w Hpins
                ltac:(lia) ltac:(lia) eq_refl eq_refl I Hoff) as H.
  inversion H as [|? ? H1 _]. exact H1.
Defined.

(** ** The debug switch *)

(** X23. [toggle_debug_mode] flips debug mode and keeps the widgets in
    step with it: afterwards the Next Step button is enabled exactly when
    debug mode is on and the debug button shows "Debug Mode: ON" or
    "Debug Mode: OFF" accordingly; switching debug mode off sets the
    step-ready event, switching it on leaves the event as it was; it never
    writes to the device, and two toggles give the debug mode back. *)
Theorem toggle_debug_mode_consistent (w : World) :
  let r := levels_sheet_page.toggle_debug_mode w in
  let on := negb (debug_mode w) in
  outcome r = Ok tt
  /\ debug_mode (final r) = on
  /\ enabled (final r) next_step_button = on
  /\ debug_button_text (final r) = (if on then "Debug Mode: ON" else "Debug Mode: OFF")
  /\ step_ready (final r) = (if on then step_ready w else true)
  /\ writes (events r) = []
  /\ log_lines (events r) = [if on then "Debug mode enabled" else "Debug mode disabled"]
  /\ debug_mode (final (levels_sheet_page.toggle_debug_mode (final r))) = debug_mode w.
Proof.
  destruct w as [s hr d g rw sn de dm sr en tx op].
  destruct dm; cbn; repeat split; reflexivity.
Qed.
